(** * MunkiRepoTeamsNotifier / MunkiRepoTeamsSummarizer

    A shallow embedding of the two AutoPkg processors of
    [SharedProcessors/]: the Teams message card they build (a nested Python
    dictionary), the translators that turn a MunkiImporter or MunkiAutoStaging
    summary into facts, the curl based delivery loop, and the [main] of the
    summarizer with its message cache file.

    Python values are modelled by [pyval], exceptions by [exn], and code with
    side effects by a state-and-exception monad [M] over a [World] holding the
    file system, the log written by [self.output], the curl invocations and
    the pauses taken by [sleep].  The [json] codec and string formatting are
    library code of the Python runtime and are taken as section variables. *)

From Stdlib Require Import String Ascii ZArith List Bool Lia.
From stdpp Require Import base option gmap strings pretty.
Import ListNotations.

Local Open Scope string_scope.
Local Open Scope Z_scope.

#[local] Set Warnings "-register-all".

(** ** Python values and exceptions *)

(** The values that flow through the processors: what [json.load] returns
    and what the summaries hold.  A [PDict] keeps insertion order, as a Python
    dictionary does, and its keys are strings. *)
Inductive pyval : Type :=
| PNone
| PBool (b : bool)
| PInt (z : Z)
| PStr (s : string)
| PList (items : list pyval)
| PDict (entries : list (string * pyval)).

(** The exceptions the modelled code can meet.  [FileNotFoundError] and
    [PermissionError] are subclasses of [OSError] (of which [IOError] is an
    alias); [JSONDecodeError] is a subclass of [ValueError]. *)
Inductive exn : Type :=
| KeyError (key : pyval)
| IndexError
| TypeError (msg : string)
| AttributeError (msg : string)
| ValueError (msg : string)
| NameError (name : string)
| FileNotFoundError (path : string)
| PermissionError (path : string)
| OSError (msg : string)
| JSONDecodeError
| ProcessorError (args : list string).

Inductive result (A : Type) : Type :=
| Ok (a : A)
| Raise (e : exn).
Arguments Ok {A} a.
Arguments Raise {A} e.

Definition rbind {A B} (c : result A) (k : A -> result B) : result B :=
  match c with
  | Ok a => k a
  | Raise e => Raise e
  end.

Declare Scope py_scope.
Delimit Scope py_scope with py.
Notation "x <~ c ;; k" := (rbind c (fun x => k))
  (at level 100, c at next level, right associativity) : py_scope.
Local Open Scope py_scope.

Definition is_OSError (e : exn) : bool :=
  match e with
  | FileNotFoundError _ | PermissionError _ | OSError _ => true
  | _ => false
  end.

Definition is_KeyError (e : exn) : bool :=
  match e with KeyError _ => true | _ => false end.

Definition is_JSONDecodeError (e : exn) : bool :=
  match e with JSONDecodeError => true | _ => false end.

Definition is_ProcessorError (e : exn) : bool :=
  match e with ProcessorError _ => true | _ => false end.

Definition nonempty (s : string) : bool :=
  match s with EmptyString => false | String _ _ => true end.

(** Truth value testing: [None], [False], zero and empty containers are
    false. *)
Definition truthy (v : pyval) : bool :=
  match v with
  | PNone => false
  | PBool b => b
  | PInt z => negb (z =? 0)
  | PStr s => nonempty s
  | PList items => match items with [] => false | _ :: _ => true end
  | PDict entries => match entries with [] => false | _ :: _ => true end
  end.

(** [a or b] *)
Definition py_or (a b : pyval) : pyval := if truthy a then a else b.
Definition str_or (a b : string) : string := if nonempty a then a else b.

(** ** Dictionaries *)

Fixpoint dict_get (k : string) (d : list (string * pyval)) : option pyval :=
  match d with
  | [] => None
  | (k', v) :: d' => if String.eqb k k' then Some v else dict_get k d'
  end.

(** [d[k] = v]: an existing key keeps its position, a new key goes last. *)
Fixpoint dict_set (k : string) (v : pyval) (d : list (string * pyval))
  : list (string * pyval) :=
  match d with
  | [] => [(k, v)]
  | (k', v') :: d' =>
      if String.eqb k k' then (k', v) :: d' else (k', v') :: dict_set k v d'
  end.

Fixpoint dict_del (k : string) (d : list (string * pyval))
  : list (string * pyval) :=
  match d with
  | [] => []
  | (k', v') :: d' =>
      if String.eqb k k' then dict_del k d' else (k', v') :: dict_del k d'
  end.

(** [obj.get(k)] *)
Definition py_get (obj : pyval) (k : string) : result pyval :=
  match obj with
  | PDict d => Ok (match dict_get k d with Some v => v | None => PNone end)
  | _ => Raise (AttributeError "object has no attribute 'get'")
  end.

(** ** Subscripts

    The card is reached through chains of subscripts such as
    [message["attachments"][0]["content"]].  A subscript is a string key or
    the index of a list item. *)
Inductive subscript : Type :=
| Key (k : string)
| Idx (i : nat).

(** [obj[s]] *)
Definition getitem (obj : pyval) (s : subscript) : result pyval :=
  match obj, s with
  | PDict d, Key k =>
      match dict_get k d with
      | Some v => Ok v
      | None => Raise (KeyError (PStr k))
      end
  | PDict d, Idx i => Raise (KeyError (PInt (Z.of_nat i)))
  | PList items, Idx i =>
      match nth_error items i with
      | Some v => Ok v
      | None => Raise IndexError
      end
  | PList _, Key _ => Raise (TypeError "list indices must be integers")
  | PStr str, Idx i =>
      match String.get i str with
      | Some c => Ok (PStr (String c EmptyString))
      | None => Raise IndexError
      end
  | PStr _, Key _ => Raise (TypeError "string indices must be integers")
  | _, _ => Raise (TypeError "object is not subscriptable")
  end.

Fixpoint list_set (i : nat) (v : pyval) (items : list pyval) : list pyval :=
  match items, i with
  | [], _ => []
  | _ :: rest, O => v :: rest
  | x :: rest, S j => x :: list_set j v rest
  end.

(** [obj[s] = v] *)
Definition setitem (obj : pyval) (s : subscript) (v : pyval) : result pyval :=
  match obj, s with
  | PDict d, Key k => Ok (PDict (dict_set k v d))
  | PList items, Idx i =>
      if (i <? length items)%nat then Ok (PList (list_set i v items))
      else Raise IndexError
  | PList _, Key _ => Raise (TypeError "list indices must be integers")
  | _, _ => Raise (TypeError "object does not support item assignment")
  end.

(** [del obj[s]] *)
Definition delitem (obj : pyval) (s : subscript) : result pyval :=
  match obj, s with
  | PDict d, Key k =>
      match dict_get k d with
      | Some _ => Ok (PDict (dict_del k d))
      | None => Raise (KeyError (PStr k))
      end
  | PList _, Key _ => Raise (TypeError "list indices must be integers")
  | _, _ => Raise (TypeError "object does not support item deletion")
  end.

(** The inner containers of a message are shared objects that the source
    mutates in place.  Here the object found at the end of [path] is handed
    to [f] and the containers on the way are rebuilt around what [f]
    returns. *)
Fixpoint update_at (path : list subscript) (f : pyval -> result pyval)
    (obj : pyval) : result pyval :=
  match path with
  | [] => f obj
  | s :: rest =>
      inner <~ getitem obj s ;;
      inner' <~ update_at rest f inner ;;
      setitem obj s inner'
  end.

Fixpoint lookup_at (path : list subscript) (obj : pyval) : result pyval :=
  match path with
  | [] => Ok obj
  | s :: rest => inner <~ getitem obj s ;; lookup_at rest inner
  end.

(** [lst += items] *)
Definition iadd_list (lst : pyval) (items : list pyval) : result pyval :=
  match lst with
  | PList l => Ok (PList (l ++ items))
  | _ => Raise (TypeError "unsupported operand type(s) for +=")
  end.

(** ** The message card

    [new_message] and the setters are the same in both processors. *)

(** [message["attachments"][0]["content"]] *)
Definition content_path : list subscript :=
  [Key "attachments"; Idx 0; Key "content"].

(** [message["attachments"][0]["content"]["sections"][0]] *)
Definition section_path : list subscript :=
  [Key "attachments"; Idx 0; Key "content"; Key "sections"; Idx 0].

Definition set_activity_image (message activity_image : pyval)
  : result pyval :=
  if truthy activity_image then
    update_at section_path
      (fun sec => setitem sec (Key "activityImage") activity_image) message
  else
    match update_at section_path
            (fun sec => delitem sec (Key "activityImage")) message with
    | Ok message' => Ok message'
    | Raise e => if is_KeyError e then Ok message else Raise e
    end.

Definition new_message (title activity_title activity_subtitle
                          activity_image : pyval) : result pyval :=
  let message :=
    PDict
      [("type", PStr "message");
       ("attachments",
        PList
          [PDict
             [("contentType",
               PStr "application/vnd.microsoft.teams.card.o365connector");
              ("content",
               PDict
                 [("$schema", PStr "https://schema.org/extensions");
                  ("sections",
                   PList
                     [PDict
                        [("activitySubtitle", activity_subtitle);
                         ("activityTitle", activity_title);
                         ("facts", PList [])]]);
                  ("summary", title);
                  ("themeColor", PStr "778eb1");
                  ("title", title);
                  ("type", PStr "MessageCard")])]])] in
  if truthy activity_image then
    update_at section_path
      (fun sec => setitem sec (Key "activityImage") activity_image) message
  else Ok message.

Definition set_title (message title : pyval) : result pyval :=
  message <~ update_at content_path
               (fun c => setitem c (Key "summary") title) message ;;
  message <~ update_at content_path
               (fun c => setitem c (Key "title") title) message ;;
  Ok message.

Definition set_activity_title (message activity_title : pyval)
  : result pyval :=
  update_at section_path
    (fun sec => setitem sec (Key "activityTitle") activity_title) message.

Definition set_activity_subtitle (message activity_subtitle : pyval)
  : result pyval :=
  update_at section_path
    (fun sec => setitem sec (Key "activitySubtitle") activity_subtitle)
    message.

Definition add_fact (message name value : pyval) : result pyval :=
  update_at section_path
    (fun sec =>
       facts <~ getitem sec (Key "facts") ;;
       facts <~ iadd_list facts [PDict [("name", name); ("value", value)]] ;;
       setitem sec (Key "facts") facts)
    message.

(** [(a, b) = obj]: unpacking iterates over [obj]; a dictionary yields its
    keys and a string its characters. *)
Definition unpack2 (obj : pyval) : result (pyval * pyval) :=
  match obj with
  | PList [a; b] => Ok (a, b)
  | PDict [(k1, _); (k2, _)] => Ok (PStr k1, PStr k2)
  | PStr (String c1 (String c2 EmptyString)) =>
      Ok (PStr (String c1 EmptyString), PStr (String c2 EmptyString))
  | PList _ | PDict _ | PStr _ =>
      Raise (ValueError "wrong number of values to unpack")
  | _ => Raise (TypeError "cannot unpack non-iterable object")
  end.

(** ** The world around a processor run *)

Record File : Type := mkFile {
  content : string;
  readable : bool
}.

(** What one run of [/usr/bin/curl] does: it cannot be started, or it exits
    with a return code and what it wrote to stdout and stderr. *)
Inductive CurlOutcome : Type :=
| SpawnFailed (msg : string)
| Exited (returncode : Z) (out err : string).

(** How [open(path, 'w')] fares on a path: the file can be created or
    truncated, it (or its directory) is read-only, or its directory is
    missing. *)
Inductive WriteAccess : Type :=
| Writable
| ReadOnly
| NoDirectory.

(** [fs], [log], [posts] and [sleeps] are changed by the program; the other
    fields are the behaviour of the environment: [transport n] is the
    outcome of the curl run number [n] (counted from 0), [clock] is what
    [datetime.now().strftime("%Y-%m-%d %H:%M:%S")] returns, [disk_full]
    says whether writing to a file fails, [access] how opening a path for
    writing fares, and [late_flush] whether a failing write is noticed only
    when the file is closed, the text having fitted into the buffer of the
    file object. *)
Record World : Type := mkWorld {
  fs : gmap string File;
  log : list (Z * string);
  posts : list (list string);
  sleeps : list Z;
  transport : nat -> CurlOutcome;
  clock : string;
  disk_full : bool;
  access : string -> WriteAccess;
  late_flush : bool
}.

Definition with_fs (w : World) (fs' : gmap string File) : World :=
  mkWorld fs' (log w) (posts w) (sleeps w) (transport w) (clock w)
    (disk_full w) (access w) (late_flush w).
Definition with_log (w : World) (log' : list (Z * string)) : World :=
  mkWorld (fs w) log' (posts w) (sleeps w) (transport w) (clock w)
    (disk_full w) (access w) (late_flush w).
Definition with_posts (w : World) (posts' : list (list string)) : World :=
  mkWorld (fs w) (log w) posts' (sleeps w) (transport w) (clock w)
    (disk_full w) (access w) (late_flush w).
Definition with_sleeps (w : World) (sleeps' : list Z) : World :=
  mkWorld (fs w) (log w) (posts w) sleeps' (transport w) (clock w)
    (disk_full w) (access w) (late_flush w).

(** ** The monad of effects

    A raised exception keeps the world as it was when it was raised: a file
    truncated before the failure stays truncated. *)
Definition M (A : Type) : Type := World -> result A * World.

Definition ret {A} (a : A) : M A := fun w => (Ok a, w).
Definition raise {A} (e : exn) : M A := fun w => (Raise e, w).
Definition bind {A B} (c : M A) (k : A -> M B) : M B :=
  fun w =>
    match c w with
    | (Ok a, w') => k a w'
    | (Raise e, w') => (Raise e, w')
    end.
Definition lift {A} (r : result A) : M A := fun w => (r, w).

Notation "x <- c ;; k" := (bind c (fun x => k))
  (at level 100, c at next level, right associativity) : py_scope.
Notation "c ;;; k" := (bind c (fun _ => k))
  (at level 100, right associativity) : py_scope.

(** Any Python object: a value of the data model, or an object the model
    does not look into (a module, a class, a function, a file object). *)
Inductive pyobj : Type :=
| Data (v : pyval)
| Opaque (what : string).

(** The built-in names the two modules refer to. *)
Definition builtins : list (string * pyobj) :=
  [("IOError", Opaque "class"); ("OSError", Opaque "class");
   ("FileNotFoundError", Opaque "class"); ("KeyError", Opaque "class");
   ("open", Opaque "function"); ("int", Opaque "class");
   ("range", Opaque "class")].

Fixpoint ns_get (name : string) (ns : list (string * pyobj)) : option pyobj :=
  match ns with
  | [] => None
  | (n, o) :: ns' => if String.eqb name n then Some o else ns_get name ns'
  end.

(** Loading a name that is neither a global of the module nor a built-in
    raises [NameError]. *)
Definition load_name (ns : list (string * pyobj)) (name : string)
  : M pyobj :=
  match ns_get name ns with
  | Some o => ret o
  | None => raise (NameError name)
  end.

Fixpoint load_names (ns : list (string * pyobj)) (names : list string)
  : M unit :=
  match names with
  | [] => ret tt
  | n :: rest => _ <- load_name ns n ;; load_names ns rest
  end.

(** [isinstance(e, cls)] for the exception classes named in the [except]
    clauses of the source. *)
Definition exn_isinstance (e : exn) (cls : string) : bool :=
  if String.eqb cls "OSError" || String.eqb cls "IOError" then is_OSError e
  else if String.eqb cls "JSONDecodeError" then is_JSONDecodeError e
  else if String.eqb cls "ProcessorError" then is_ProcessorError e
  else if String.eqb cls "KeyError" then is_KeyError e
  else false.

(** [try: body / except (clause): handler].  The classes of the clause are
    looked up only once [body] has raised, and before the exception is
    matched against them. *)
Definition try_except {A} (ns : list (string * pyobj)) (body : M A)
    (clause : list string) (handler : exn -> M A) : M A :=
  fun w =>
    match body w with
    | (Ok a, w') => (Ok a, w')
    | (Raise e, w') =>
        (load_names ns clause ;;;
         if existsb (exn_isinstance e) clause then handler e else raise e) w'
    end.

(** [try: body / except (cls()): pass].  The clause is an instance, not a
    class: matching any exception against it is a [TypeError]. *)
Definition try_except_instance (ns : list (string * pyobj)) (body : M unit)
    (cls : string) : M unit :=
  fun w =>
    match body w with
    | (Ok a, w') => (Ok a, w')
    | (Raise e, w') =>
        (load_name ns cls ;;;
         raise (TypeError
           "catching classes that do not inherit from BaseException is not allowed"))
          w'
    end.

(** [self.output(msg, verbose_level)] *)
Definition output (msg : string) (verbose_level : Z) : M unit :=
  fun w => (Ok tt, with_log w (log w ++ [(verbose_level, msg)])).

(** [sleep(seconds)] *)
Definition sleep (seconds : Z) : M unit :=
  fun w => (Ok tt, with_sleeps w (sleeps w ++ [seconds])).

(** [subprocess.Popen(cmd, ...)] followed by [proc.communicate()] *)
Definition popen_communicate (cmd : list string) : M (Z * string * string) :=
  fun w =>
    let w' := with_posts w (posts w ++ [cmd]) in
    match transport w (length (posts w)) with
    | SpawnFailed msg => (Raise (OSError msg), w')
    | Exited returncode out err => (Ok (returncode, out, err), w')
    end.

(** [open(path, 'r')]; the text is what reading the file object yields. *)
Definition open_r (path : string) : M string :=
  fun w =>
    match fs w !! path with
    | None => (Raise (FileNotFoundError path), w)
    | Some f =>
        if readable f then (Ok (content f), w)
        else (Raise (PermissionError path), w)
    end.

(** [open(path, 'w')] creates the file or truncates it; where the path
    cannot be written it raises and leaves the files as they are. *)
Definition open_w (path : string) : M unit :=
  fun w =>
    match access w path with
    | ReadOnly => (Raise (PermissionError path), w)
    | NoDirectory => (Raise (FileNotFoundError path), w)
    | Writable =>
        let f :=
          match fs w !! path with
          | None => mkFile "" true
          | Some f => mkFile "" (readable f)
          end in
        (Ok tt, with_fs w (<[path := f]> (fs w)))
    end.

(** Writing [text] to the file opened on [path].  On a full disk the write
    raises, unless the text stays in the buffer of the file object: then it
    is [close_w] that raises.  A write that fails leaves the file as
    [open_w] made it. *)
Definition write (path text : string) : M unit :=
  fun w =>
    if disk_full w then
      if late_flush w then (Ok tt, w)
      else (Raise (OSError "No space left on device"), w)
    else
      match fs w !! path with
      | None => (Ok tt, with_fs w (<[path := mkFile text true]> (fs w)))
      | Some f =>
          (Ok tt, with_fs w (<[path := mkFile text (readable f)]> (fs w)))
      end.

(** Leaving the [with] block of a file opened for writing closes it, which
    flushes what is still in the buffer. *)
Definition close_w (path : string) : M unit :=
  fun w =>
    if disk_full w && late_flush w
    then (Raise (OSError "No space left on device"), w)
    else (Ok tt, w).

(** [datetime.now().strftime("%Y-%m-%d %H:%M:%S")] *)
Definition now_strftime : M string := fun w => (Ok (clock w), w).

Definition exn_text (e : exn) : string :=
  match e with
  | OSError msg | TypeError msg | AttributeError msg | ValueError msg => msg
  | FileNotFoundError path | PermissionError path | NameError path => path
  | _ => ""
  end.

(** [range(lo, hi)] *)
Definition py_range (lo hi : Z) : list Z :=
  map (fun i => lo + Z.of_nat i) (seq 0 (Z.to_nat (hi - lo))).

(** ** String formatting and delivery

    [py_repr] is Python's [repr] of lists and dictionaries and [json_dumps]
    is [json.dumps]; both belong to the Python runtime. *)
Section Delivery.

Variable py_repr : pyval -> string.
Variable json_dumps : pyval -> string.

(** What [{value}] in an f-string and [str.format] produce. *)
Definition py_format (v : pyval) : string :=
  match v with
  | PNone => "None"
  | PBool true => "True"
  | PBool false => "False"
  | PInt z => pretty z
  | PStr s => s
  | PList _ | PDict _ => py_repr v
  end.

(** The adjacent literals ["-H" "Content-Type: application/json"] of the
    source are one string. *)
Definition curl_cmd (message_json teams_webhook_url : string)
  : list string :=
  ["/usr/bin/curl"; "--silent"; "--show-error"; "--fail-with-body";
   "-HContent-Type: application/json"; "-d"; message_json;
   teams_webhook_url].

Definition _curl_json_poster (message_json teams_webhook_url : string)
  : M bool :=
  proc <- try_except builtins
            (popen_communicate (curl_cmd message_json teams_webhook_url))
            ["IOError"; "OSError"]
            (fun error => raise (ProcessorError [exn_text error])) ;;
  let '(returncode, out, err) := proc in
  if negb (returncode =? 0) || nonempty err then
    @raise unit
      (ProcessorError
         ["curl returned an error while sending teams message via webhook.";
          "returncode: " +:+ py_format (PInt returncode);
          "stdout: " +:+ out;
          "stderr: " +:+ err]) ;;;
    output
      "curl returned an error while sending teams messagevia webhook." 1 ;;;
    output ("returncode: " +:+ py_format (PInt returncode)) 1 ;;;
    output ("stdout: " +:+ out) 1 ;;;
    output ("stderr: " +:+ err) 1 ;;;
    ret false
  else ret true.

(** The [for count in range(1, 6): ... else: ...] loop: [break] leaves the
    loop without running the [else] branch, which runs once the range is
    used up. *)
Fixpoint send_loop (counts : list Z) (message_json teams_webhook_url : string)
  : M unit :=
  match counts with
  | [] =>
      output "Giving up posting to Teams:" 1 ;;;
      output "Teams webhook send did not succeed after 5 attempts" 1 ;;;
      raise (ProcessorError ["ERROR: Teams webhook failed to send 5 times."])
  | count :: rest =>
      output ("Teams webhook post attempt " +:+ py_format (PInt count)) 2 ;;;
      success <- _curl_json_poster message_json teams_webhook_url ;;
      if success : bool then ret tt
      else (sleep 10 ;;; send_loop rest message_json teams_webhook_url)
  end.

Definition send_teams_message (teams_webhook_url : string) (message : pyval)
  : M unit :=
  let message_json := json_dumps message in
  send_loop (py_range 1 6) message_json teams_webhook_url.

End Delivery.

(** ** MunkiRepoTeamsNotifier.py: the translators of the notifier *)
Module Notifier.
Section Translators.

Variable py_repr : pyval -> string.
Abbreviation fmt := (py_format py_repr).

Definition munki_message (message munki_summary : pyval) (verbosity : Z)
  : M (pyval * pyval) :=
  data <- lift (py_get munki_summary "data") ;;
  name <- lift (py_get data "name") ;;
  version <- lift (py_get data "version") ;;
  catalogs <- lift (py_get data "catalogs") ;;
  pkginfo_path <- lift (py_get data "pkginfo_path") ;;
  pkg_repo_path <- lift (py_get data "pkg_repo_path") ;;
  icon_repo_path <- lift (py_get data "icon_repo_path") ;;
  output ("          MunkiImporter name: " +:+ fmt name) 1 ;;;
  output ("       MunkiImporter version: " +:+ fmt version) 1 ;;;
  output ("      MunkiImporter catalogs: " +:+ fmt catalogs) 1 ;;;
  output ("  MunkiImporter pkginfo_path: " +:+ fmt pkginfo_path) 1 ;;;
  output (" MunkiImporter pkg_repo_path: " +:+ fmt pkg_repo_path) 1 ;;;
  output ("MunkiImporter icon_repo_path: " +:+ fmt icon_repo_path) 1 ;;;
  message <- (if 3 <=? verbosity
              then lift (add_fact message (PStr "Name") name)
              else ret message) ;;
  message <- lift (add_fact message (PStr "new Version") version) ;;
  message <- (if 1 <=? verbosity
              then lift (add_fact message (PStr "in Catalogs") catalogs)
              else ret message) ;;
  message <- (if 2 <=? verbosity
              then
                message <- lift (add_fact message (PStr "PkgInfo Path")
                                   pkginfo_path) ;;
                lift (add_fact message (PStr "Package Path") pkg_repo_path)
              else ret message) ;;
  message <- (if 3 <=? verbosity
              then
                if truthy icon_repo_path
                then lift (add_fact message (PStr "Icon Path")
                             icon_repo_path)
                else lift (add_fact message (PStr "Icon Path")
                             (PStr "no icon path given"))
              else ret message) ;;
  ret (message, name).

Definition staging_message (message autostaging_summary : pyval)
    (verbosity : Z) : M (pyval * pyval) :=
  data <- lift (py_get autostaging_summary "data") ;;
  name <- lift (py_get data "name") ;;
  versions <- lift (py_get data "versions") ;;
  munki_staging_catalog <- lift (py_get data "staging_catalog") ;;
  munki_production_catalog <- lift (py_get data "production_catalog") ;;
  output ("                    AutoStaging name: " +:+ fmt name) 1 ;;;
  output ("                AutoStaging versions: " +:+ fmt versions) 1 ;;;
  output ("   AutoStaging munki_staging_catalog: "
          +:+ fmt munki_staging_catalog) 1 ;;;
  output ("AutoStaging munki_production_catalog: "
          +:+ fmt munki_production_catalog) 1 ;;;
  message <- (if 3 <=? verbosity
              then lift (add_fact message (PStr "Name") name)
              else ret message) ;;
  message <- lift (add_fact message (PStr "autostaged Versions") versions) ;;
  message <- (if 1 <=? verbosity
              then
                message <- lift (add_fact message
                                   (PStr "from Staging Catalog")
                                   munki_staging_catalog) ;;
                lift (add_fact message (PStr "to Production Catalogs")
                        munki_production_catalog)
              else ret message) ;;
  ret (message, name).

End Translators.

(** What [self.env.get(...)] returns for each input variable of the
    notifier; an input that is not set reads as [""], [False] or [None]. *)
Record Env : Type := mkEnv {
  NAME : string;
  teams_webhook_url : string;
  teams_username : string;
  verbosity : pyval;
  teams_icon_url : string;
  munki_repo_changed : bool;
  munki_importer_summary_result : pyval;
  munki_autostaging_summary_result : pyval
}.

Section Processor.

Variable py_repr : pyval -> string.
Variable json_dumps : pyval -> string.

(** [int_of_str] is what [int] makes of a string, when it is the literal of
    an integer; it belongs to the Python runtime. *)
Variable int_of_str : string -> option Z.

(** [int(x)] *)
Definition py_int (x : pyval) : result Z :=
  match x with
  | PInt z => Ok z
  | PBool b => Ok (if b then 1 else 0)
  | PStr s =>
      match int_of_str s with
      | Some z => Ok z
      | None => Raise (ValueError "invalid literal for int() with base 10")
      end
  | PNone | PList _ | PDict _ =>
      Raise (TypeError
               "int() argument must be a string, a bytes-like object or a real number")
  end.

(** The branches of [main] either leave with [return] ([None] here) or go
    on with the message and the name for its activity title. *)
Definition main (env : Env) : M unit :=
  let nice_name := str_or (NAME env) "" in
  let teams_webhook_url := teams_webhook_url env in
  let teams_username := str_or (teams_username env) "AutoPkg" in
  verbosity <- lift (py_int (verbosity env)) ;;
  let verbosity := if verbosity =? 0 then 0 else verbosity in
  let teams_icon_url :=
    str_or (teams_icon_url env) "https://munkibuilds.org/logo.jpg" in
  let munki_repo_changed := munki_repo_changed env || false in
  let munki_summary := munki_importer_summary_result env in
  let autostaging_summary := munki_autostaging_summary_result env in
  message <- lift (new_message (PStr teams_username) (PStr "") (PStr "")
                     (PStr teams_icon_url)) ;;
  report <-
    (if munki_repo_changed && truthy munki_summary
        && truthy autostaging_summary then
       message <- lift (set_activity_subtitle message
                          (PStr "MunkiImporter and AutoStaging")) ;;
       r <- munki_message py_repr message munki_summary verbosity ;;
       let '(message, munki_name) := r in
       r <- staging_message py_repr message autostaging_summary verbosity ;;
       let '(message, staging_name) := r in
       ret (Some (message,
                  PStr (py_format py_repr munki_name +:+ " / " +:+ nice_name)))
     else if munki_repo_changed && truthy munki_summary then
       message <- lift (set_activity_subtitle message (PStr "MunkiImporter")) ;;
       r <- munki_message py_repr message munki_summary verbosity ;;
       let '(message, munki_name) := r in
       if nonempty nice_name then
         ret (Some (message,
                    PStr (py_format py_repr munki_name +:+ " / "
                          +:+ nice_name)))
       else ret (Some (message, munki_name))
     else if munki_repo_changed && truthy autostaging_summary then
       message <- lift (set_activity_subtitle message
                          (PStr "MunkiAutoStaging")) ;;
       r <- staging_message py_repr message autostaging_summary verbosity ;;
       let '(message, staging_name) := r in
       ret (Some (message, staging_name))
     else
       output "Nothing to report to Teams" 1 ;;;
       ret None) ;;
  match report with
  | None => ret tt
  | Some (message, name) =>
      message <- lift (set_activity_title message name) ;;
      send_teams_message py_repr json_dumps teams_webhook_url message
  end.

End Processor.
End Notifier.

(** ** MunkiRepoTeamsSummarizer.py *)
Module Summarizer.

(** The names bound at module level: the imports, [__all__], the class and
    what the script binds before [main] runs.  [os], [JSONDecodeError] and
    [verbosity] are not among them. *)
Definition module_globals : list (string * pyobj) :=
  [("json", Opaque "module"); ("subprocess", Opaque "module");
   ("datetime", Opaque "class"); ("sleep", Opaque "function");
   ("Processor", Opaque "class"); ("ProcessorError", Opaque "class");
   ("__all__", Data (PList [PStr "MunkiRepoTeamsSummarizer"]));
   ("MunkiRepoTeamsSummarizer", Opaque "class");
   ("__name__", Data (PStr "__main__"));
   ("PROCESSOR", Opaque "MunkiRepoTeamsSummarizer")].

Definition namespace : list (string * pyobj) := module_globals ++ builtins.

(** What [self.env.get(...)] returns for each input variable; an input that
    is not set reads as [""], [False] or [None]. *)
Record Env : Type := mkEnv {
  teams_webhook_url : string;
  teams_username : string;
  teams_icon_url : string;
  munki_repo_changed : bool;
  munki_importer_summary_result : pyval;
  munki_autostaging_summary_result : pyval;
  msg_file_path : string;
  msg_file_clear_at_start : bool;
  msg_file_clear_after_send : bool;
  msg_file_clear_at_finish : bool
}.

Section Processor.

Variable py_repr : pyval -> string.
Variable json_dumps : pyval -> string.
Variable json_loads : string -> option pyval.
Abbreviation fmt := (py_format py_repr).

(** [json.load(fp)] on the text read from the file *)
Definition json_load (text : string) : M pyval :=
  match json_loads text with
  | Some v => ret v
  | None => raise JSONDecodeError
  end.

(** [json.dump(obj, fp)] on the file opened on [path] *)
Definition json_dump (obj : pyval) (path : string) : M unit :=
  write path (json_dumps obj).

Definition munki_message (message munki_summary : pyval)
    (verbosity : pyobj) : M pyval :=
  data <- lift (py_get munki_summary "data") ;;
  name <- lift (py_get data "name") ;;
  version <- lift (py_get data "version") ;;
  catalogs <- lift (py_get data "catalogs") ;;
  pkginfo_path <- lift (py_get data "pkginfo_path") ;;
  pkg_repo_path <- lift (py_get data "pkg_repo_path") ;;
  icon_repo_path <- lift (py_get data "icon_repo_path") ;;
  output ("          MunkiImporter name: " +:+ fmt name) 1 ;;;
  output ("       MunkiImporter version: " +:+ fmt version) 1 ;;;
  output ("      MunkiImporter catalogs: " +:+ fmt catalogs) 1 ;;;
  output ("  MunkiImporter pkginfo_path: " +:+ fmt pkginfo_path) 1 ;;;
  output (" MunkiImporter pkg_repo_path: " +:+ fmt pkg_repo_path) 1 ;;;
  output ("MunkiImporter icon_repo_path: " +:+ fmt icon_repo_path) 1 ;;;
  message <- lift (add_fact message name
                     (PStr ("imported ver. " +:+ fmt version +:+ " -> "
                            +:+ fmt catalogs))) ;;
  ret message.

Definition staging_message (message autostaging_summary : pyval)
    (verbosity : pyobj) : M pyval :=
  data <- lift (py_get autostaging_summary "data") ;;
  name <- lift (py_get data "name") ;;
  versions <- lift (py_get data "versions") ;;
  munki_staging_catalog <- lift (py_get data "staging_catalog") ;;
  munki_production_catalog <- lift (py_get data "production_catalog") ;;
  output ("                    AutoStaging name: " +:+ fmt name) 1 ;;;
  output ("                AutoStaging versions: " +:+ fmt versions) 1 ;;;
  output ("   AutoStaging munki_staging_catalog: "
          +:+ fmt munki_staging_catalog) 1 ;;;
  output ("AutoStaging munki_production_catalog: "
          +:+ fmt munki_production_catalog) 1 ;;;
  message <- lift (add_fact message name
                     (PStr ("staged ver. " +:+ fmt versions +:+ " "
                            +:+ fmt munki_staging_catalog +:+ " -> "
                            +:+ fmt munki_production_catalog))) ;;
  ret message.

(** [try: os.remove(msg_file) / except (FileNotFoundError()): pass].
    [msg_file] is the local bound by the [with] statements, a closed file
    object, when one of them ran. *)
Definition remove_msg_file (msg_file_bound : bool) : M unit :=
  try_except_instance namespace
    (_ <- load_name namespace "os" ;;
     (if msg_file_bound then ret tt else raise (NameError "msg_file")) ;;;
     raise (TypeError
              "remove: path should be string, bytes or os.PathLike, not TextIOWrapper"))
    "FileNotFoundError".

(** Lines 349-359: prepare / load message *)
Definition acquire (msg_file_path : string) (msg_file_clear_at_start : bool)
  : M pyval :=
  if nonempty msg_file_path && negb msg_file_clear_at_start then
    text <- open_r msg_file_path ;;
    try_except namespace (json_load text)
      ["IOError"; "OSError"; "JSONDecodeError"]
      (fun _ =>
         output ("File " +:+ msg_file_path
                 +:+ " could not be read or is not json formatted. Creating new message.")
           1 ;;;
         ret (PStr ""))
  else ret (PStr "").

(** Lines 361-369: a message that is false is replaced by a new one *)
Definition stamp (message : pyval) (teams_username teams_icon_url : string)
  : M pyval :=
  if negb (truthy message) then
    message <- lift (new_message (PStr teams_username) (PStr "") (PStr "")
                       (PStr teams_icon_url)) ;;
    stamp_text <- now_strftime ;;
    message <- lift (set_activity_title message
                       (PStr ("start: " +:+ stamp_text))) ;;
    ret message
  else ret message.

(** Lines 371-381: process repo changes *)
Definition extend (message : pyval) (munki_repo_changed : bool)
    (munki_summary autostaging_summary : pyval) : M pyval :=
  if munki_repo_changed then
    message <- (if truthy munki_summary then
                  verbosity <- load_name namespace "verbosity" ;;
                  r <- munki_message message munki_summary verbosity ;;
                  pair <- lift (unpack2 r) ;;
                  ret (fst pair)
                else ret message) ;;
    (if truthy autostaging_summary then
       verbosity <- load_name namespace "verbosity" ;;
       r <- staging_message message autostaging_summary verbosity ;;
       pair <- lift (unpack2 r) ;;
       ret (fst pair)
     else ret message)
  else ret message.

(** Lines 383-389: the file is opened for writing, which truncates it,
    before the message is serialised into it.  The [open] and the close at
    the end of the [with] block are outside the [try]: their errors leave
    [main] without the line written to the log. *)
Definition persist (message : pyval) (msg_file_path : string)
    (msg_file_clear_at_finish : bool) : M unit :=
  if nonempty msg_file_path && negb msg_file_clear_at_finish then
    open_w msg_file_path ;;;
    try_except namespace (json_dump message msg_file_path)
      ["IOError"; "OSError"]
      (fun file_error =>
         output ("Failed witing file " +:+ msg_file_path +:+ ".") 1 ;;;
         raise file_error) ;;;
    close_w msg_file_path
  else ret tt.

(** Lines 391-405 *)
Definition deliver (message : pyval) (teams_webhook_url : string)
    (msg_file_clear_after_send msg_file_clear_at_finish : bool)
    (msg_file_bound : bool) : M unit :=
  if nonempty teams_webhook_url then
    try_except namespace
      (send_teams_message py_repr json_dumps teams_webhook_url message ;;;
       if msg_file_clear_after_send then remove_msg_file msg_file_bound
       else ret tt)
      ["ProcessorError"]
      (fun teams_error =>
         if msg_file_clear_at_finish then
           remove_msg_file msg_file_bound ;;;
           raise teams_error
         else ret tt)
  else ret tt.

Definition main (env : Env) : M unit :=
  let teams_webhook_url := str_or (teams_webhook_url env) "" in
  let teams_username := str_or (teams_username env) "AutoPkg" in
  let teams_icon_url :=
    str_or (teams_icon_url env) "https://munkibuilds.org/logo.jpg" in
  let munki_repo_changed := munki_repo_changed env || false in
  let munki_summary := py_or (munki_importer_summary_result env) (PStr "") in
  let autostaging_summary :=
    py_or (munki_autostaging_summary_result env) (PStr "") in
  let msg_file_path := str_or (msg_file_path env) "" in
  let msg_file_clear_at_start := msg_file_clear_at_start env || false in
  let msg_file_clear_after_send := msg_file_clear_after_send env || true in
  let msg_file_clear_at_finish := msg_file_clear_at_finish env || false in
  let msg_file_bound :=
    nonempty msg_file_path
    && (negb msg_file_clear_at_start || negb msg_file_clear_at_finish) in
  message <- acquire msg_file_path msg_file_clear_at_start ;;
  message <- stamp message teams_username teams_icon_url ;;
  message <- extend message munki_repo_changed munki_summary
               autostaging_summary ;;
  persist message msg_file_path msg_file_clear_at_finish ;;;
  deliver message teams_webhook_url msg_file_clear_after_send
    msg_file_clear_at_finish msg_file_bound ;;;
  (if msg_file_clear_at_finish then remove_msg_file msg_file_bound
   else ret tt).

End Processor.
End Summarizer.

(** ** Reading a card *)

(** The section dictionary of a message, when the message has one. *)
Definition section_of (message : pyval) : option (list (string * pyval)) :=
  match lookup_at section_path message with
  | Ok (PDict sec) => Some sec
  | _ => None
  end.

(** The content dictionary of a message. *)
Definition content_of (message : pyval) : option (list (string * pyval)) :=
  match lookup_at content_path message with
  | Ok (PDict c) => Some c
  | _ => None
  end.

(** [message[...]["sections"][0].get(k)], when the message has a section *)
Definition section_get (k : string) (message : pyval) : option pyval :=
  match section_of message with
  | Some sec => dict_get k sec
  | None => None
  end.

Definition content_get (k : string) (message : pyval) : option pyval :=
  match content_of message with
  | Some c => dict_get k c
  | None => None
  end.

(** The facts of a message, in display order. *)
Definition facts_of (message : pyval) : list pyval :=
  match section_get "facts" message with
  | Some (PList facts) => facts
  | _ => []
  end.

(** A card is a message whose section can be reached and holds a list of
    facts: the shape [new_message] builds and every setter keeps. *)
Definition is_card (message : pyval) : bool :=
  match section_get "facts" message with
  | Some (PList _) => true
  | _ => false
  end.

Definition fact (name value : pyval) : pyval :=
  PDict [("name", name); ("value", value)].

(** The section [new_message] builds. *)
Definition new_section (activity_title activity_subtitle activity_image : pyval)
  : list (string * pyval) :=
  [("activitySubtitle", activity_subtitle);
   ("activityTitle", activity_title);
   ("facts", PList [])]
  ++ (if truthy activity_image then [("activityImage", activity_image)]
      else []).

(** ** Sequences of document operations *)

Inductive doc_op : Type :=
| SetTitle (title : pyval)
| SetActivityTitle (activity_title : pyval)
| SetActivitySubtitle (activity_subtitle : pyval)
| SetActivityImage (activity_image : pyval)
| AddFact (name value : pyval).

Definition apply_op (message : pyval) (op : doc_op) : result pyval :=
  match op with
  | SetTitle title => set_title message title
  | SetActivityTitle text => set_activity_title message text
  | SetActivitySubtitle text => set_activity_subtitle message text
  | SetActivityImage url => set_activity_image message url
  | AddFact name value => add_fact message name value
  end.

Fixpoint apply_ops (message : pyval) (ops : list doc_op) : result pyval :=
  match ops with
  | [] => Ok message
  | op :: rest => message' <~ apply_op message op ;; apply_ops message' rest
  end.

(** What every operation keeps: the message is a card, and its summary and
    title hold the same value. *)
Definition titled_card (message : pyval) : Prop :=
  is_card message = true /\
  exists title,
    content_get "summary" message = Some title /\
    content_get "title" message = Some title.

(** The title an operation leaves when it starts from [title]: [set_title]
    stores the one it is given, every other operation keeps the one it
    finds. *)
Definition op_title (title : pyval) (op : doc_op) : pyval :=
  match op with
  | SetTitle title' => title'
  | _ => title
  end.

(** The title a sequence of operations leaves: the one of its last
    [SetTitle], or the one it started from. *)
Definition last_title (title : pyval) (ops : list doc_op) : pyval :=
  fold_left op_title ops title.

(** The message is a card whose summary and title both hold [title]. *)
Definition titled_with (title : pyval) (message : pyval) : Prop :=
  is_card message = true /\
  content_get "summary" message = Some title /\
  content_get "title" message = Some title.

(** ** Vocabulary of the delivery engine *)

(** A curl run counts as delivered when it exits with code 0 and wrote
    nothing to stderr. *)
Definition attempt_ok (o : CurlOutcome) : bool :=
  match o with
  | SpawnFailed _ => false
  | Exited returncode _ err => (returncode =? 0) && negb (nonempty err)
  end.

(** The error [_curl_json_poster] raises for a run that was not delivered. *)
Definition attempt_error (o : CurlOutcome) : exn :=
  match o with
  | SpawnFailed msg => ProcessorError [msg]
  | Exited returncode out err =>
      ProcessorError
        ["curl returned an error while sending teams message via webhook.";
         "returncode: " +:+ pretty returncode;
         "stdout: " +:+ out;
         "stderr: " +:+ err]
  end.

(** The world after the one curl run of [send_teams_message]. *)
Definition after_attempt (w : World) (cmd : list string) : World :=
  with_posts (with_log w (log w ++ [(2, "Teams webhook post attempt 1")]))
    (posts w ++ [cmd]).

(** ** Vocabulary of the summarizer *)

(** What can go wrong when the cached message is read, and the exception
    that leaves [main] in each case. *)
Inductive acquire_problem (json_loads : string -> option pyval) (w : World)
    (path : string) : exn -> Prop :=
| file_missing :
    fs w !! path = None ->
    acquire_problem json_loads w path (FileNotFoundError path)
| file_unreadable f :
    fs w !! path = Some f -> readable f = false ->
    acquire_problem json_loads w path (PermissionError path)
| file_malformed f :
    fs w !! path = Some f -> readable f = true ->
    json_loads (content f) = None ->
    acquire_problem json_loads w path (NameError "JSONDecodeError").

(** The message [stamp] makes when the acquired one is false. *)
Definition fresh_message (teams_username teams_icon_url stamp_text : string)
  : result pyval :=
  message <~ new_message (PStr teams_username) (PStr "") (PStr "")
               (PStr teams_icon_url) ;;
  set_activity_title message (PStr ("start: " +:+ stamp_text)).

(** The world after [open(path, 'w')]. *)
Definition truncated (w : World) (path : string) : World :=
  with_fs w
    (<[path := mkFile ""
                 (match fs w !! path with
                  | Some f => readable f
                  | None => true
                  end)]> (fs w)).

(** The message [main] works on once the cached one has been acquired. *)
Definition stamped (env : Summarizer.Env) (w : World) (message : pyval)
  : result pyval :=
  if truthy message then Ok message
  else fresh_message
         (str_or (Summarizer.teams_username env) "AutoPkg")
         (str_or (Summarizer.teams_icon_url env)
            "https://munkibuilds.org/logo.jpg")
         (clock w).

(** Whether [main] has a summary to translate. *)
Definition has_changes (env : Summarizer.Env) : bool :=
  Summarizer.munki_repo_changed env
  && (truthy (Summarizer.munki_importer_summary_result env)
      || truthy (Summarizer.munki_autostaging_summary_result env)).

Definition msg_file_bound (env : Summarizer.Env) : bool :=
  nonempty (Summarizer.msg_file_path env)
  && (negb (Summarizer.msg_file_clear_at_start env)
      || negb (Summarizer.msg_file_clear_at_finish env)).

(** ** Vocabulary of the translators *)

(** [data.get(k)] on the dictionary of a summary *)
Definition data_get (k : string) (data : list (string * pyval)) : pyval :=
  match dict_get k data with
  | Some v => v
  | None => PNone
  end.

(** The facts of the detailed mode as the specification lists them: the
    name from verbosity 3, the version always, the catalogs from 1, the two
    paths from 2, and from 3 the icon path or its placeholder. *)
Definition detailed_import_facts (data : list (string * pyval))
    (verbosity : Z) : list pyval :=
  ((if 3 <=? verbosity then [fact (PStr "Name") (data_get "name" data)]
    else [])
   ++ [fact (PStr "new Version") (data_get "version" data)]
   ++ (if 1 <=? verbosity
       then [fact (PStr "in Catalogs") (data_get "catalogs" data)]
       else [])
   ++ (if 2 <=? verbosity
       then [fact (PStr "PkgInfo Path") (data_get "pkginfo_path" data);
             fact (PStr "Package Path") (data_get "pkg_repo_path" data)]
       else [])
   ++ (if 3 <=? verbosity
       then [fact (PStr "Icon Path")
               (if truthy (data_get "icon_repo_path" data)
                then data_get "icon_repo_path" data
                else PStr "no icon path given")]
       else []))%list.

(** The one fact of the compact mode for an import. *)
Definition compact_import_fact (py_repr : pyval -> string)
    (data : list (string * pyval)) : pyval :=
  fact (data_get "name" data)
    (PStr ("imported ver. " +:+ py_format py_repr (data_get "version" data)
           +:+ " -> " +:+ py_format py_repr (data_get "catalogs" data))).

(** ** Vocabulary of the further properties *)

(** The message made of the containers [d], [a], [c] of a card once its
    section has been replaced by [sec]. *)
Definition card_with_section (d a : list (string * pyval)) (ar : list pyval)
    (c : list (string * pyval)) (sr : list pyval)
    (sec : list (string * pyval)) : pyval :=
  PDict
    (dict_set "attachments"
       (PList
          (PDict
             (dict_set "content"
                (PDict (dict_set "sections" (PList (PDict sec :: sr)) c)) a)
           :: ar)) d).

(** The facts a sequence of document operations adds, in order. *)
Definition added_facts (ops : list doc_op) : list pyval :=
  flat_map (fun op => match op with
                      | AddFact name value => [fact name value]
                      | _ => []
                      end) ops.

(** The world once [entries] have been written to the log. *)
Definition logged (w : World) (entries : list (Z * string)) : World :=
  with_log w (log w ++ entries).

(** The facts of the detailed mode for a staging summary, as the source
    orders them. *)
Definition detailed_staging_facts (data : list (string * pyval))
    (verbosity : Z) : list pyval :=
  ((if 3 <=? verbosity then [fact (PStr "Name") (data_get "name" data)]
    else [])
   ++ [fact (PStr "autostaged Versions") (data_get "versions" data)]
   ++ (if 1 <=? verbosity
       then [fact (PStr "from Staging Catalog")
               (data_get "staging_catalog" data);
             fact (PStr "to Production Catalogs")
               (data_get "production_catalog" data)]
       else []))%list.

(** The one fact of the compact mode for a staging summary. *)
Definition compact_staging_fact (py_repr : pyval -> string)
    (data : list (string * pyval)) : pyval :=
  fact (data_get "name" data)
    (PStr ("staged ver. " +:+ py_format py_repr (data_get "versions" data)
           +:+ " " +:+ py_format py_repr (data_get "staging_catalog" data)
           +:+ " -> "
           +:+ py_format py_repr (data_get "production_catalog" data))).

(** The lines the import translators write to the log. *)
Definition import_log (py_repr : pyval -> string)
    (data : list (string * pyval)) : list (Z * string) :=
  [(1, "          MunkiImporter name: "
       +:+ py_format py_repr (data_get "name" data));
   (1, "       MunkiImporter version: "
       +:+ py_format py_repr (data_get "version" data));
   (1, "      MunkiImporter catalogs: "
       +:+ py_format py_repr (data_get "catalogs" data));
   (1, "  MunkiImporter pkginfo_path: "
       +:+ py_format py_repr (data_get "pkginfo_path" data));
   (1, " MunkiImporter pkg_repo_path: "
       +:+ py_format py_repr (data_get "pkg_repo_path" data));
   (1, "MunkiImporter icon_repo_path: "
       +:+ py_format py_repr (data_get "icon_repo_path" data))].

(** The lines the staging translators write to the log. *)
Definition staging_log (py_repr : pyval -> string)
    (data : list (string * pyval)) : list (Z * string) :=
  [(1, "                    AutoStaging name: "
       +:+ py_format py_repr (data_get "name" data));
   (1, "                AutoStaging versions: "
       +:+ py_format py_repr (data_get "versions" data));
   (1, "   AutoStaging munki_staging_catalog: "
       +:+ py_format py_repr (data_get "staging_catalog" data));
   (1, "AutoStaging munki_production_catalog: "
       +:+ py_format py_repr (data_get "production_catalog" data))].

(** The [add_fact] calls of the detailed import translator, in the order
    of the source. *)
Definition import_ops (data : list (string * pyval)) (verbosity : Z)
  : list doc_op :=
  ((if 3 <=? verbosity then [AddFact (PStr "Name") (data_get "name" data)]
    else [])
   ++ [AddFact (PStr "new Version") (data_get "version" data)]
   ++ (if 1 <=? verbosity
       then [AddFact (PStr "in Catalogs") (data_get "catalogs" data)]
       else [])
   ++ (if 2 <=? verbosity
       then [AddFact (PStr "PkgInfo Path") (data_get "pkginfo_path" data);
             AddFact (PStr "Package Path") (data_get "pkg_repo_path" data)]
       else [])
   ++ (if 3 <=? verbosity
       then [AddFact (PStr "Icon Path")
               (if truthy (data_get "icon_repo_path" data)
                then data_get "icon_repo_path" data
                else PStr "no icon path given")]
       else []))%list.

(** The [add_fact] calls of the detailed staging translator. *)
Definition staging_ops (data : list (string * pyval)) (verbosity : Z)
  : list doc_op :=
  ((if 3 <=? verbosity then [AddFact (PStr "Name") (data_get "name" data)]
    else [])
   ++ [AddFact (PStr "autostaged Versions") (data_get "versions" data)]
   ++ (if 1 <=? verbosity
       then [AddFact (PStr "from Staging Catalog")
               (data_get "staging_catalog" data);
             AddFact (PStr "to Production Catalogs")
               (data_get "production_catalog" data)]
       else []))%list.

(** A translator result: the message paired with the name. *)
Definition with_name (r : result pyval) (name : pyval)
  : result (pyval * pyval) :=
  match r with
  | Ok message => Ok (message, name)
  | Raise e => Raise e
  end.

(** Two messages that differ at most in their facts. *)
Definition same_but_facts (message message' : pyval) : Prop :=
  (forall k, k <> "facts" ->
             section_get k message' = section_get k message) /\
  (forall k, k <> "sections" ->
             content_get k message' = content_get k message).

(** ** A small JSON codec and sample inputs

    The theorems on [main] hold for every [json] codec and every [repr].
    To run the model on concrete inputs, this module supplies a codec for
    the values of [pyval]: [dumps] writes what [json.dumps] writes with its
    default separators when the text is printable ASCII, and [loads] reads
    it back. *)
Module Example.

Definition quote : ascii := "034"%char.
Definition backslash : ascii := "092"%char.

Fixpoint escape (s : string) : string :=
  match s with
  | EmptyString => EmptyString
  | String c rest =>
      if Ascii.eqb c quote || Ascii.eqb c backslash
      then String backslash (String c (escape rest))
      else String c (escape rest)
  end.

Definition quoted (s : string) : string :=
  String quote (escape s +:+ String quote EmptyString).

Fixpoint join (sep : string) (parts : list string) : string :=
  match parts with
  | [] => ""
  | [p] => p
  | p :: rest => p +:+ sep +:+ join sep rest
  end.

Fixpoint dumps (v : pyval) : string :=
  match v with
  | PNone => "null"
  | PBool true => "true"
  | PBool false => "false"
  | PInt z => pretty z
  | PStr s => quoted s
  | PList items => "[" +:+ join ", " (map dumps items) +:+ "]"
  | PDict entries =>
      "{" +:+ join ", " (map (fun kv => quoted (fst kv) +:+ ": "
                                        +:+ dumps (snd kv)) entries)
      +:+ "}"
  end.

(** [repr] of a list or dictionary whose text is printable ASCII without
    quotes or backslashes. *)
Fixpoint repr (v : pyval) : string :=
  match v with
  | PNone => "None"
  | PBool true => "True"
  | PBool false => "False"
  | PInt z => pretty z
  | PStr s => "'" +:+ s +:+ "'"
  | PList items => "[" +:+ join ", " (map repr items) +:+ "]"
  | PDict entries =>
      "{" +:+ join ", " (map (fun kv => "'" +:+ fst kv +:+ "': "
                                        +:+ repr (snd kv)) entries)
      +:+ "}"
  end.

Definition is_space (c : ascii) : bool :=
  Ascii.eqb c " "%char || Ascii.eqb c "010"%char || Ascii.eqb c "013"%char
  || Ascii.eqb c "009"%char.

Fixpoint skip_ws (s : string) : string :=
  match s with
  | String c rest => if is_space c then skip_ws rest else s
  | EmptyString => EmptyString
  end.

Fixpoint strip_prefix (p s : string) : option string :=
  match p, s with
  | EmptyString, _ => Some s
  | String a p', String b s' =>
      if Ascii.eqb a b then strip_prefix p' s' else None
  | String _ _, EmptyString => None
  end.

(** The characters of a string literal up to its closing quote. *)
Fixpoint read_chars (s : string) : option (string * string) :=
  match s with
  | EmptyString => None
  | String c rest =>
      if Ascii.eqb c quote then Some (EmptyString, rest)
      else if Ascii.eqb c backslash then
        match rest with
        | String e rest' =>
            if Ascii.eqb e quote || Ascii.eqb e backslash then
              match read_chars rest' with
              | Some (text, rest'') => Some (String e text, rest'')
              | None => None
              end
            else None
        | EmptyString => None
        end
      else
        match read_chars rest with
        | Some (text, rest') => Some (String c text, rest')
        | None => None
        end
  end.

Definition digit_of (c : ascii) : option Z :=
  let n := Z.of_nat (nat_of_ascii c) in
  if (48 <=? n) && (n <=? 57) then Some (n - 48) else None.

Fixpoint read_digits (s : string) (acc : Z) : Z * string :=
  match s with
  | String c rest =>
      match digit_of c with
      | Some d => read_digits rest (10 * acc + d)
      | None => (acc, s)
      end
  | EmptyString => (acc, s)
  end.

Definition starts_with_digit (s : string) : bool :=
  match s with
  | String c _ => match digit_of c with Some _ => true | None => false end
  | EmptyString => false
  end.

Fixpoint read_value (fuel : nat) (s : string) : option (pyval * string) :=
  match fuel with
  | O => None
  | S fuel' =>
      let s := skip_ws s in
      match strip_prefix "null" s, strip_prefix "true" s,
            strip_prefix "false" s with
      | Some rest, _, _ => Some (PNone, rest)
      | _, Some rest, _ => Some (PBool true, rest)
      | _, _, Some rest => Some (PBool false, rest)
      | None, None, None =>
          match s with
          | String c rest =>
              if Ascii.eqb c quote then
                match read_chars rest with
                | Some (text, rest') => Some (PStr text, rest')
                | None => None
                end
              else if Ascii.eqb c "["%char then
                match strip_prefix "]" (skip_ws rest) with
                | Some rest' => Some (PList [], rest')
                | None =>
                    match read_items fuel' rest with
                    | Some (items, rest') => Some (PList items, rest')
                    | None => None
                    end
                end
              else if Ascii.eqb c "{"%char then
                match strip_prefix "}" (skip_ws rest) with
                | Some rest' => Some (PDict [], rest')
                | None =>
                    match read_members fuel' rest with
                    | Some (entries, rest') => Some (PDict entries, rest')
                    | None => None
                    end
                end
              else if Ascii.eqb c "-"%char then
                if starts_with_digit rest then
                  let '(n, rest') := read_digits rest 0 in
                  Some (PInt (- n), rest')
                else None
              else if starts_with_digit s then
                let '(n, rest') := read_digits s 0 in Some (PInt n, rest')
              else None
          | EmptyString => None
          end
      end
  end
with read_items (fuel : nat) (s : string) : option (list pyval * string) :=
  match fuel with
  | O => None
  | S fuel' =>
      match read_value fuel' s with
      | Some (v, rest) =>
          let rest := skip_ws rest in
          match strip_prefix "," rest, strip_prefix "]" rest with
          | Some rest', _ =>
              match read_items fuel' rest' with
              | Some (items, rest'') => Some (v :: items, rest'')
              | None => None
              end
          | None, Some rest' => Some ([v], rest')
          | None, None => None
          end
      | None => None
      end
  end
with read_members (fuel : nat) (s : string)
  : option (list (string * pyval) * string) :=
  match fuel with
  | O => None
  | S fuel' =>
      match strip_prefix (String quote EmptyString) (skip_ws s) with
      | Some rest =>
          match read_chars rest with
          | Some (k, rest) =>
              match strip_prefix ":" (skip_ws rest) with
              | Some rest =>
                  match read_value fuel' rest with
                  | Some (v, rest) =>
                      let rest := skip_ws rest in
                      match strip_prefix "," rest, strip_prefix "}" rest with
                      | Some rest', _ =>
                          match read_members fuel' rest' with
                          | Some (entries, rest'') =>
                              match dict_get k entries with
                              | Some v' =>
                                  Some ((k, v') :: dict_del k entries, rest'')
                              | None => Some ((k, v) :: entries, rest'')
                              end
                          | None => None
                          end
                      | None, Some rest' => Some ([(k, v)], rest')
                      | None, None => None
                      end
                  | None => None
                  end
              | None => None
              end
          | None => None
          end
      | None => None
      end
  end.

Definition loads (text : string) : option pyval :=
  match read_value (S (String.length text)) text with
  | Some (v, rest) =>
      match skip_ws rest with
      | EmptyString => Some v
      | String _ _ => None
      end
  | None => None
  end.

End Example.

(** ** Sample inputs *)
Module Sample.

Definition path : string := "/tmp/teams_messages.json".
Definition url : string := "https://example.invalid/webhook".

Definition delivered : CurlOutcome := Exited 0 "1" "".
Definition refused : CurlOutcome :=
  Exited 22 "" "curl: (22) The requested URL returned error: 500".

(** A transport that refuses every post, and one that refuses the first
    post only. *)
Definition always (o : CurlOutcome) : nat -> CurlOutcome := fun _ => o.
Definition refused_once : nat -> CurlOutcome :=
  fun n => match n with O => refused | S _ => delivered end.

Definition import_summary : pyval :=
  PDict
    [("summary_text", PStr "The following new items were imported into Munki:");
     ("data",
      PDict
        [("name", PStr "GoogleChrome");
         ("version", PStr "101.0.4951.54");
         ("catalogs", PList [PStr "testing"]);
         ("pkginfo_path", PStr "apps/GoogleChrome-101.0.4951.54.plist");
         ("pkg_repo_path", PStr "apps/GoogleChrome-101.0.4951.54.dmg")])].

(** An import summary whose data has no [name]. *)
Definition nameless_summary : pyval :=
  PDict
    [("data",
      PDict
        [("version", PStr "101.0.4951.54");
         ("catalogs", PList [PStr "testing"])])].

(** The message an earlier run left behind: one fact. *)
Definition prior_card : pyval :=
  Eval vm_compute in
    match
      (m <~ new_message (PStr "AutoPkg") (PStr "") (PStr "")
              (PStr "https://munkibuilds.org/logo.jpg") ;;
       m <~ set_activity_title m (PStr "start: 2022-05-02 09:30:00") ;;
       add_fact m (PStr "Firefox") (PStr "imported ver. 100.0 -> ['testing']"))
    with
    | Ok m => m
    | Raise _ => PNone
    end.

(** The data of [nameless_summary]. *)
Definition nameless_data : list (string * pyval) :=
  [("version", PStr "101.0.4951.54"); ("catalogs", PList [PStr "testing"])].

(** A message file holding [text], or no file at all. *)
Definition cached (text : string) : gmap string File :=
  {[ path := mkFile text true ]}.
Definition no_files : gmap string File := empty.

Definition world (files : gmap string File) (transport : nat -> CurlOutcome)
    (disk_full : bool) : World :=
  mkWorld files [] [] [] transport "2022-05-02 10:00:00" disk_full
    (fun _ => Writable) false.

Definition env (url path : string) (changed : bool) (import_result : pyval)
    (clear_at_start clear_at_finish : bool) : Summarizer.Env :=
  Summarizer.mkEnv url "" "" changed import_result PNone path clear_at_start
    true clear_at_finish.

Definition main : Summarizer.Env -> M unit :=
  Summarizer.main Example.repr Example.dumps Example.loads.

End Sample.

(** ** Sample inputs of the further properties *)
Module MoreSamples.

(** [int] of a plain decimal literal with an optional sign. *)
Definition int_of_str (s : string) : option Z :=
  match s with
  | String c rest =>
      if Ascii.eqb c "-"%char then
        if Example.starts_with_digit rest then
          match Example.read_digits rest 0 with
          | (n, EmptyString) => Some (- n)
          | _ => None
          end
        else None
      else if Example.starts_with_digit s then
        match Example.read_digits s 0 with
        | (n, EmptyString) => Some n
        | _ => None
        end
      else None
  | EmptyString => None
  end.

Definition import_data : list (string * pyval) :=
  [("name", PStr "GoogleChrome");
   ("version", PStr "101.0.4951.54");
   ("catalogs", PList [PStr "testing"]);
   ("pkginfo_path", PStr "apps/GoogleChrome-101.0.4951.54.plist");
   ("pkg_repo_path", PStr "apps/GoogleChrome-101.0.4951.54.dmg")].

Definition staging_data : list (string * pyval) :=
  [("name", PStr "Firefox");
   ("versions", PList [PStr "99.0"; PStr "100.0"]);
   ("staging_catalog", PStr "testing");
   ("production_catalog", PStr "production")].

Definition staging_summary : pyval :=
  PDict
    [("summary_text", PStr "The following items were staged:");
     ("data", PDict staging_data)].

(** A new card without image. *)
Definition plain_card : pyval :=
  Eval vm_compute in
    match new_message (PStr "AutoPkg") (PStr "") (PStr "") (PStr "") with
    | Ok m => m
    | Raise _ => PNone
    end.

(** The attachments of [Sample.prior_card]. *)
Definition prior_attachments : pyval :=
  Eval vm_compute in
    match Sample.prior_card with
    | PDict [_; (_, att)] => att
    | _ => PNone
    end.

(** A message whose section has no facts. *)
Definition card_without_facts : pyval :=
  PDict
    [("attachments",
      PList
        [PDict
           [("content",
             PDict
               [("sections",
                 PList [PDict [("activityTitle", PStr "start")]])])]])].

Definition notifier_env (name : string) (verbosity : pyval) (changed : bool)
    (import_result staging_result : pyval) : Notifier.Env :=
  Notifier.mkEnv name Sample.url "" verbosity "" changed import_result
    staging_result.

Definition notifier_main : Notifier.Env -> M unit :=
  Notifier.main Example.repr Example.dumps int_of_str.

Definition quiet : World :=
  Sample.world Sample.no_files (Sample.always Sample.delivered) false.

(** A world where the message file is cached and read-only. *)
Definition read_only_world : World :=
  mkWorld (Sample.cached (Example.dumps Sample.prior_card)) [] [] []
    (Sample.always Sample.delivered) "2022-05-02 10:00:00" false
    (fun _ => ReadOnly) false.

(** A world with a full disk that is noticed only when the message file is
    closed. *)
Definition late_full_world : World :=
  mkWorld (Sample.cached (Example.dumps Sample.prior_card)) [] [] []
    (Sample.always Sample.delivered) "2022-05-02 10:00:00" true
    (fun _ => Writable) true.

End MoreSamples.

(** ** Lemmas on dictionaries *)

Lemma dict_get_set_eq k v d : dict_get k (dict_set k v d) = Some v.
Proof.
  induction d as [|[k' v'] d IH]; simpl.
  - now rewrite String.eqb_refl.
  - destruct (String.eqb k k') eqn:E; simpl; rewrite E; auto.
Qed.

Lemma dict_get_set_ne k k' v d :
  k <> k' -> dict_get k (dict_set k' v d) = dict_get k d.
Proof.
  intros Hne. induction d as [|[k0 v0] d IH]; simpl.
  - apply String.eqb_neq in Hne. now rewrite Hne.
  - destruct (String.eqb k' k0) eqn:E; simpl.
    + apply String.eqb_eq in E. subst k0.
      apply String.eqb_neq in Hne. now rewrite Hne.
    + destruct (String.eqb k k0); auto.
Qed.

Lemma dict_get_del_eq k d : dict_get k (dict_del k d) = None.
Proof.
  induction d as [|[k' v'] d IH]; simpl; auto.
  destruct (String.eqb k k') eqn:E; simpl; auto. now rewrite E.
Qed.

Lemma dict_get_del_ne k k' d :
  k <> k' -> dict_get k (dict_del k' d) = dict_get k d.
Proof.
  intros Hne. induction d as [|[k0 v0] d IH]; simpl; auto.
  destruct (String.eqb k' k0) eqn:E; simpl.
  - apply String.eqb_eq in E. subst k0.
    apply String.eqb_neq in Hne. now rewrite Hne.
  - destruct (String.eqb k k0); auto.
Qed.

(** ** Lemmas on the paths into a card *)

(** Case analysis on what a chain of subscripts meets on its way. *)
Ltac break_lookup H :=
  repeat match type of H with
         | context [match ?x with _ => _ end] =>
             first [ is_var x
                   | match x with
                     | dict_get _ _ => idtac
                     | String.get _ _ => idtac
                     end ];
             destruct x eqn:?; simpl in H; try discriminate H
         end.

(** Reaching a dictionary at [content_path] fixes the shape of the
    containers on the way. *)
Lemma content_of_inv message c :
  content_of message = Some c ->
  exists d a ar,
    message = PDict d /\
    dict_get "attachments" d = Some (PList (PDict a :: ar)) /\
    dict_get "content" a = Some (PDict c).
Proof.
  unfold content_of, content_path, lookup_at, rbind, getitem.
  intros H. simpl in H. break_lookup H.
  injection H as <-. subst. eauto 6.
Qed.

Lemma content_of_intro d a ar c :
  dict_get "attachments" d = Some (PList (PDict a :: ar)) ->
  dict_get "content" a = Some (PDict c) ->
  content_of (PDict d) = Some c.
Proof.
  intros Ha Hc. unfold content_of, content_path. simpl.
  rewrite Ha. simpl. rewrite Hc. reflexivity.
Qed.

Lemma section_of_inv message sec :
  section_of message = Some sec ->
  exists c sr,
    content_of message = Some c /\
    dict_get "sections" c = Some (PList (PDict sec :: sr)).
Proof.
  unfold section_of, section_path, lookup_at, rbind, getitem.
  intros H. simpl in H. break_lookup H.
  injection H as <-. subst.
  eexists _, _. split; [|eassumption].
  eapply content_of_intro; eassumption.
Qed.

Lemma section_of_intro message c sec sr :
  content_of message = Some c ->
  dict_get "sections" c = Some (PList (PDict sec :: sr)) ->
  section_of message = Some sec.
Proof.
  intros Hc Hs. apply content_of_inv in Hc as (d & a & ar & -> & Ha & Hc).
  unfold section_of, section_path. simpl.
  rewrite Ha. simpl. rewrite Hc. simpl. rewrite Hs. reflexivity.
Qed.

(** An update of the section leaves the other entries of the content as
    they are. *)
Lemma update_section message sec f sec' :
  section_of message = Some sec ->
  f (PDict sec) = Ok (PDict sec') ->
  exists message',
    update_at section_path f message = Ok message' /\
    section_of message' = Some sec' /\
    forall k, k <> "sections" ->
              content_get k message' = content_get k message.
Proof.
  intros Hsec Hf.
  apply section_of_inv in Hsec as (c & sr & Hc & Hs).
  pose proof Hc as Hc0.
  apply content_of_inv in Hc as (d & a & ar & -> & Ha & Hc).
  unfold section_path. simpl. rewrite Ha. simpl. rewrite Hc. simpl.
  rewrite Hs. simpl. rewrite Hf. simpl.
  eexists. split; [reflexivity|].
  assert (Hc' : content_of
                  (PDict (dict_set "attachments"
                     (PList (PDict (dict_set "content"
                        (PDict (dict_set "sections" (PList (PDict sec' :: sr))
                                  c)) a) :: ar)) d))
                = Some (dict_set "sections" (PList (PDict sec' :: sr)) c)).
  { eapply content_of_intro; apply dict_get_set_eq. }
  split.
  - eapply section_of_intro; [exact Hc'|]. apply dict_get_set_eq.
  - intros k Hk. unfold content_get. rewrite Hc', Hc0.
    now apply dict_get_set_ne.
Qed.

Lemma update_section_raise message sec f e :
  section_of message = Some sec ->
  f (PDict sec) = Raise e ->
  update_at section_path f message = Raise e.
Proof.
  intros Hsec Hf.
  apply section_of_inv in Hsec as (c & sr & Hc & Hs).
  apply content_of_inv in Hc as (d & a & ar & -> & Ha & Hc).
  unfold section_path. simpl. rewrite Ha. simpl. rewrite Hc. simpl.
  rewrite Hs. simpl. rewrite Hf. reflexivity.
Qed.

Lemma update_content message c f c' :
  content_of message = Some c ->
  f (PDict c) = Ok (PDict c') ->
  exists message',
    update_at content_path f message = Ok message' /\
    content_of message' = Some c'.
Proof.
  intros Hc Hf.
  apply content_of_inv in Hc as (d & a & ar & -> & Ha & Hc).
  unfold content_path. simpl. rewrite Ha. simpl. rewrite Hc. simpl.
  rewrite Hf. simpl.
  eexists. split; [reflexivity|].
  eapply content_of_intro; apply dict_get_set_eq.
Qed.

(** ** The setters on a card *)

(** Assigning to a key of the section. *)
Lemma store_section message sec k v :
  section_of message = Some sec ->
  exists message',
    update_at section_path (fun s => setitem s (Key k) v) message
      = Ok message' /\
    section_of message' = Some (dict_set k v sec) /\
    forall k', k' <> "sections" ->
               content_get k' message' = content_get k' message.
Proof.
  intros Hsec. eapply update_section; eauto.
Qed.

Lemma set_activity_title_card message sec text :
  section_of message = Some sec ->
  exists message',
    set_activity_title message text = Ok message' /\
    section_of message' = Some (dict_set "activityTitle" text sec) /\
    forall k, k <> "sections" ->
              content_get k message' = content_get k message.
Proof. apply store_section. Qed.

Lemma set_activity_subtitle_card message sec text :
  section_of message = Some sec ->
  exists message',
    set_activity_subtitle message text = Ok message' /\
    section_of message' = Some (dict_set "activitySubtitle" text sec) /\
    forall k, k <> "sections" ->
              content_get k message' = content_get k message.
Proof. apply store_section. Qed.

Lemma set_activity_image_card message sec url :
  section_of message = Some sec ->
  exists message',
    set_activity_image message url = Ok message' /\
    section_of message' =
      Some (if truthy url then dict_set "activityImage" url sec
            else dict_del "activityImage" sec) /\
    forall k, k <> "sections" ->
              content_get k message' = content_get k message.
Proof.
  intros Hsec. unfold set_activity_image.
  destruct (truthy url).
  - now apply store_section.
  - destruct (dict_get "activityImage" sec) as [old|] eqn:Hold.
    + destruct (update_section message sec
                  (fun s => delitem s (Key "activityImage"))
                  (dict_del "activityImage" sec) Hsec)
        as (m' & Hm' & Hs' & Hk).
      { simpl. now rewrite Hold. }
      rewrite Hm'. eauto.
    + rewrite (update_section_raise message sec _
                 (KeyError (PStr "activityImage")) Hsec).
      2:{ simpl. now rewrite Hold. }
      simpl. exists message. split; [reflexivity|]. split; [|intros; reflexivity].
      rewrite Hsec. f_equal.
      clear Hsec. revert Hold.
      induction sec as [|[k0 v0] sec IH]; cbn [dict_get dict_del]; auto.
      destruct (String.eqb "activityImage" k0);
        [intros Hold; discriminate Hold|].
      intros Hold. now rewrite <- IH.
Qed.

Lemma add_fact_card message sec facts name value :
  section_of message = Some sec ->
  dict_get "facts" sec = Some (PList facts) ->
  exists message',
    add_fact message name value = Ok message' /\
    section_of message' =
      Some (dict_set "facts" (PList (facts ++ [fact name value])) sec) /\
    forall k, k <> "sections" ->
              content_get k message' = content_get k message.
Proof.
  intros Hsec Hfacts. unfold add_fact.
  eapply update_section; eauto.
  simpl. rewrite Hfacts. reflexivity.
Qed.

Lemma set_title_card message c title :
  content_of message = Some c ->
  exists message',
    set_title message title = Ok message' /\
    content_of message' =
      Some (dict_set "title" title (dict_set "summary" title c)).
Proof.
  intros Hc. unfold set_title.
  destruct (update_content message c
              (fun c => setitem c (Key "summary") title)
              (dict_set "summary" title c) Hc eq_refl) as (m1 & E1 & H1).
  rewrite E1. cbn [rbind].
  destruct (update_content m1 _
              (fun c => setitem c (Key "title") title)
              (dict_set "title" title (dict_set "summary" title c))
              H1 eq_refl) as (m2 & E2 & H2).
  rewrite E2. cbn [rbind]. eauto.
Qed.

Lemma new_message_card title activity_title activity_subtitle activity_image :
  exists message,
    new_message title activity_title activity_subtitle activity_image
      = Ok message /\
    section_of message
      = Some (new_section activity_title activity_subtitle activity_image) /\
    content_get "summary" message = Some title /\
    content_get "title" message = Some title.
Proof.
  unfold new_message, new_section.
  destruct (truthy activity_image); eexists; (split; [reflexivity|]);
    repeat split; reflexivity.
Qed.

Lemma is_card_spec message :
  is_card message = true <->
  exists sec facts,
    section_of message = Some sec /\
    dict_get "facts" sec = Some (PList facts).
Proof.
  unfold is_card, section_get. split.
  - destruct (section_of message) as [sec|]; [|discriminate].
    destruct (dict_get "facts" sec) as [[]|] eqn:E; try discriminate. eauto.
  - intros (sec & facts & -> & ->). reflexivity.
Qed.

Lemma facts_of_spec message sec facts :
  section_of message = Some sec ->
  dict_get "facts" sec = Some (PList facts) ->
  facts_of message = facts.
Proof.
  intros Hs Hf. unfold facts_of, section_get. now rewrite Hs, Hf.
Qed.

Lemma dict_get_None_keys k d :
  dict_get k d = None <-> ~ In k (map fst d).
Proof.
  induction d as [|[k' v'] d IH]; cbn [dict_get map fst In].
  - tauto.
  - destruct (String.eqb_spec k k') as [->|Hne].
    + split; [discriminate|]. intros H. exfalso. apply H. now left.
    + rewrite IH. split.
      * intros H [E|HIn]; [congruence|tauto].
      * tauto.
Qed.

Lemma titled_with_section_update t message message' sec sec' facts' :
  titled_with t message ->
  section_of message = Some sec ->
  section_of message' = Some sec' ->
  dict_get "facts" sec' = Some (PList facts') ->
  (forall k, k <> "sections" ->
             content_get k message' = content_get k message) ->
  titled_with t message'.
Proof.
  intros (_ & Hs & Ht) Hsec Hsec' Hf' Hk. split.
  - apply is_card_spec. eauto.
  - rewrite !Hk by discriminate. auto.
Qed.

(** [set_title] stores its argument as summary and as title; the other
    operations leave both as they find them. *)
Lemma apply_op_titled_with t message op :
  titled_with t message ->
  exists message',
    apply_op message op = Ok message' /\ titled_with (op_title t op) message'.
Proof.
  intros Hinv. pose proof Hinv as (Hcard & Hs & Ht).
  apply is_card_spec in Hcard as (sec & facts & Hsec & Hfacts).
  destruct op as [title|text|text|url|name value]; cbn [apply_op op_title].
  - apply section_of_inv in Hsec as (c & sr & Hc & Hsections).
    destruct (set_title_card message c title Hc) as (m' & E & Hc').
    exists m'. split; [exact E|]. split.
    + apply is_card_spec. exists sec, facts. split; [|exact Hfacts].
      eapply section_of_intro; [exact Hc'|].
      rewrite !dict_get_set_ne by discriminate. exact Hsections.
    + unfold content_get. rewrite Hc'. split.
      * rewrite dict_get_set_ne by discriminate. apply dict_get_set_eq.
      * apply dict_get_set_eq.
  - destruct (set_activity_title_card message sec text Hsec)
      as (m' & E & Hs' & Hk).
    exists m'. split; [exact E|].
    eapply titled_with_section_update; eauto.
    rewrite dict_get_set_ne by discriminate. exact Hfacts.
  - destruct (set_activity_subtitle_card message sec text Hsec)
      as (m' & E & Hs' & Hk).
    exists m'. split; [exact E|].
    eapply titled_with_section_update; eauto.
    rewrite dict_get_set_ne by discriminate. exact Hfacts.
  - destruct (set_activity_image_card message sec url Hsec)
      as (m' & E & Hs' & Hk).
    exists m'. split; [exact E|].
    eapply titled_with_section_update; eauto.
    destruct (truthy url).
    + rewrite dict_get_set_ne by discriminate. exact Hfacts.
    + rewrite dict_get_del_ne by discriminate. exact Hfacts.
  - destruct (add_fact_card message sec facts name value Hsec Hfacts)
      as (m' & E & Hs' & Hk).
    exists m'. split; [exact E|].
    eapply titled_with_section_update; eauto.
    apply dict_get_set_eq.
Qed.

Lemma apply_ops_titled_with ops : forall t message,
  titled_with t message ->
  exists message',
    apply_ops message ops = Ok message' /\
    titled_with (last_title t ops) message'.
Proof.
  induction ops as [|op ops IH]; intros t message Hinv; cbn [apply_ops].
  - eauto.
  - destruct (apply_op_titled_with t message op Hinv) as (m1 & E & H1).
    rewrite E. cbn [rbind]. apply (IH _ _ H1).
Qed.

Lemma titled_card_with message :
  titled_card message <-> exists t, titled_with t message.
Proof.
  unfold titled_card, titled_with. split.
  - intros (Hc & t & Hs & Ht). eauto.
  - intros (t & Hc & Hs & Ht). eauto.
Qed.

Lemma apply_op_titled_card message op :
  titled_card message ->
  exists message', apply_op message op = Ok message' /\ titled_card message'.
Proof.
  intros Hinv. apply titled_card_with in Hinv as (t & Hinv).
  destruct (apply_op_titled_with t message op Hinv) as (m' & E & H').
  exists m'. split; [exact E|]. apply titled_card_with. eauto.
Qed.

Lemma apply_ops_titled_card ops : forall message,
  titled_card message ->
  exists message', apply_ops message ops = Ok message' /\ titled_card message'.
Proof.
  induction ops as [|op ops IH]; intros message Hinv; cbn [apply_ops].
  - eauto.
  - destruct (apply_op_titled_card message op Hinv) as (m1 & E & H1).
    rewrite E. cbn [rbind]. auto.
Qed.

Lemma new_message_titled_card title activity_title activity_subtitle
    activity_image :
  exists message,
    new_message title activity_title activity_subtitle activity_image
      = Ok message /\
    titled_card message /\
    content_get "title" message = Some title /\
    facts_of message = [].
Proof.
  destruct (new_message_card title activity_title activity_subtitle
              activity_image) as (m & E & Hsec & Hs & Ht).
  assert (Hf : dict_get "facts"
                 (new_section activity_title activity_subtitle activity_image)
               = Some (PList [])) by reflexivity.
  exists m. split; [exact E|]. repeat split; auto.
  - apply is_card_spec. eauto.
  - eauto.
  - eapply facts_of_spec; eauto.
Qed.

(** [new_message] stores the image it is given, and no image key at all
    when it is given the empty string. *)
Lemma new_message_image title activity_title activity_subtitle url :
  exists message sec,
    new_message title activity_title activity_subtitle (PStr url)
      = Ok message /\
    section_of message = Some sec /\
    dict_get "activityImage" sec
      = (if nonempty url then Some (PStr url) else None).
Proof.
  destruct (new_message_card title activity_title activity_subtitle
              (PStr url)) as (m & E & Hsec & _).
  exists m, (new_section activity_title activity_subtitle (PStr url)).
  split; [exact E|]. split; [exact Hsec|].
  unfold new_section. cbn [truthy]. destruct (nonempty url); reflexivity.
Qed.

(** ** Claims on the message card *)

(** C9.  Whatever sequence of document operations is run on a message made
    by [new_message], every operation succeeds, and the summary and the
    title of the resulting content hold the same value: the title given to
    the last [set_title] of the sequence, or the one given to [new_message]
    when the sequence has no [set_title].  So [new_message] and [set_title]
    store the title they are given in both fields, and no other operation
    changes either field. *)
Theorem summary_follows_title (title activity_title activity_subtitle
    activity_image : pyval) (ops : list doc_op) :
  exists message0 message,
    new_message title activity_title activity_subtitle activity_image
      = Ok message0 /\
    apply_ops message0 ops = Ok message /\
    content_get "summary" message = Some (last_title title ops) /\
    content_get "title" message = Some (last_title title ops).
Proof.
  destruct (new_message_card title activity_title activity_subtitle
              activity_image) as (m0 & E0 & Hsec & Hs0 & Ht0).
  assert (Hinv : titled_with title m0).
  { split; [|auto]. apply is_card_spec.
    exists (new_section activity_title activity_subtitle activity_image), [].
    split; [exact Hsec|reflexivity]. }
  destruct (apply_ops_titled_with ops title m0 Hinv) as (m & E & _ & Hs & Ht).
  exists m0, m. auto.
Qed.

(** C7.  On every card, [set_activity_image] with the empty string succeeds,
    whether or not an image was set, and leaves a section without any
    [activityImage] key; with a non-empty URL such as ["http://x"] it
    succeeds and the section holds exactly that value under the key.  The
    message is the object [json.dumps] serialises. *)
Theorem activity_image_absent_or_exact (message : pyval) (url : string) :
  is_card message = true ->
  nonempty url = true ->
  (exists message0 sec0,
      set_activity_image message (PStr "") = Ok message0 /\
      section_of message0 = Some sec0 /\
      ~ In "activityImage" (map fst sec0) /\
      is_card message0 = true) /\
  (exists message1,
      set_activity_image message (PStr url) = Ok message1 /\
      section_get "activityImage" message1 = Some (PStr url) /\
      is_card message1 = true).
Proof.
  intros Hcard Hurl.
  apply is_card_spec in Hcard as (sec & facts & Hsec & Hfacts).
  split.
  - destruct (set_activity_image_card message sec (PStr "") Hsec)
      as (m0 & E & Hs0 & _).
    cbn [truthy nonempty] in Hs0.
    exists m0, (dict_del "activityImage" sec). repeat split; auto.
    + apply dict_get_None_keys, dict_get_del_eq.
    + apply is_card_spec. exists (dict_del "activityImage" sec), facts.
      split; [exact Hs0|]. now rewrite dict_get_del_ne by discriminate.
  - destruct (set_activity_image_card message sec (PStr url) Hsec)
      as (m1 & E & Hs1 & _).
    cbn [truthy] in Hs1. rewrite Hurl in Hs1.
    exists m1. repeat split; auto.
    + unfold section_get. rewrite Hs1. apply dict_get_set_eq.
    + apply is_card_spec. exists (dict_set "activityImage" (PStr url) sec), facts.
      split; [exact Hs1|]. now rewrite dict_get_set_ne by discriminate.
Qed.

(** ** The delivery engine *)

Lemma curl_json_poster_spec py_repr body url w :
  _curl_json_poster py_repr body url w =
    (let o := transport w (length (posts w)) in
     if attempt_ok o then Ok true else Raise (attempt_error o),
     with_posts w (posts w ++ [curl_cmd body url])).
Proof.
  unfold _curl_json_poster, bind, try_except, popen_communicate.
  destruct (transport w (length (posts w))) as [msg|rc out err]; cbn.
  - reflexivity.
  - destruct (rc =? 0); cbn; [|reflexivity].
    destruct (nonempty err); reflexivity.
Qed.

Lemma send_teams_message_spec py_repr json_dumps url message w :
  send_teams_message py_repr json_dumps url message w =
    (let o := transport w (length (posts w)) in
     if attempt_ok o then Ok tt else Raise (attempt_error o),
     after_attempt w (curl_cmd (json_dumps message) url)).
Proof.
  unfold send_teams_message.
  change (py_range 1 6) with [1; 2; 3; 4; 5].
  cbn [send_loop]. unfold bind at 1. unfold output at 1.
  unfold bind at 1. rewrite curl_json_poster_spec.
  cbn [with_log posts transport log].
  destruct (attempt_ok (transport w (length (posts w)))); reflexivity.
Qed.

(** C1.  What the delivery engine does, whatever the transport: one curl
    run and no pause.  The call returns when that run is delivered and
    raises the error of the run otherwise, so a failed first attempt is
    never followed by a second one. *)
Theorem send_teams_message_single_attempt py_repr json_dumps
    (url : string) (message : pyval) (w : World) :
  let run := send_teams_message py_repr json_dumps url message w in
  posts (snd run) = (posts w ++ [curl_cmd (json_dumps message) url])%list /\
  sleeps (snd run) = sleeps w /\
  fst run = (if attempt_ok (transport w (length (posts w))) then Ok tt
             else Raise (attempt_error (transport w (length (posts w))))).
Proof.
  cbn zeta. rewrite send_teams_message_spec. cbn. auto.
Qed.

(** ** The steps of the summarizer *)

Lemma str_or_empty s : str_or s "" = s.
Proof. unfold str_or. now destruct s. Qed.

Lemma remove_msg_file_raises py_bound w :
  Summarizer.remove_msg_file py_bound w =
    (Raise (TypeError
       "catching classes that do not inherit from BaseException is not allowed"),
     w).
Proof. reflexivity. Qed.

Section Steps.

Variable py_repr : pyval -> string.
Variable json_dumps : pyval -> string.
Variable json_loads : string -> option pyval.

Lemma acquire_world path clear_at_start w :
  snd (Summarizer.acquire json_loads path clear_at_start w) = w.
Proof.
  unfold Summarizer.acquire.
  destruct (nonempty path && negb clear_at_start); [|reflexivity].
  unfold bind, open_r.
  destruct (fs w !! path) as [f|]; [|reflexivity].
  destruct (readable f); [|reflexivity].
  unfold try_except, Summarizer.json_load.
  destruct (json_loads (content f)); reflexivity.
Qed.

Lemma acquire_skipped path clear_at_start w :
  nonempty path && negb clear_at_start = false ->
  Summarizer.acquire json_loads path clear_at_start w = (Ok (PStr ""), w).
Proof. unfold Summarizer.acquire. now intros ->. Qed.

Lemma acquire_loaded path w f doc :
  nonempty path = true ->
  fs w !! path = Some f -> readable f = true ->
  json_loads (content f) = Some doc ->
  Summarizer.acquire json_loads path false w = (Ok doc, w).
Proof.
  intros Hp Hf Hr Hd. unfold Summarizer.acquire. rewrite Hp. cbn [andb negb].
  unfold bind, open_r. rewrite Hf, Hr.
  unfold try_except, Summarizer.json_load. now rewrite Hd.
Qed.

Lemma acquire_fails path w e :
  nonempty path = true ->
  acquire_problem json_loads w path e ->
  Summarizer.acquire json_loads path false w = (Raise e, w).
Proof.
  intros Hp Hpb. unfold Summarizer.acquire. rewrite Hp. cbn [andb negb].
  unfold bind, open_r.
  destruct Hpb as [Hf|f Hf Hr|f Hf Hr Hd]; rewrite Hf; [reflexivity| |];
    rewrite Hr; [reflexivity|].
  unfold try_except, Summarizer.json_load. now rewrite Hd.
Qed.

Lemma fresh_message_card teams_username teams_icon_url stamp_text :
  exists message,
    fresh_message teams_username teams_icon_url stamp_text = Ok message /\
    is_card message = true /\
    facts_of message = [] /\
    section_get "activityTitle" message
      = Some (PStr ("start: " +:+ stamp_text)).
Proof.
  unfold fresh_message.
  destruct (new_message_card (PStr teams_username) (PStr "") (PStr "")
              (PStr teams_icon_url)) as (m0 & E0 & Hsec & _).
  rewrite E0. cbn [rbind].
  destruct (set_activity_title_card m0 _
              (PStr ("start: " +:+ stamp_text)) Hsec)
    as (m & E & Hs & _).
  exists m. split; [exact E|].
  assert (Hf : dict_get "facts"
                 (dict_set "activityTitle" (PStr ("start: " +:+ stamp_text))
                    (new_section (PStr "") (PStr "") (PStr teams_icon_url)))
               = Some (PList [])).
  { rewrite dict_get_set_ne by discriminate. reflexivity. }
  repeat split.
  - apply is_card_spec. eauto.
  - eapply facts_of_spec; eauto.
  - unfold section_get. rewrite Hs. apply dict_get_set_eq.
Qed.

Lemma stamp_spec message teams_username teams_icon_url w :
  Summarizer.stamp message teams_username teams_icon_url w =
    (if truthy message then Ok message
     else fresh_message teams_username teams_icon_url (clock w), w).
Proof.
  unfold Summarizer.stamp. destruct (truthy message); [reflexivity|].
  cbn [negb]. unfold fresh_message, bind, lift, now_strftime.
  destruct (new_message _ _ _ _) as [m0|e]; [|reflexivity].
  cbn [rbind].
  destruct (set_activity_title _ _); reflexivity.
Qed.

Lemma extend_spec message changed munki_summary autostaging_summary w :
  Summarizer.extend py_repr message changed munki_summary
    autostaging_summary w =
    (if changed && (truthy munki_summary || truthy autostaging_summary)
     then Raise (NameError "verbosity") else Ok message, w).
Proof.
  unfold Summarizer.extend.
  destruct changed; [|reflexivity].
  destruct (truthy munki_summary); [reflexivity|].
  destruct (truthy autostaging_summary); reflexivity.
Qed.

Lemma persist_skipped message path clear_at_finish w :
  nonempty path && negb clear_at_finish = false ->
  Summarizer.persist json_dumps message path clear_at_finish w = (Ok tt, w).
Proof. unfold Summarizer.persist. now intros ->. Qed.

Lemma open_w_writable path w :
  access w path = Writable ->
  open_w path w = (Ok tt, truncated w path).
Proof.
  intros Ha. unfold open_w, truncated. rewrite Ha.
  destruct (fs w !! path); reflexivity.
Qed.

(** The [open] is outside the [try]: where the file cannot be opened for
    writing, its error leaves [main], nothing is logged and the file is as
    it was. *)
Lemma persist_not_opened message path w :
  nonempty path = true -> access w path <> Writable ->
  Summarizer.persist json_dumps message path false w =
    (Raise (match access w path with
            | NoDirectory => FileNotFoundError path
            | _ => PermissionError path
            end), w).
Proof.
  intros Hp Ha. unfold Summarizer.persist. rewrite Hp. cbn [andb negb].
  unfold bind at 1. unfold open_w.
  destruct (access w path); [now destruct Ha| |]; reflexivity.
Qed.

(** A write that fails inside the [try] is logged and raised again. *)
Lemma persist_disk_full message path w :
  nonempty path = true -> access w path = Writable ->
  disk_full w = true -> late_flush w = false ->
  Summarizer.persist json_dumps message path false w =
    (Raise (OSError "No space left on device"),
     with_log (truncated w path)
       (log w ++ [(1, "Failed witing file " +:+ path +:+ ".")])).
Proof.
  intros Hp Ha Hfull Hlate. unfold Summarizer.persist. rewrite Hp.
  cbn [andb negb]. unfold bind.
  rewrite open_w_writable by exact Ha.
  unfold try_except, Summarizer.json_dump, write.
  assert (Hd : disk_full (truncated w path) = true) by exact Hfull.
  assert (Hl : late_flush (truncated w path) = false) by exact Hlate.
  rewrite Hd, Hl. reflexivity.
Qed.

(** A write that fails only when the file is closed, at the end of the
    [with] block, is not logged: the [try] is over by then. *)
Lemma persist_disk_full_late message path w :
  nonempty path = true -> access w path = Writable ->
  disk_full w = true -> late_flush w = true ->
  Summarizer.persist json_dumps message path false w =
    (Raise (OSError "No space left on device"), truncated w path).
Proof.
  intros Hp Ha Hfull Hlate. unfold Summarizer.persist. rewrite Hp.
  cbn [andb negb]. unfold bind.
  rewrite open_w_writable by exact Ha.
  unfold try_except, Summarizer.json_dump, write, close_w.
  assert (Hd : disk_full (truncated w path) = true) by exact Hfull.
  assert (Hl : late_flush (truncated w path) = true) by exact Hlate.
  rewrite Hd, Hl. cbn [andb]. rewrite Hd, Hl. reflexivity.
Qed.

Lemma persist_written message path w :
  nonempty path = true -> access w path = Writable ->
  disk_full w = false ->
  Summarizer.persist json_dumps message path false w =
    (Ok tt,
     with_fs w
       (<[path := mkFile (json_dumps message)
                    (match fs w !! path with
                     | Some f => readable f
                     | None => true
                     end)]> (fs w))).
Proof.
  intros Hp Ha Hfull. unfold Summarizer.persist. rewrite Hp.
  cbn [andb negb]. unfold bind.
  rewrite open_w_writable by exact Ha.
  unfold try_except, Summarizer.json_dump, write, close_w.
  assert (Hd : disk_full (truncated w path) = false) by exact Hfull.
  rewrite Hd. unfold truncated. cbn [with_fs fs].
  rewrite lookup_insert_eq. cbn [readable disk_full with_fs].
  rewrite Hfull. cbn [andb]. unfold with_fs.
  cbn [fs log posts sleeps transport clock disk_full access late_flush].
  rewrite insert_insert_eq. reflexivity.
Qed.

Lemma deliver_spec message url clear_after_send clear_at_finish bound w :
  nonempty url = true -> clear_after_send = true ->
  Summarizer.deliver py_repr json_dumps message url clear_after_send
    clear_at_finish bound w =
    (let o := transport w (length (posts w)) in
     if attempt_ok o || clear_at_finish
     then Raise (TypeError
       "catching classes that do not inherit from BaseException is not allowed")
     else Ok tt,
     after_attempt w (curl_cmd (json_dumps message) url)).
Proof.
  intros Hu ->. unfold Summarizer.deliver. rewrite Hu.
  unfold try_except. unfold bind at 1.
  rewrite send_teams_message_spec. cbn zeta.
  destruct (transport w (length (posts w))) as [msg|rc out err];
    cbn [attempt_ok attempt_error orb].
  - destruct clear_at_finish; reflexivity.
  - destruct (rc =? 0); cbn [andb orb].
    + destruct (nonempty err); cbn [negb orb].
      * destruct clear_at_finish; reflexivity.
      * reflexivity.
    + destruct clear_at_finish; reflexivity.
Qed.

Lemma deliver_skipped message url clear_after_send clear_at_finish bound w :
  nonempty url = false ->
  Summarizer.deliver py_repr json_dumps message url clear_after_send
    clear_at_finish bound w = (Ok tt, w).
Proof. unfold Summarizer.deliver. now intros ->. Qed.

End Steps.

Lemma truthy_py_or_empty v : truthy (py_or v (PStr "")) = truthy v.
Proof. unfold py_or. destruct (truthy v) eqn:E; [exact E|reflexivity]. Qed.

Section MainFacts.

Variable py_repr : pyval -> string.
Variable json_dumps : pyval -> string.
Variable json_loads : string -> option pyval.

Abbreviation main := (Summarizer.main py_repr json_dumps json_loads).
Abbreviation acquire := (Summarizer.acquire json_loads).
Abbreviation persist := (Summarizer.persist json_dumps).
Abbreviation deliver := (Summarizer.deliver py_repr json_dumps).

(** [main] step by step. *)
Lemma main_spec env w :
  main env w =
    match acquire (Summarizer.msg_file_path env)
            (Summarizer.msg_file_clear_at_start env) w with
    | (Raise e, _) => (Raise e, w)
    | (Ok message0, _) =>
        match stamped env w message0 with
        | Raise e => (Raise e, w)
        | Ok message =>
            if has_changes env then (Raise (NameError "verbosity"), w)
            else
              match persist message (Summarizer.msg_file_path env)
                      (Summarizer.msg_file_clear_at_finish env) w with
              | (Raise e, w1) => (Raise e, w1)
              | (Ok _, w1) =>
                  match deliver message (Summarizer.teams_webhook_url env)
                          true (Summarizer.msg_file_clear_at_finish env)
                          (msg_file_bound env) w1 with
                  | (Raise e, w2) => (Raise e, w2)
                  | (Ok _, w2) =>
                      if Summarizer.msg_file_clear_at_finish env
                      then (Raise (TypeError
                              "catching classes that do not inherit from BaseException is not allowed"),
                            w2)
                      else (Ok tt, w2)
                  end
              end
        end
    end.
Proof.
  unfold Summarizer.main, stamped, has_changes, msg_file_bound.
  rewrite !str_or_empty, !orb_false_r, !orb_true_r.
  unfold bind at 1.
  pose proof (acquire_world json_loads (Summarizer.msg_file_path env)
                (Summarizer.msg_file_clear_at_start env) w) as Hw.
  destruct (acquire _ _ w) as [[message0|e] w0]; cbn [snd] in Hw; subst w0;
    [|reflexivity].
  unfold bind at 1. rewrite stamp_spec.
  destruct (if truthy message0 then _ else _) as [message|e]; [|reflexivity].
  unfold bind at 1. rewrite extend_spec, !truthy_py_or_empty.
  destruct (Summarizer.munki_repo_changed env
            && (truthy (Summarizer.munki_importer_summary_result env)
                || truthy (Summarizer.munki_autostaging_summary_result env)));
    [reflexivity|].
  unfold bind at 1.
  destruct (persist message _ _ w) as [[[]|e] w1]; [|reflexivity].
  unfold bind at 1.
  destruct (deliver message _ _ _ _ w1) as [[[]|e] w2]; [|reflexivity].
  destruct (Summarizer.msg_file_clear_at_finish env); reflexivity.
Qed.

Lemma stamped_ok env w message0 :
  exists message, stamped env w message0 = Ok message.
Proof.
  unfold stamped. destruct (truthy message0); [eauto|].
  destruct (fresh_message_card
              (str_or (Summarizer.teams_username env) "AutoPkg")
              (str_or (Summarizer.teams_icon_url env)
                 "https://munkibuilds.org/logo.jpg") (clock w))
    as (m & E & _). eauto.
Qed.

Lemma acquire_raises path clear_at_start w e :
  fst (acquire path clear_at_start w) = Raise e ->
  acquire_problem json_loads w path e.
Proof.
  unfold Summarizer.acquire.
  destruct (nonempty path && negb clear_at_start); [|discriminate].
  unfold bind, open_r.
  destruct (fs w !! path) as [f|] eqn:Hf.
  2:{ intros [= <-]. now constructor. }
  destruct (readable f) eqn:Hr.
  2:{ intros [= <-]. econstructor; eauto. }
  unfold try_except, Summarizer.json_load.
  destruct (json_loads (content f)) eqn:Hd; [discriminate|].
  intros [= <-]. econstructor; eauto.
Qed.

(** The ways [persist] can end: it does nothing or the file cannot be
    opened, and the world is as it was; the write fails, at once or when the
    file is closed, and the file is left truncated; or the message is
    written. *)
Lemma persist_cases message path clear_at_finish w :
  (exists r, persist message path clear_at_finish w = (r, w) /\
             forall msg, r <> Raise (OSError msg)) \/
  (exists lines,
     persist message path clear_at_finish w =
       (Raise (OSError "No space left on device"),
        with_log (truncated w path) (log w ++ lines))) \/
  persist message path clear_at_finish w =
    (Ok tt,
     with_fs w
       (<[path := mkFile (json_dumps message)
                    (match fs w !! path with
                     | Some f => readable f
                     | None => true
                     end)]> (fs w))).
Proof.
  destruct (nonempty path && negb clear_at_finish) eqn:E.
  - apply andb_prop in E as [Hp Hc].
    destruct clear_at_finish; [discriminate|].
    destruct (access w path) eqn:Ha.
    + destruct (disk_full w) eqn:Hfull.
      * right; left. destruct (late_flush w) eqn:Hlate.
        -- exists []. rewrite persist_disk_full_late by auto.
           rewrite app_nil_r. unfold with_log, truncated, with_fs.
           reflexivity.
        -- eexists. now apply persist_disk_full.
      * right; right. now apply persist_written.
    + left. eexists. split.
      * apply persist_not_opened; [exact Hp|]. now rewrite Ha.
      * rewrite Ha. discriminate.
    + left. eexists. split.
      * apply persist_not_opened; [exact Hp|]. now rewrite Ha.
      * rewrite Ha. discriminate.
  - left. exists (Ok tt). split; [now apply persist_skipped|discriminate].
Qed.

Lemma persist_frame message path clear_at_finish w :
  posts (snd (persist message path clear_at_finish w)) = posts w /\
  transport (snd (persist message path clear_at_finish w)) = transport w.
Proof.
  destruct (persist_cases message path clear_at_finish w)
    as [(r & E & _)|[(lines & E)|E]]; rewrite E; auto.
Qed.

(** Once there is something to translate, [main] stops before the
    message is written or sent. *)
Lemma main_has_changes env w :
  has_changes env = true ->
  exists e, main env w = (Raise e, w).
Proof.
  intros Hch. rewrite main_spec.
  destruct (acquire _ _ w) as [[message0|e] w0]; [|eauto].
  destruct (stamped_ok env w message0) as (message & ->).
  rewrite Hch. eauto.
Qed.

(** Without a webhook URL nothing is posted. *)
Lemma main_no_url env w :
  Summarizer.teams_webhook_url env = "" ->
  posts (snd (main env w)) = posts w.
Proof.
  intros Hu. rewrite main_spec.
  destruct (acquire _ _ w) as [[message0|e] w0]; [|reflexivity].
  destruct (stamped_ok env w message0) as (message & ->).
  destruct (has_changes env); [reflexivity|].
  pose proof (persist_frame message (Summarizer.msg_file_path env)
                (Summarizer.msg_file_clear_at_finish env) w) as [Hp _].
  destruct (persist message _ _ w) as [[[]|e] w1]; cbn [snd] in Hp;
    [|exact Hp].
  rewrite deliver_skipped by now rewrite Hu.
  destruct (Summarizer.msg_file_clear_at_finish env); exact Hp.
Qed.

(** No run of [main] deletes a file: the three clearing flags never get
    as far as removing the message file. *)
Lemma main_never_deletes env w p :
  is_Some (fs w !! p) ->
  is_Some (fs (snd (main env w)) !! p).
Proof.
  intros Hp. rewrite main_spec.
  destruct (acquire _ _ w) as [[message0|e] w0]; [|exact Hp].
  destruct (stamped_ok env w message0) as (message & ->).
  destruct (has_changes env); [exact Hp|].
  assert (Hp1 : is_Some
                  (fs (snd (persist message (Summarizer.msg_file_path env)
                              (Summarizer.msg_file_clear_at_finish env) w))
                     !! p)).
  { destruct (persist_cases message (Summarizer.msg_file_path env)
                (Summarizer.msg_file_clear_at_finish env) w)
      as [(r & E & _)|[(lines & E)|E]];
      rewrite E; cbn [snd]; [exact Hp| |];
      unfold truncated; cbn [fs with_log with_fs];
      apply lookup_insert_is_Some';  now right. }
  destruct (persist message _ _ w) as [[[]|e] w1]; cbn [snd] in Hp1;
    [|exact Hp1].
  destruct (nonempty (Summarizer.teams_webhook_url env)) eqn:Hu.
  - rewrite deliver_spec by auto. cbn zeta.
    destruct (attempt_ok _ || _); [exact Hp1|].
    destruct (Summarizer.msg_file_clear_at_finish env); exact Hp1.
  - rewrite deliver_skipped by auto.
    destruct (Summarizer.msg_file_clear_at_finish env); exact Hp1.
Qed.

(** ** Claims on the summarizer *)

(** C2, as the code has it.  Take a run of [main] that attempted a post
    while every attempt of the transport fails.  With
    [msg_file_clear_at_finish] false the run ends normally: the error of
    the delivery is caught and, the [raise] being inside the test of the
    flag, not raised again.  With the flag true the run ends with the
    [TypeError] of the clause [except (FileNotFoundError())] and not with
    the error of the delivery, and the files are as they were: nothing is
    deleted. *)
Theorem delivery_failure_lost env w :
  (forall n, attempt_ok (transport w n) = false) ->
  posts (snd (main env w)) <> posts w ->
  (Summarizer.msg_file_clear_at_finish env = false ->
   fst (main env w) = Ok tt) /\
  (Summarizer.msg_file_clear_at_finish env = true ->
   fst (main env w) =
     Raise (TypeError
       "catching classes that do not inherit from BaseException is not allowed")
   /\ fs (snd (main env w)) = fs w).
Proof.
  intros Hfail. rewrite main_spec.
  destruct (acquire _ _ w) as [[message0|e] w0]; [|now intros []].
  destruct (stamped_ok env w message0) as (message & ->).
  destruct (has_changes env); [now intros []|].
  destruct (Summarizer.msg_file_clear_at_finish env) eqn:Hcaf.
  - rewrite persist_skipped by apply andb_false_r.
    destruct (nonempty (Summarizer.teams_webhook_url env)) eqn:Hu.
    + rewrite deliver_spec by auto. cbn zeta. rewrite orb_true_r.
      intros _. split; [discriminate|]. intros _. split; reflexivity.
    + rewrite deliver_skipped by auto. cbn [snd]. now intros [].
  - pose proof (persist_frame message (Summarizer.msg_file_path env)
                  false w) as [Hp Ht].
    destruct (persist message _ _ w) as [[[]|e] w1]; cbn [snd] in Hp, Ht;
      [|cbn [snd]; intros Hne; now rewrite Hp in Hne].
    destruct (nonempty (Summarizer.teams_webhook_url env)) eqn:Hu.
    + rewrite deliver_spec by auto. cbn zeta. rewrite Ht, Hfail.
      cbn [orb fst]. intros _. split; [reflexivity|discriminate].
    + rewrite deliver_skipped by auto. cbn [snd].
      intros Hne. now rewrite Hp in Hne.
Qed.

(** C3, as the code has it.  With a message file set and
    [msg_file_clear_at_start] false, a file that is missing, unreadable or
    not JSON makes [main] raise, [FileNotFoundError], [PermissionError] or
    [NameError] for the unbound [JSONDecodeError], and leaves the world
    as it was: no new message is made. *)
Theorem acquire_problem_propagates env w e :
  nonempty (Summarizer.msg_file_path env) = true ->
  Summarizer.msg_file_clear_at_start env = false ->
  acquire_problem json_loads w (Summarizer.msg_file_path env) e ->
  main env w = (Raise e, w).
Proof.
  intros Hp Hcas Hpb. rewrite main_spec, Hcas.
  now rewrite (acquire_fails json_loads _ w e Hp Hpb).
Qed.

(** C4, as the code has it.  When a cached message is loaded and there is
    an import summary to add, [main] raises [NameError] for the unbound
    [verbosity] before anything is written or posted: the world is left
    as it was. *)
Theorem changes_raise_before_persist env w f doc :
  nonempty (Summarizer.msg_file_path env) = true ->
  Summarizer.msg_file_clear_at_start env = false ->
  fs w !! Summarizer.msg_file_path env = Some f ->
  readable f = true ->
  json_loads (content f) = Some doc ->
  truthy doc = true ->
  Summarizer.munki_repo_changed env = true ->
  truthy (Summarizer.munki_importer_summary_result env) = true ->
  main env w = (Raise (NameError "verbosity"), w).
Proof.
  intros Hp Hcas Hf Hr Hd Ht Hch Hsum. rewrite main_spec, Hcas.
  rewrite (acquire_loaded json_loads _ w f doc Hp Hf Hr Hd).
  unfold stamped, has_changes. now rewrite Ht, Hch, Hsum.
Qed.

(** C5, as the code has it.  With the changed flag false and no webhook
    URL, nothing is posted.  If moreover a message file is set and kept at
    start and at finish, the file is readable, decodes to a message that is
    not empty and holds the serialisation of that message, and the file can
    be opened for writing and written, then [main] returns and the world,
    the file included, is as it was. *)
Theorem unchanged_run_without_url env w :
  Summarizer.munki_repo_changed env = false ->
  Summarizer.teams_webhook_url env = "" ->
  posts (snd (main env w)) = posts w /\
  forall f doc,
    nonempty (Summarizer.msg_file_path env) = true ->
    Summarizer.msg_file_clear_at_start env = false ->
    Summarizer.msg_file_clear_at_finish env = false ->
    fs w !! Summarizer.msg_file_path env = Some f ->
    readable f = true ->
    json_loads (content f) = Some doc ->
    truthy doc = true ->
    json_dumps doc = content f ->
    access w (Summarizer.msg_file_path env) = Writable ->
    disk_full w = false ->
    main env w = (Ok tt, w).
Proof.
  intros Hch Hu. split; [now apply main_no_url|].
  intros f doc Hp Hcas Hcaf Hf Hr Hd Ht Hrt Hacc Hfull.
  rewrite main_spec, Hcas, Hcaf.
  rewrite (acquire_loaded json_loads _ w f doc Hp Hf Hr Hd).
  unfold stamped, has_changes. rewrite Ht, Hch. cbn [andb].
  rewrite persist_written by auto.
  rewrite deliver_skipped by now rewrite Hu.
  rewrite Hf, Hrt. f_equal.
  destruct w as [files ? ? ? ? ? ? ? ?], f as [text r]. unfold with_fs.
  cbn in *. f_equal. now apply insert_id.
Qed.

(** C10.  Whenever [main] ends with the error of a failed write, the
    message file is left empty, whatever it held before: it was truncated
    when it was opened, before the message was serialised into it. *)
Theorem write_error_leaves_truncated_file env w msg :
  fst (main env w) = Raise (OSError msg) ->
  exists f,
    fs (snd (main env w)) !! Summarizer.msg_file_path env = Some f /\
    content f = "".
Proof.
  rewrite main_spec.
  destruct (acquire _ _ w) as [[message0|e] w0] eqn:Ha.
  2:{ cbn [fst]. intros [= ->].
      assert (Hpb : acquire_problem json_loads w
                      (Summarizer.msg_file_path env) (OSError msg)).
      { eapply acquire_raises. rewrite Ha. reflexivity. }
      inversion Hpb. }
  destruct (stamped_ok env w message0) as (message & ->).
  destruct (has_changes env); [discriminate|].
  destruct (persist_cases message (Summarizer.msg_file_path env)
              (Summarizer.msg_file_clear_at_finish env) w)
    as [(r & E & Hr)|[(lines & E)|E]]; rewrite E.
  - destruct r as [[]|e]; [|cbn [fst]; intros Hraise; now destruct (Hr msg)].
    destruct (nonempty (Summarizer.teams_webhook_url env)) eqn:Hu.
    + rewrite deliver_spec by auto. cbn zeta.
      destruct (attempt_ok _ || _); [discriminate|].
      destruct (Summarizer.msg_file_clear_at_finish env); discriminate.
    + rewrite deliver_skipped by auto.
      destruct (Summarizer.msg_file_clear_at_finish env); discriminate.
  - intros _. cbn [snd]. unfold truncated. cbn [fs with_log with_fs].
    rewrite lookup_insert_eq. eauto.
  - destruct (nonempty (Summarizer.teams_webhook_url env)) eqn:Hu.
    + rewrite deliver_spec by auto. cbn zeta.
      destruct (attempt_ok _ || _); [discriminate|].
      destruct (Summarizer.msg_file_clear_at_finish env); discriminate.
    + rewrite deliver_skipped by auto.
      destruct (Summarizer.msg_file_clear_at_finish env); discriminate.
Qed.

End MainFacts.

(** ** The translators *)

Lemma add_fact_step message name value :
  is_card message = true ->
  exists message',
    add_fact message name value = Ok message' /\
    is_card message' = true /\
    facts_of message' = (facts_of message ++ [fact name value])%list.
Proof.
  intros Hcard.
  apply is_card_spec in Hcard as (sec & facts & Hsec & Hfacts).
  destruct (add_fact_card message sec facts name value Hsec Hfacts)
    as (m' & E & Hsec' & _).
  assert (Hf' : dict_get "facts"
                  (dict_set "facts" (PList (facts ++ [fact name value])) sec)
                = Some (PList (facts ++ [fact name value])))
    by apply dict_get_set_eq.
  exists m'. split; [exact E|]. split.
  - apply is_card_spec. eauto.
  - rewrite (facts_of_spec message sec facts Hsec Hfacts).
    eapply facts_of_spec; eauto.
Qed.

(** One [add_fact] of a translator, on a message known to be a card. *)
Ltac step_add_fact :=
  match goal with
  | Hc : is_card ?m = true |- context [add_fact ?m ?n ?v] =>
      let m' := fresh "m" in
      let E := fresh "E" in
      let Hc' := fresh "Hc" in
      let Hf := fresh "Hf" in
      destruct (add_fact_step m n v Hc) as (m' & E & Hc' & Hf);
      rewrite E; clear E; cbn beta iota
  end.

(** One [self.output] of a translator: the world it leaves is named, and
    only what it keeps of the files and posts is remembered. *)
Ltac step_output :=
  unfold bind at 1; unfold output at 1;
  match goal with
  | Hw : fs ?w0 = fs ?w /\ posts ?w0 = posts ?w
    |- context [with_log ?w0 ?l] =>
      let w1 := fresh "w" in
      let H := fresh "Hw" in
      set (w1 := with_log w0 l);
      assert (H : fs w1 = fs w /\ posts w1 = posts w)
        by (destruct Hw; split; assumption);
      clearbody w1; clear Hw
  end.

Lemma notifier_munki_message_spec py_repr message summary data verbosity w :
  is_card message = true ->
  py_get summary "data" = Ok (PDict data) ->
  exists message' w',
    Notifier.munki_message py_repr message summary verbosity w
      = (Ok (message', data_get "name" data), w') /\
    is_card message' = true /\
    facts_of message'
      = (facts_of message ++ detailed_import_facts data verbosity)%list /\
    fs w' = fs w /\ posts w' = posts w.
Proof.
  intros Hcard Hdata.
  assert (Hw : fs w = fs w /\ posts w = posts w) by (split; reflexivity).
  unfold Notifier.munki_message, detailed_import_facts.
  unfold bind at 1. unfold lift at 1. rewrite Hdata.
  do 6 (unfold bind at 1; unfold lift at 1; cbn [py_get]).
  fold (data_get "name" data) (data_get "version" data)
    (data_get "catalogs" data) (data_get "pkginfo_path" data)
    (data_get "pkg_repo_path" data) (data_get "icon_repo_path" data).
  do 6 step_output.
  unfold bind, lift, ret.
  destruct (3 <=? verbosity), (1 <=? verbosity), (2 <=? verbosity),
    (truthy (data_get "icon_repo_path" data));
    repeat step_add_fact;
    (eexists _, _; split; [reflexivity|]; split; [assumption|];
     split; [|assumption]);
    repeat match goal with
           | H : facts_of _ = _ |- _ => rewrite H; clear H
           end;
    cbn [app]; rewrite <- ?app_assoc; reflexivity.
Qed.

Lemma summarizer_munki_message_spec py_repr message summary data verbosity w :
  is_card message = true ->
  py_get summary "data" = Ok (PDict data) ->
  exists message' w',
    Summarizer.munki_message py_repr message summary verbosity w
      = (Ok message', w') /\
    is_card message' = true /\
    facts_of message'
      = (facts_of message ++ [compact_import_fact py_repr data])%list /\
    fs w' = fs w /\ posts w' = posts w.
Proof.
  intros Hcard Hdata.
  assert (Hw : fs w = fs w /\ posts w = posts w) by (split; reflexivity).
  unfold Summarizer.munki_message, compact_import_fact.
  unfold bind at 1. unfold lift at 1. rewrite Hdata.
  do 6 (unfold bind at 1; unfold lift at 1; cbn [py_get]).
  fold (data_get "name" data) (data_get "version" data)
    (data_get "catalogs" data).
  do 6 step_output.
  unfold bind, lift, ret.
  step_add_fact.
  eexists _, _. split; [reflexivity|]. auto.
Qed.

Lemma detailed_import_facts_monotone data v v' :
  v <= v' ->
  incl (detailed_import_facts data v) (detailed_import_facts data v').
Proof.
  intros Hle. unfold detailed_import_facts.
  destruct (Z.leb_spec 3 v), (Z.leb_spec 1 v), (Z.leb_spec 2 v),
    (Z.leb_spec 3 v'), (Z.leb_spec 1 v'), (Z.leb_spec 2 v');
    try lia; cbn [app]; intros x Hx; cbn [In] in *; tauto.
Qed.

(** ** Claims on the translators *)

(** C8.  For a fixed import summary, the facts the detailed translator
    adds at verbosity [v] are among those it adds at verbosity [v + 1], for
    every [v]; the display name it returns is the same. *)
Theorem verbosity_monotone py_repr (message summary : pyval)
    (data : list (string * pyval)) (v : Z) (w : World) :
  is_card message = true ->
  py_get summary "data" = Ok (PDict data) ->
  exists m1 w1 m2 w2 name added1 added2,
    Notifier.munki_message py_repr message summary v w
      = (Ok (m1, name), w1) /\
    Notifier.munki_message py_repr message summary (v + 1) w
      = (Ok (m2, name), w2) /\
    facts_of m1 = (facts_of message ++ added1)%list /\
    facts_of m2 = (facts_of message ++ added2)%list /\
    incl added1 added2.
Proof.
  intros Hcard Hdata.
  destruct (notifier_munki_message_spec py_repr message summary data v w
              Hcard Hdata) as (m1 & w1 & E1 & _ & F1 & _).
  destruct (notifier_munki_message_spec py_repr message summary data (v + 1)
              w Hcard Hdata) as (m2 & w2 & E2 & _ & F2 & _).
  exists m1, w1, m2, w2, (data_get "name" data),
    (detailed_import_facts data v), (detailed_import_facts data (v + 1)).
  repeat split; auto.
  apply detailed_import_facts_monotone. lia.
Qed.

(** C6, as the code has it.  A summary whose data is a dictionary is
    translated without error whichever attributes it lacks, the name
    included: a missing attribute reads as [None].  The detailed translator
    returns the name, [None] when it is missing, and the compact translator
    files its fact under it. *)
Theorem translators_accept_missing_attributes py_repr
    (message summary : pyval) (data : list (string * pyval)) (v : Z)
    (verbosity : pyobj) (w : World) :
  is_card message = true ->
  py_get summary "data" = Ok (PDict data) ->
  (exists m1 w1,
      Notifier.munki_message py_repr message summary v w
        = (Ok (m1, data_get "name" data), w1) /\
      facts_of m1
        = (facts_of message ++ detailed_import_facts data v)%list) /\
  (exists m2 w2,
      Summarizer.munki_message py_repr message summary verbosity w
        = (Ok m2, w2) /\
      facts_of m2
        = (facts_of message ++ [compact_import_fact py_repr data])%list) /\
  (dict_get "name" data = None -> data_get "name" data = PNone).
Proof.
  intros Hcard Hdata. split; [|split].
  - destruct (notifier_munki_message_spec py_repr message summary data v w
                Hcard Hdata) as (m1 & w1 & E1 & _ & F1 & _).
    eauto.
  - destruct (summarizer_munki_message_spec py_repr message summary data
                verbosity w Hcard Hdata) as (m2 & w2 & E2 & _ & F2 & _).
    eauto.
  - unfold data_get. now intros ->.
Qed.

(** ** The claims at sample inputs *)

(** C1 at a transport that refuses the first post and would deliver the
    second: one post, no pause, and the error of the refused post. *)
Example send_refused_once :
  let run :=
    send_teams_message Example.repr Example.dumps Sample.url
      Sample.prior_card
      (Sample.world Sample.no_files Sample.refused_once false) in
  fst run = Raise (attempt_error Sample.refused) /\
  length (posts (snd run)) = 1%nat /\
  sleeps (snd run) = [].
Proof. vm_compute. auto. Qed.

(** C2 at the failing input with [msg_file_clear_at_finish] false: every
    post is refused and [main] returns without raising. *)
Example delivery_failure_swallowed :
  let env := Sample.env Sample.url "" false PNone false false in
  let w := Sample.world Sample.no_files (Sample.always Sample.refused) false in
  Summarizer.msg_file_clear_at_finish env = false /\
  attempt_ok (transport w 0) = false /\
  posts (snd (Sample.main env w)) <> [] /\
  fst (Sample.main env w) = Ok tt.
Proof. vm_compute. repeat split; discriminate. Qed.

(** C2 at the failing input with [msg_file_clear_at_finish] true and a
    cached message: [main] ends with [TypeError], not with the
    [ProcessorError] of the refused post, and the message file is still
    there. *)
Example delivery_failure_masked :
  let env := Sample.env Sample.url Sample.path false PNone false true in
  let w :=
    Sample.world (Sample.cached (Example.dumps Sample.prior_card))
      (Sample.always Sample.refused) false in
  fst (Sample.main env w)
    = Raise (TypeError
        "catching classes that do not inherit from BaseException is not allowed")
  /\ fst (Sample.main env w) <> Raise (attempt_error Sample.refused)
  /\ fs (snd (Sample.main env w)) !! Sample.path
     = Some (mkFile (Example.dumps Sample.prior_card) true).
Proof. vm_compute. repeat split; discriminate. Qed.

(** C2 at sample inputs: every post is refused; with the flag false [main]
    returns, with the flag true it ends with [TypeError] and the files are
    as they were. *)
Lemma delivery_failure_lost_witness :
  let w0 := Sample.world Sample.no_files (Sample.always Sample.refused) false in
  let w1 :=
    Sample.world (Sample.cached (Example.dumps Sample.prior_card))
      (Sample.always Sample.refused) false in
  fst (Sample.main (Sample.env Sample.url "" false PNone false false) w0)
    = Ok tt /\
  fs (snd (Sample.main
             (Sample.env Sample.url Sample.path false PNone false true) w1))
    = fs w1.
Proof.
  cbn zeta. split.
  - destruct (delivery_failure_lost Example.repr Example.dumps Example.loads
                (Sample.env Sample.url "" false PNone false false)
                (Sample.world Sample.no_files (Sample.always Sample.refused)
                   false)) as [Hkept _].
    + intros n. reflexivity.
    + vm_compute. discriminate.
    + apply Hkept. reflexivity.
  - destruct (delivery_failure_lost Example.repr Example.dumps Example.loads
                (Sample.env Sample.url Sample.path false PNone false true)
                (Sample.world
                   (Sample.cached (Example.dumps Sample.prior_card))
                   (Sample.always Sample.refused) false)) as [_ Hcleared].
    + intros n. reflexivity.
    + vm_compute. discriminate.
    + apply Hcleared. reflexivity.
Defined.

(** C3 at a sample input: the message file is not JSON. *)
Lemma acquire_problem_propagates_witness :
  let env := Sample.env "" Sample.path false PNone false false in
  let w :=
    Sample.world (Sample.cached "not json") (Sample.always Sample.delivered)
      false in
  Sample.main env w = (Raise (NameError "JSONDecodeError"), w).
Proof.
  cbn zeta.
  apply (acquire_problem_propagates Example.repr Example.dumps Example.loads).
  - reflexivity.
  - reflexivity.
  - apply (file_malformed Example.loads _ _ (mkFile "not json" true));
      reflexivity.
Defined.

(** C3 at a missing file: [open] raises outside the [try]. *)
Example missing_file_raises :
  let env := Sample.env "" Sample.path false PNone false false in
  let w := Sample.world Sample.no_files (Sample.always Sample.delivered) false in
  fst (Sample.main env w) = Raise (FileNotFoundError Sample.path) /\
  fs (snd (Sample.main env w)) = Sample.no_files.
Proof. vm_compute. auto. Qed.

(** C4 at a sample input: a cached card with one fact, one import to add
    and a transport that delivers at once. *)
Lemma changes_raise_before_persist_witness :
  let env :=
    Sample.env Sample.url Sample.path true Sample.import_summary false false in
  let w :=
    Sample.world (Sample.cached (Example.dumps Sample.prior_card))
      (Sample.always Sample.delivered) false in
  length (facts_of Sample.prior_card) = 1%nat /\
  Sample.main env w = (Raise (NameError "verbosity"), w).
Proof.
  cbn zeta. split; [reflexivity|].
  apply (changes_raise_before_persist Example.repr Example.dumps Example.loads
           _ _ (mkFile (Example.dumps Sample.prior_card) true)
           Sample.prior_card).
  - reflexivity.
  - reflexivity.
  - reflexivity.
  - reflexivity.
  - vm_compute. reflexivity.
  - reflexivity.
  - reflexivity.
  - reflexivity.
Defined.

(** A delivered post is followed by the attempt to remove the message
    file, which ends in [TypeError]; the file stays. *)
Example delivered_run_keeps_file :
  let env := Sample.env Sample.url Sample.path false PNone false false in
  let w :=
    Sample.world (Sample.cached (Example.dumps Sample.prior_card))
      (Sample.always Sample.delivered) false in
  fst (Sample.main env w)
    = Raise (TypeError
        "catching classes that do not inherit from BaseException is not allowed")
  /\ fs (snd (Sample.main env w)) !! Sample.path
     = Some (mkFile (Example.dumps Sample.prior_card) true).
Proof. vm_compute. auto. Qed.

(** C5 fails: nothing changed and there is no summary, yet with a webhook
    URL set the cached message is posted. *)
Lemma unchanged_run_posts :
  let env := Sample.env Sample.url Sample.path false PNone false false in
  let w :=
    Sample.world (Sample.cached (Example.dumps Sample.prior_card))
      (Sample.always Sample.delivered) false in
  Summarizer.munki_repo_changed env = false /\
  Summarizer.munki_importer_summary_result env = PNone /\
  Summarizer.munki_autostaging_summary_result env = PNone /\
  posts (snd (Sample.main env w))
    = [curl_cmd (Example.dumps Sample.prior_card) Sample.url].
Proof. vm_compute. auto. Qed.

(** C5 at a sample input: no webhook URL and a cached card. *)
Lemma unchanged_run_without_url_witness :
  let env := Sample.env "" Sample.path false PNone false false in
  let w :=
    Sample.world (Sample.cached (Example.dumps Sample.prior_card))
      (Sample.always Sample.delivered) false in
  posts (snd (Sample.main env w)) = [] /\ Sample.main env w = (Ok tt, w).
Proof.
  cbn zeta.
  destruct (unchanged_run_without_url
              Example.repr Example.dumps Example.loads
              (Sample.env "" Sample.path false PNone false false)
              (Sample.world (Sample.cached (Example.dumps Sample.prior_card))
                 (Sample.always Sample.delivered) false)
              eq_refl eq_refl) as [Hposts Hmain].
  split; [exact Hposts|].
  apply (Hmain (mkFile (Example.dumps Sample.prior_card) true)
           Sample.prior_card); reflexivity.
Defined.

(** C5 where the cached file is read-only: [open(path, 'w')] raises outside
    the [try], [main] ends with [PermissionError] and the world is as it
    was. *)
Example read_only_file_raises :
  let env := Sample.env "" Sample.path false PNone false false in
  Sample.main env MoreSamples.read_only_world
    = (Raise (PermissionError Sample.path), MoreSamples.read_only_world).
Proof. vm_compute. reflexivity. Qed.

(** C6 fails: a summary without [name] is translated without any error;
    the detailed translator returns [None] as the name and the compact one
    files its fact under [None]. *)
Lemma nameless_summary_translated :
  let w := Sample.world Sample.no_files (Sample.always Sample.delivered) false in
  dict_get "name" Sample.nameless_data = None /\
  py_get Sample.nameless_summary "data" = Ok (PDict Sample.nameless_data) /\
  match fst (Notifier.munki_message Example.repr Sample.prior_card
               Sample.nameless_summary 0 w) with
  | Ok (m, name) =>
      name = PNone /\
      facts_of m
        = (facts_of Sample.prior_card
             ++ [fact (PStr "new Version") (PStr "101.0.4951.54")])%list
  | Raise _ => False
  end /\
  match fst (Summarizer.munki_message Example.repr Sample.prior_card
               Sample.nameless_summary (Opaque "int") w) with
  | Ok m =>
      facts_of m
        = (facts_of Sample.prior_card
             ++ [fact PNone
                   (PStr "imported ver. 101.0.4951.54 -> ['testing']")])%list
  | Raise _ => False
  end.
Proof. vm_compute. auto. Qed.

(** C6 at a sample input: the summary without [name]. *)
Lemma translators_accept_missing_attributes_witness :
  let w := Sample.world Sample.no_files (Sample.always Sample.delivered) false in
  (exists m1 w1,
      Notifier.munki_message Example.repr Sample.prior_card
        Sample.nameless_summary 0 w
        = (Ok (m1, data_get "name" Sample.nameless_data), w1) /\
      facts_of m1
        = (facts_of Sample.prior_card
             ++ detailed_import_facts Sample.nameless_data 0)%list) /\
  (exists m2 w2,
      Summarizer.munki_message Example.repr Sample.prior_card
        Sample.nameless_summary (Opaque "int") w
        = (Ok m2, w2) /\
      facts_of m2
        = (facts_of Sample.prior_card
             ++ [compact_import_fact Example.repr Sample.nameless_data])%list)
  /\ (dict_get "name" Sample.nameless_data = None ->
      data_get "name" Sample.nameless_data = PNone).
Proof.
  cbn zeta.
  apply (translators_accept_missing_attributes Example.repr
           Sample.prior_card Sample.nameless_summary Sample.nameless_data).
  - reflexivity.
  - reflexivity.
Defined.

(** C7 at a sample input: the cached card, which has an image. *)
Lemma activity_image_absent_or_exact_witness :
  is_card Sample.prior_card = true /\
  (exists message0 sec0,
      set_activity_image Sample.prior_card (PStr "") = Ok message0 /\
      section_of message0 = Some sec0 /\
      ~ In "activityImage" (map fst sec0) /\
      is_card message0 = true) /\
  (exists message1,
      set_activity_image Sample.prior_card (PStr "http://x") = Ok message1 /\
      section_get "activityImage" message1 = Some (PStr "http://x") /\
      is_card message1 = true).
Proof.
  split; [reflexivity|].
  apply (activity_image_absent_or_exact Sample.prior_card "http://x");
    reflexivity.
Defined.

(** C8 at a sample input: verbosity 2 against verbosity 3. *)
Lemma verbosity_monotone_witness :
  let w := Sample.world Sample.no_files (Sample.always Sample.delivered) false in
  exists m1 w1 m2 w2 name added1 added2,
    Notifier.munki_message Example.repr Sample.prior_card
      Sample.import_summary 2 w = (Ok (m1, name), w1) /\
    Notifier.munki_message Example.repr Sample.prior_card
      Sample.import_summary (2 + 1) w = (Ok (m2, name), w2) /\
    facts_of m1 = (facts_of Sample.prior_card ++ added1)%list /\
    facts_of m2 = (facts_of Sample.prior_card ++ added2)%list /\
    incl added1 added2.
Proof.
  cbn zeta.
  apply (verbosity_monotone Example.repr Sample.prior_card
           Sample.import_summary
           [("name", PStr "GoogleChrome");
            ("version", PStr "101.0.4951.54");
            ("catalogs", PList [PStr "testing"]);
            ("pkginfo_path", PStr "apps/GoogleChrome-101.0.4951.54.plist");
            ("pkg_repo_path", PStr "apps/GoogleChrome-101.0.4951.54.dmg")]
           2).
  - reflexivity.
  - reflexivity.
Defined.

(** C10 at a sample input: the disk is full and the file held a card. *)
Lemma write_error_leaves_truncated_file_witness :
  let env := Sample.env "" Sample.path false PNone false false in
  let w :=
    Sample.world (Sample.cached (Example.dumps Sample.prior_card))
      (Sample.always Sample.delivered) true in
  fs w !! Sample.path
    = Some (mkFile (Example.dumps Sample.prior_card) true) /\
  fst (Sample.main env w) = Raise (OSError "No space left on device") /\
  exists f,
    fs (snd (Sample.main env w)) !! Sample.path = Some f /\ content f = "".
Proof.
  cbn zeta. split; [reflexivity|]. split; [vm_compute; reflexivity|].
  apply (write_error_leaves_truncated_file
           Example.repr Example.dumps Example.loads
           (Sample.env "" Sample.path false PNone false false)
           (Sample.world (Sample.cached (Example.dumps Sample.prior_card))
              (Sample.always Sample.delivered) true)
           "No space left on device").
  vm_compute. reflexivity.
Defined.

(** A write that fails inside the [try] leaves its line in the log. *)
Example write_error_logged :
  let env := Sample.env "" Sample.path false PNone false false in
  let w :=
    Sample.world (Sample.cached (Example.dumps Sample.prior_card))
      (Sample.always Sample.delivered) true in
  fst (Sample.main env w) = Raise (OSError "No space left on device") /\
  log (snd (Sample.main env w))
    = [(1, "Failed witing file /tmp/teams_messages.json.")] /\
  fs (snd (Sample.main env w)) !! Sample.path = Some (mkFile "" true).
Proof. vm_compute. auto. Qed.

(** A write that fails when the file is closed, after the [try], leaves
    nothing in the log; the file is empty all the same. *)
Example late_write_error_not_logged :
  let env := Sample.env "" Sample.path false PNone false false in
  fst (Sample.main env MoreSamples.late_full_world)
    = Raise (OSError "No space left on device") /\
  log (snd (Sample.main env MoreSamples.late_full_world)) = [] /\
  fs (snd (Sample.main env MoreSamples.late_full_world)) !! Sample.path
    = Some (mkFile "" true).
Proof. vm_compute. auto. Qed.

(** C9 at a sample sequence: the second [set_title] decides. *)
Example titles_follow_last_set_title :
  match new_message (PStr "AutoPkg") (PStr "") (PStr "") (PStr "") with
  | Ok message0 =>
      match apply_ops message0
              [SetTitle (PStr "first"); AddFact (PStr "n") (PStr "v");
               SetTitle (PStr "second"); SetActivityImage (PStr "")] with
      | Ok message =>
          content_get "summary" message = Some (PStr "second") /\
          content_get "title" message = Some (PStr "second")
      | Raise _ => False
      end
  | Raise _ => False
  end.
Proof. vm_compute. auto. Qed.

(** ** Further properties of the message card *)

Lemma dict_set_set k v v' d :
  dict_set k v (dict_set k v' d) = dict_set k v d.
Proof.
  induction d as [|[k0 v0] d IH]; cbn [dict_set].
  - now rewrite String.eqb_refl.
  - destruct (String.eqb k k0) eqn:E; cbn [dict_set]; rewrite E;
      [reflexivity|]. now rewrite IH.
Qed.

Lemma dict_set_same k v d :
  dict_get k d = Some v -> dict_set k v d = d.
Proof.
  induction d as [|[k0 v0] d IH]; cbn [dict_get dict_set]; [discriminate|].
  destruct (String.eqb_spec k k0) as [->|Hne].
  - now intros [= ->].
  - intros H. now rewrite IH.
Qed.

Lemma dict_del_absent k d :
  dict_get k d = None -> dict_del k d = d.
Proof.
  induction d as [|[k0 v0] d IH]; cbn [dict_get dict_del]; [reflexivity|].
  destruct (String.eqb k k0); [discriminate|].
  intros H. now rewrite IH.
Qed.

Lemma dict_del_set_absent k v d :
  dict_get k d = None -> dict_del k (dict_set k v d) = d.
Proof.
  induction d as [|[k0 v0] d IH]; cbn [dict_get dict_set dict_del].
  - now rewrite String.eqb_refl.
  - destruct (String.eqb k k0) eqn:E; [discriminate|].
    cbn [dict_del]. rewrite E. intros H. now rewrite IH.
Qed.

(** The containers of a message whose section can be reached. *)
Lemma section_of_parts message sec :
  section_of message = Some sec ->
  exists d a ar c sr,
    message = PDict d /\
    dict_get "attachments" d = Some (PList (PDict a :: ar)) /\
    dict_get "content" a = Some (PDict c) /\
    dict_get "sections" c = Some (PList (PDict sec :: sr)).
Proof.
  intros Hsec.
  apply section_of_inv in Hsec as (c & sr & Hc & Hs).
  apply content_of_inv in Hc as (d & a & ar & -> & Ha & Hc).
  eauto 10.
Qed.

Lemma update_section_explicit d a ar c sr sec f sec' :
  dict_get "attachments" d = Some (PList (PDict a :: ar)) ->
  dict_get "content" a = Some (PDict c) ->
  dict_get "sections" c = Some (PList (PDict sec :: sr)) ->
  f (PDict sec) = Ok (PDict sec') ->
  update_at section_path f (PDict d)
    = Ok (card_with_section d a ar c sr sec').
Proof.
  intros Ha Hc Hs Hf. unfold section_path. simpl.
  rewrite Ha. simpl. rewrite Hc. simpl. rewrite Hs. simpl.
  rewrite Hf. reflexivity.
Qed.

Lemma card_with_section_same d a ar c sr sec :
  dict_get "attachments" d = Some (PList (PDict a :: ar)) ->
  dict_get "content" a = Some (PDict c) ->
  dict_get "sections" c = Some (PList (PDict sec :: sr)) ->
  card_with_section d a ar c sr sec = PDict d.
Proof.
  intros Ha Hc Hs. unfold card_with_section.
  rewrite (dict_set_same "sections" _ c Hs).
  rewrite (dict_set_same "content" _ a Hc).
  now rewrite (dict_set_same "attachments" _ d Ha).
Qed.

(** Two updates of the section in a row are one update by their
    composition. *)
Lemma update_section_twice message sec f g sec1 sec2 :
  section_of message = Some sec ->
  f (PDict sec) = Ok (PDict sec1) ->
  g (PDict sec1) = Ok (PDict sec2) ->
  exists message1 message2,
    update_at section_path f message = Ok message1 /\
    update_at section_path g message1 = Ok message2 /\
    forall h, h (PDict sec) = Ok (PDict sec2) ->
              update_at section_path h message = Ok message2.
Proof.
  intros Hsec Hf Hg.
  apply section_of_parts in Hsec as (d & a & ar & c & sr & -> & Ha & Hc & Hs).
  exists (card_with_section d a ar c sr sec1),
    (card_with_section d a ar c sr sec2).
  split; [now apply update_section_explicit with (sec := sec)|].
  split.
  - unfold card_with_section at 1.
    rewrite (update_section_explicit _ _ ar _ sr sec1 g sec2
               (dict_get_set_eq _ _ _) (dict_get_set_eq _ _ _)
               (dict_get_set_eq _ _ _) Hg).
    unfold card_with_section. now rewrite !dict_set_set.
  - intros h Hh. now apply update_section_explicit with (sec := sec).
Qed.

(** X2.  The last write wins: setting the activity title (or the activity
    subtitle) of a card to [a] and then to [b] gives the very message that
    setting it to [b] gives; setting the same text twice changes nothing
    more. *)
Theorem activity_text_last_write_wins (message a b : pyval) :
  is_card message = true ->
  (exists m1 m2,
      set_activity_title message a = Ok m1 /\
      set_activity_title m1 b = Ok m2 /\
      set_activity_title message b = Ok m2) /\
  (exists m1 m2,
      set_activity_subtitle message a = Ok m1 /\
      set_activity_subtitle m1 b = Ok m2 /\
      set_activity_subtitle message b = Ok m2).
Proof.
  intros Hcard.
  apply is_card_spec in Hcard as (sec & facts & Hsec & _).
  split.
  - destruct (update_section_twice message sec
                (fun s => setitem s (Key "activityTitle") a)
                (fun s => setitem s (Key "activityTitle") b)
                (dict_set "activityTitle" a sec)
                (dict_set "activityTitle" b (dict_set "activityTitle" a sec))
                Hsec eq_refl eq_refl) as (m1 & m2 & E1 & E2 & E3).
    exists m1, m2. repeat split; auto.
    apply E3. cbn [setitem]. now rewrite dict_set_set.
  - destruct (update_section_twice message sec
                (fun s => setitem s (Key "activitySubtitle") a)
                (fun s => setitem s (Key "activitySubtitle") b)
                (dict_set "activitySubtitle" a sec)
                (dict_set "activitySubtitle" b
                   (dict_set "activitySubtitle" a sec))
                Hsec eq_refl eq_refl) as (m1 & m2 & E1 & E2 & E3).
    exists m1, m2. repeat split; auto.
    apply E3. cbn [setitem]. now rewrite dict_set_set.
Qed.

(** X5.  On a card without an image, setting an image and then removing
    it gives back the message one started from. *)
Theorem set_then_remove_image (message : pyval) (url : string) :
  is_card message = true ->
  section_get "activityImage" message = None ->
  nonempty url = true ->
  exists m1,
    set_activity_image message (PStr url) = Ok m1 /\
    section_get "activityImage" m1 = Some (PStr url) /\
    set_activity_image m1 (PStr "") = Ok message.
Proof.
  intros Hcard Hnone Hurl.
  apply is_card_spec in Hcard as (sec & facts & Hsec & _).
  unfold section_get in Hnone. rewrite Hsec in Hnone.
  destruct (set_activity_image_card message sec (PStr url) Hsec)
    as (m1' & E1' & Hs1 & _).
  cbn [truthy] in Hs1. rewrite Hurl in Hs1.
  pose proof Hsec as Hparts.
  apply section_of_parts in Hparts
    as (d & a & ar & c & sr & -> & Ha & Hc & Hs).
  destruct (update_section_twice (PDict d) sec
              (fun s => setitem s (Key "activityImage") (PStr url))
              (fun s => delitem s (Key "activityImage"))
              (dict_set "activityImage" (PStr url) sec) sec
              Hsec eq_refl) as (m1 & m2 & E1 & E2 & E3).
  { cbn [delitem]. rewrite dict_get_set_eq.
    now rewrite dict_del_set_absent. }
  assert (Hm2 : m2 = PDict d).
  { specialize (E3 (fun s => Ok s) eq_refl).
    rewrite (update_section_explicit d a ar c sr sec (fun s => Ok s) sec
               Ha Hc Hs eq_refl) in E3.
    injection E3 as <-. now apply card_with_section_same. }
  subst m2. exists m1. unfold set_activity_image at 1.
  cbn [truthy]. rewrite Hurl. split; [exact E1|]. split.
  - unfold set_activity_image in E1'. cbn [truthy] in E1'.
    rewrite Hurl, E1 in E1'. injection E1' as <-.
    unfold section_get. rewrite Hs1. apply dict_get_set_eq.
  - unfold set_activity_image. cbn [truthy nonempty]. now rewrite E2.
Qed.

Lemma set_title_section message sec title :
  section_of message = Some sec ->
  exists message',
    set_title message title = Ok message' /\
    section_of message' = Some sec /\
    content_get "summary" message' = Some title /\
    content_get "title" message' = Some title /\
    forall k, k <> "summary" -> k <> "title" ->
              content_get k message' = content_get k message.
Proof.
  intros Hsec.
  apply section_of_inv in Hsec as (c & sr & Hc & Hsections).
  destruct (set_title_card message c title Hc) as (m' & E & Hc').
  exists m'. split; [exact E|]. split.
  - eapply section_of_intro; [exact Hc'|].
    rewrite !dict_get_set_ne by discriminate. exact Hsections.
  - unfold content_get. rewrite Hc', Hc. repeat split.
    + rewrite dict_get_set_ne by discriminate. apply dict_get_set_eq.
    + apply dict_get_set_eq.
    + intros k Hk1 Hk2. now rewrite !dict_get_set_ne.
Qed.

(** X3.  [set_title] writes the title to both [summary] and [title] of the
    content and to nothing else: the section, with its facts, activity title,
    subtitle and image, and the other entries of the content stay as they
    were. *)
Theorem set_title_only_titles (message title : pyval) :
  is_card message = true ->
  exists message',
    set_title message title = Ok message' /\
    content_get "summary" message' = Some title /\
    content_get "title" message' = Some title /\
    section_of message' = section_of message /\
    forall k, k <> "summary" -> k <> "title" ->
              content_get k message' = content_get k message.
Proof.
  intros Hcard.
  apply is_card_spec in Hcard as (sec & facts & Hsec & _).
  destruct (set_title_section message sec title Hsec)
    as (m' & E & Hs' & Hsum & Htit & Hk).
  exists m'. rewrite Hsec. auto.
Qed.

Lemma apply_op_facts message op :
  is_card message = true ->
  exists message',
    apply_op message op = Ok message' /\
    is_card message' = true /\
    facts_of message' = (facts_of message ++ added_facts [op])%list.
Proof.
  intros Hcard.
  pose proof Hcard as Hc0.
  apply is_card_spec in Hc0 as (sec & facts & Hsec & Hfacts).
  assert (Hkeep : forall m' sec',
             section_of m' = Some sec' ->
             dict_get "facts" sec' = Some (PList facts) ->
             is_card m' = true /\
             facts_of m' = (facts_of message ++ [])%list).
  { intros m' sec' Hs' Hf'. split.
    - apply is_card_spec. eauto.
    - rewrite app_nil_r, (facts_of_spec message sec facts Hsec Hfacts).
      eapply facts_of_spec; eauto. }
  destruct op as [title|text|text|url|name value];
    cbn [apply_op added_facts flat_map app].
  - destruct (set_title_section message sec title Hsec)
      as (m' & E & Hs' & _).
    exists m'. split; [exact E|]. eapply Hkeep; eauto.
  - destruct (set_activity_title_card message sec text Hsec)
      as (m' & E & Hs' & _).
    exists m'. split; [exact E|]. eapply Hkeep; eauto.
    now rewrite dict_get_set_ne by discriminate.
  - destruct (set_activity_subtitle_card message sec text Hsec)
      as (m' & E & Hs' & _).
    exists m'. split; [exact E|]. eapply Hkeep; eauto.
    now rewrite dict_get_set_ne by discriminate.
  - destruct (set_activity_image_card message sec url Hsec)
      as (m' & E & Hs' & _).
    exists m'. split; [exact E|]. eapply Hkeep; eauto.
    destruct (truthy url).
    + now rewrite dict_get_set_ne by discriminate.
    + now rewrite dict_get_del_ne by discriminate.
  - now apply add_fact_step.
Qed.

(** X1.  Over any sequence of document operations on a card, every
    operation succeeds and the facts of the result are the facts one started
    with followed by one fact per [add_fact], in the order of the calls:
    nothing is reordered, merged or dropped, equal names included, and the
    setters leave the facts alone. *)
Theorem facts_accumulate_in_order (ops : list doc_op) (message : pyval) :
  is_card message = true ->
  exists message',
    apply_ops message ops = Ok message' /\
    is_card message' = true /\
    facts_of message' = (facts_of message ++ added_facts ops)%list.
Proof.
  revert message.
  induction ops as [|op ops IH]; intros message Hcard; cbn [apply_ops].
  - exists message. rewrite app_nil_r. auto.
  - destruct (apply_op_facts message op Hcard) as (m1 & E1 & Hc1 & F1).
    rewrite E1. cbn [rbind].
    destruct (IH m1 Hc1) as (m' & E & Hc & F).
    exists m'. split; [exact E|]. split; [exact Hc|].
    rewrite F, F1, <- app_assoc. unfold added_facts. cbn [flat_map].
    now rewrite app_nil_r.
Qed.

Lemma update_at_unreachable path f : forall message e,
  lookup_at path message = Raise e ->
  update_at path f message = Raise e.
Proof.
  induction path as [|s rest IH]; intros message e; cbn [lookup_at update_at].
  - discriminate.
  - destruct (getitem message s) as [inner|e0]; cbn [rbind].
    + intros H. now rewrite (IH inner e H).
    + auto.
Qed.

(** X4.  On a message whose section cannot be reached, the error of the
    failing subscript leaves every setter and [add_fact]; only the removal
    of the image forgives it, and only when it is a [KeyError]: the message
    is then returned as it is. *)
Theorem setters_on_unreachable_section (message value name : pyval)
    (e : exn) :
  lookup_at section_path message = Raise e ->
  set_activity_title message value = Raise e /\
  set_activity_subtitle message value = Raise e /\
  add_fact message name value = Raise e /\
  set_activity_image message value
    = (if truthy value then Raise e
       else if is_KeyError e then Ok message else Raise e).
Proof.
  intros H. unfold set_activity_title, set_activity_subtitle, add_fact,
    set_activity_image.
  rewrite !(update_at_unreachable section_path _ message e H).
  destruct (truthy value); auto.
Qed.

(** X6.  [add_fact] on a message whose section has no [facts] raises
    [KeyError], and [TypeError] when [facts] is not a list. *)
Theorem add_fact_needs_facts_list (message name value : pyval)
    (sec : list (string * pyval)) :
  section_of message = Some sec ->
  (dict_get "facts" sec = None ->
   add_fact message name value = Raise (KeyError (PStr "facts"))) /\
  (forall x, dict_get "facts" sec = Some x ->
             (forall items, x <> PList items) ->
             add_fact message name value
               = Raise (TypeError "unsupported operand type(s) for +=")).
Proof.
  intros Hsec. split.
  - intros Hnone. unfold add_fact.
    eapply update_section_raise; [exact Hsec|].
    cbn [getitem]. now rewrite Hnone.
  - intros x Hx Hnl. unfold add_fact.
    eapply update_section_raise; [exact Hsec|].
    cbn [getitem]. rewrite Hx. cbn [rbind].
    destruct x; try reflexivity. now destruct (Hnl items).
Qed.

(** ** Further properties of the delivery engine *)

(** X7.  [_curl_json_poster] runs curl once and never returns [False]: it
    returns [True] exactly when curl exits with code 0 and an empty stderr,
    and raises [ProcessorError] otherwise, a zero exit code with text on
    stderr included; when curl ran, the error carries the message, the exit
    code, stdout and stderr.  It writes nothing to the log: the lines after
    its [raise] are never reached. *)
Theorem curl_json_poster_never_false py_repr (body url : string)
    (w : World) :
  let run := _curl_json_poster py_repr body url w in
  fst run <> Ok false /\
  (fst run = Ok true <->
   exists out, transport w (length (posts w)) = Exited 0 out "") /\
  (fst run = Ok true \/ exists args, fst run = Raise (ProcessorError args)) /\
  (forall rc out err,
     transport w (length (posts w)) = Exited rc out err ->
     fst run <> Ok true ->
     fst run =
       Raise (ProcessorError
         ["curl returned an error while sending teams message via webhook.";
          "returncode: " +:+ pretty rc;
          "stdout: " +:+ out;
          "stderr: " +:+ err])) /\
  posts (snd run) = (posts w ++ [curl_cmd body url])%list /\
  log (snd run) = log w /\
  sleeps (snd run) = sleeps w.
Proof.
  cbn zeta. rewrite curl_json_poster_spec. cbn [fst snd].
  destruct (transport w (length (posts w))) as [msg|rc out err];
    cbn [attempt_ok attempt_error].
  - repeat split; try discriminate; eauto.
    intros (out & [=]).
  - destruct (Z.eqb_spec rc 0) as [->|Hrc]; cbn [andb].
    + destruct err as [|c err]; cbn [nonempty negb].
      * repeat split; try discriminate; eauto.
        intros rc out' err' _ Hne. now destruct Hne.
      * repeat split; try discriminate; eauto.
        -- intros (out' & [=]).
        -- now intros rc out' err' [= <- <- <-] _.
    + repeat split; try discriminate; eauto.
      * intros (out' & [= -> _ _]). now destruct Hrc.
      * now intros rc' out' err' [= <- <- <-] _.
Qed.

(** ** Further properties of the translators *)

Lemma bind_output {A} msg lvl (k : unit -> M A) w :
  bind (output msg lvl) k w = k tt (logged w [(lvl, msg)]).
Proof. reflexivity. Qed.

Lemma logged_logged w a b :
  logged (logged w a) b = logged w (a ++ b).
Proof.
  unfold logged, with_log. cbn [fs log posts sleeps transport clock disk_full access late_flush].
  now rewrite app_assoc.
Qed.

Lemma bind_lift {A B} (r : result A) (k : A -> M B) w :
  bind (lift r) k w =
    match r with
    | Ok a => k a w
    | Raise e => (Raise e, w)
    end.
Proof. unfold bind, lift. now destruct r. Qed.

Lemma bind_bind {A B C} (c : M A) (f : A -> M B) (k : B -> M C) w :
  bind (bind c f) k w = bind c (fun a => bind (f a) k) w.
Proof. unfold bind. destruct (c w) as [[a|e] w']; reflexivity. Qed.

Lemma bind_ret {A B} (a : A) (k : A -> M B) w : bind (ret a) k w = k a w.
Proof. reflexivity. Qed.

(** Case analysis on each [add_fact] of a translator in turn. *)
Ltac run_add_facts :=
  repeat first
    [ rewrite bind_bind
    | rewrite bind_ret
    | rewrite bind_lift;
      match goal with
      | |- match add_fact ?m ?n ?v with _ => _ end = _ =>
          destruct (add_fact m n v);
          cbn [apply_ops apply_op rbind with_name]
      end ];
  try reflexivity.

(** The detailed import translator is six lines of log followed by its
    [add_fact] calls. *)
Lemma notifier_munki_message_run py_repr message summary data verbosity w :
  py_get summary "data" = Ok (PDict data) ->
  Notifier.munki_message py_repr message summary verbosity w =
    (with_name (apply_ops message (import_ops data verbosity))
       (data_get "name" data),
     logged w (import_log py_repr data)).
Proof.
  intros Hdata. unfold Notifier.munki_message, import_ops.
  rewrite bind_lift, Hdata.
  do 6 (rewrite bind_lift; cbn [py_get]).
  fold (data_get "name" data) (data_get "version" data)
    (data_get "catalogs" data) (data_get "pkginfo_path" data)
    (data_get "pkg_repo_path" data) (data_get "icon_repo_path" data).
  do 6 (rewrite bind_output, ?logged_logged; cbn [app]).
  change (logged w _) with (logged w (import_log py_repr data)).
  generalize (logged w (import_log py_repr data)). intros w'.
  destruct (3 <=? verbosity), (1 <=? verbosity), (2 <=? verbosity),
    (truthy (data_get "icon_repo_path" data));
    cbn [app apply_ops apply_op rbind]; run_add_facts.
Qed.

Lemma notifier_staging_message_run py_repr message summary data verbosity w :
  py_get summary "data" = Ok (PDict data) ->
  Notifier.staging_message py_repr message summary verbosity w =
    (with_name (apply_ops message (staging_ops data verbosity))
       (data_get "name" data),
     logged w (staging_log py_repr data)).
Proof.
  intros Hdata. unfold Notifier.staging_message, staging_ops.
  rewrite bind_lift, Hdata.
  do 4 (rewrite bind_lift; cbn [py_get]).
  fold (data_get "name" data) (data_get "versions" data)
    (data_get "staging_catalog" data) (data_get "production_catalog" data).
  do 4 (rewrite bind_output, ?logged_logged; cbn [app]).
  change (logged w _) with (logged w (staging_log py_repr data)).
  generalize (logged w (staging_log py_repr data)). intros w'.
  destruct (3 <=? verbosity), (1 <=? verbosity);
    cbn [app apply_ops apply_op rbind]; run_add_facts.
Qed.

Lemma summarizer_munki_message_run py_repr message summary data verbosity w :
  py_get summary "data" = Ok (PDict data) ->
  Summarizer.munki_message py_repr message summary verbosity w =
    (apply_ops message
       [AddFact (data_get "name" data)
          (PStr ("imported ver. "
                 +:+ py_format py_repr (data_get "version" data) +:+ " -> "
                 +:+ py_format py_repr (data_get "catalogs" data)))],
     logged w (import_log py_repr data)).
Proof.
  intros Hdata. unfold Summarizer.munki_message.
  rewrite bind_lift, Hdata.
  do 6 (rewrite bind_lift; cbn [py_get]).
  fold (data_get "name" data) (data_get "version" data)
    (data_get "catalogs" data) (data_get "pkginfo_path" data)
    (data_get "pkg_repo_path" data) (data_get "icon_repo_path" data).
  do 6 (rewrite bind_output, ?logged_logged; cbn [app]).
  change (logged w _) with (logged w (import_log py_repr data)).
  generalize (logged w (import_log py_repr data)). intros w'.
  cbn [apply_ops apply_op rbind]. rewrite bind_lift.
  destruct (add_fact _ _ _); reflexivity.
Qed.

Lemma summarizer_staging_message_run py_repr message summary data verbosity
    w :
  py_get summary "data" = Ok (PDict data) ->
  Summarizer.staging_message py_repr message summary verbosity w =
    (apply_ops message
       [AddFact (data_get "name" data)
          (PStr ("staged ver. "
                 +:+ py_format py_repr (data_get "versions" data) +:+ " "
                 +:+ py_format py_repr (data_get "staging_catalog" data)
                 +:+ " -> "
                 +:+ py_format py_repr (data_get "production_catalog" data)))],
     logged w (staging_log py_repr data)).
Proof.
  intros Hdata. unfold Summarizer.staging_message.
  rewrite bind_lift, Hdata.
  do 4 (rewrite bind_lift; cbn [py_get]).
  fold (data_get "name" data) (data_get "versions" data)
    (data_get "staging_catalog" data) (data_get "production_catalog" data).
  do 4 (rewrite bind_output, ?logged_logged; cbn [app]).
  change (logged w _) with (logged w (staging_log py_repr data)).
  generalize (logged w (staging_log py_repr data)). intros w'.
  cbn [apply_ops apply_op rbind]. rewrite bind_lift.
  destruct (add_fact _ _ _); reflexivity.
Qed.

Lemma same_but_facts_refl message : same_but_facts message message.
Proof. split; reflexivity. Qed.

Lemma same_but_facts_trans m1 m2 m3 :
  same_but_facts m1 m2 -> same_but_facts m2 m3 -> same_but_facts m1 m3.
Proof.
  intros [H1 H2] [H3 H4]. split; intros k Hk.
  - rewrite H3, H1; auto.
  - rewrite H4, H2; auto.
Qed.

(** A run of [add_fact] calls on a card. *)
Lemma add_ops_card ops : forall message,
  Forall (fun op => exists name value, op = AddFact name value) ops ->
  is_card message = true ->
  exists message',
    apply_ops message ops = Ok message' /\
    is_card message' = true /\
    facts_of message' = (facts_of message ++ added_facts ops)%list /\
    same_but_facts message message'.
Proof.
  induction ops as [|op ops IH]; intros message Hall Hcard; cbn [apply_ops].
  - exists message. rewrite app_nil_r. auto using same_but_facts_refl.
  - inversion Hall as [|? ? (name & value & ->) Hrest]; subst.
    cbn [apply_op].
    pose proof Hcard as Hc0.
    apply is_card_spec in Hc0 as (sec & facts & Hsec & Hfacts).
    destruct (add_fact_card message sec facts name value Hsec Hfacts)
      as (m1 & E1 & Hs1 & Hk1).
    destruct (add_fact_step message name value Hcard)
      as (m1' & E1' & Hc1 & F1).
    rewrite E1 in E1'. injection E1' as <-.
    rewrite E1. cbn [rbind].
    destruct (IH m1 Hrest Hc1) as (m' & E & Hc & F & Hsame).
    exists m'. split; [exact E|]. split; [exact Hc|]. split.
    + rewrite F, F1, <- app_assoc. reflexivity.
    + eapply same_but_facts_trans; [|exact Hsame].
      split; [|exact Hk1].
      intros k Hk. unfold section_get. rewrite Hs1, Hsec.
      now apply dict_get_set_ne.
Qed.

Lemma import_ops_add data v :
  Forall (fun op => exists name value, op = AddFact name value)
    (import_ops data v) /\
  added_facts (import_ops data v) = detailed_import_facts data v.
Proof.
  unfold import_ops, detailed_import_facts.
  destruct (3 <=? v), (1 <=? v), (2 <=? v); cbn [app]; split;
    try reflexivity; repeat constructor; eauto.
Qed.

Lemma staging_ops_add data v :
  Forall (fun op => exists name value, op = AddFact name value)
    (staging_ops data v) /\
  added_facts (staging_ops data v) = detailed_staging_facts data v.
Proof.
  unfold staging_ops, detailed_staging_facts.
  destruct (3 <=? v), (1 <=? v); cbn [app]; split;
    try reflexivity; repeat constructor; eauto.
Qed.

(** X8.  For a fixed staging summary, the detailed staging translator
    succeeds on every card at every verbosity, returns the name of the
    summary, and adds: the versions always, the name from verbosity 3, the
    two catalogs from verbosity 1.  What it adds at [v] is among what it adds
    at [v + 1], and it never adds more than four facts. *)
Theorem staging_verbosity_monotone py_repr (message summary : pyval)
    (data : list (string * pyval)) (v : Z) (w : World) :
  is_card message = true ->
  py_get summary "data" = Ok (PDict data) ->
  exists m1 m2 w1 w2,
    Notifier.staging_message py_repr message summary v w
      = (Ok (m1, data_get "name" data), w1) /\
    Notifier.staging_message py_repr message summary (v + 1) w
      = (Ok (m2, data_get "name" data), w2) /\
    facts_of m1 = (facts_of message ++ detailed_staging_facts data v)%list /\
    facts_of m2
      = (facts_of message ++ detailed_staging_facts data (v + 1))%list /\
    incl (detailed_staging_facts data v)
      (detailed_staging_facts data (v + 1)) /\
    (length (detailed_staging_facts data v) <= 4)%nat.
Proof.
  intros Hcard Hdata.
  destruct (staging_ops_add data v) as [Hall1 Hadd1].
  destruct (staging_ops_add data (v + 1)) as [Hall2 Hadd2].
  destruct (add_ops_card _ message Hall1 Hcard) as (m1 & E1 & _ & F1 & _).
  destruct (add_ops_card _ message Hall2 Hcard) as (m2 & E2 & _ & F2 & _).
  exists m1, m2. eexists _, _.
  rewrite !(notifier_staging_message_run py_repr message summary data _ w
              Hdata), E1, E2.
  split; [reflexivity|]. split; [reflexivity|].
  rewrite <- Hadd1, <- Hadd2. split; [exact F1|]. split; [exact F2|].
  rewrite Hadd1, Hadd2. unfold detailed_staging_facts.
  destruct (Z.leb_spec 3 v), (Z.leb_spec 1 v), (Z.leb_spec 3 (v + 1)),
    (Z.leb_spec 1 (v + 1)); try lia; cbn [app length]; split;
    try lia; intros x Hx; cbn [In] in *; tauto.
Qed.

(** X11.  On a card, the two detailed translators change nothing but the
    facts: title, summary, activity title, subtitle and image stay.  In the
    world they only write to the log, and the same lines at every
    verbosity. *)
Theorem detailed_translators_only_add_facts py_repr
    (message summary : pyval) (data : list (string * pyval)) (v : Z)
    (w : World) :
  is_card message = true ->
  py_get summary "data" = Ok (PDict data) ->
  (exists m1,
      Notifier.munki_message py_repr message summary v w
        = (Ok (m1, data_get "name" data),
           logged w (import_log py_repr data)) /\
      same_but_facts message m1) /\
  (exists m2,
      Notifier.staging_message py_repr message summary v w
        = (Ok (m2, data_get "name" data),
           logged w (staging_log py_repr data)) /\
      same_but_facts message m2).
Proof.
  intros Hcard Hdata.
  destruct (import_ops_add data v) as [Hall1 _].
  destruct (staging_ops_add data v) as [Hall2 _].
  destruct (add_ops_card _ message Hall1 Hcard) as (m1 & E1 & _ & _ & S1).
  destruct (add_ops_card _ message Hall2 Hcard) as (m2 & E2 & _ & _ & S2).
  split; [exists m1|exists m2]; (split; [|assumption]).
  - now rewrite (notifier_munki_message_run py_repr message summary data v w
                   Hdata), E1.
  - now rewrite (notifier_staging_message_run py_repr message summary data v
                   w Hdata), E2.
Qed.

(** X9.  On a card, each compact translator adds exactly one fact, filed
    under the name of the summary, whatever is passed as verbosity; nothing
    else of the card changes, and the world only gains the log lines. *)
Theorem compact_translators_add_one_fact py_repr
    (message summary : pyval) (data : list (string * pyval))
    (verbosity : pyobj) (w : World) :
  is_card message = true ->
  py_get summary "data" = Ok (PDict data) ->
  (exists m1,
      Summarizer.munki_message py_repr message summary verbosity w
        = (Ok m1, logged w (import_log py_repr data)) /\
      facts_of m1
        = (facts_of message ++ [compact_import_fact py_repr data])%list /\
      same_but_facts message m1) /\
  (exists m2,
      Summarizer.staging_message py_repr message summary verbosity w
        = (Ok m2, logged w (staging_log py_repr data)) /\
      facts_of m2
        = (facts_of message ++ [compact_staging_fact py_repr data])%list /\
      same_but_facts message m2).
Proof.
  intros Hcard Hdata.
  rewrite (summarizer_munki_message_run py_repr message summary data
             verbosity w Hdata).
  rewrite (summarizer_staging_message_run py_repr message summary data
             verbosity w Hdata).
  split.
  - destruct (add_ops_card
                [AddFact (data_get "name" data)
                   (PStr ("imported ver. "
                          +:+ py_format py_repr (data_get "version" data)
                          +:+ " -> "
                          +:+ py_format py_repr (data_get "catalogs" data)))]
                message) as (m1 & E1 & _ & F1 & S1);
      [repeat constructor; eauto|exact Hcard|].
    exists m1. rewrite E1. auto.
  - destruct (add_ops_card
                [AddFact (data_get "name" data)
                   (PStr ("staged ver. "
                          +:+ py_format py_repr (data_get "versions" data)
                          +:+ " "
                          +:+ py_format py_repr
                                (data_get "staging_catalog" data)
                          +:+ " -> "
                          +:+ py_format py_repr
                                (data_get "production_catalog" data)))]
                message) as (m2 & E2 & _ & F2 & S2);
      [repeat constructor; eauto|exact Hcard|].
    exists m2. rewrite E2. auto.
Qed.

Lemma py_get_not_dict summary k :
  (forall data, py_get summary "data" <> Ok (PDict data)) ->
  (x <~ py_get summary "data" ;; py_get x k)
    = Raise (AttributeError "object has no attribute 'get'").
Proof.
  intros Hnd.
  destruct (py_get summary "data") as [x|e] eqn:E.
  - cbn [rbind]. destruct x; try reflexivity. now destruct (Hnd entries).
  - destruct summary; cbn [py_get] in E; try discriminate;
      now injection E as <-.
Qed.

(** X10.  A summary without a [data] dictionary: all four translators
    raise [AttributeError] at the first [data.get], before anything is
    written to the log or added to the message. *)
Theorem translators_need_data py_repr (message summary : pyval) (v : Z)
    (verbosity : pyobj) (w : World) :
  (forall data, py_get summary "data" <> Ok (PDict data)) ->
  let e := AttributeError "object has no attribute 'get'" in
  Notifier.munki_message py_repr message summary v w = (Raise e, w) /\
  Notifier.staging_message py_repr message summary v w = (Raise e, w) /\
  Summarizer.munki_message py_repr message summary verbosity w
    = (Raise e, w) /\
  Summarizer.staging_message py_repr message summary verbosity w
    = (Raise e, w).
Proof.
  intros Hnd. cbn zeta.
  pose proof (py_get_not_dict summary "name" Hnd) as H.
  unfold Notifier.munki_message, Notifier.staging_message,
    Summarizer.munki_message, Summarizer.staging_message.
  rewrite !bind_lift.
  destruct (py_get summary "data") as [x|e0]; cbn [rbind] in H.
  - rewrite !bind_lift, H. auto.
  - injection H as ->. auto.
Qed.

(** X12.  The compact translators return the message alone.  For a
    message with the two top-level keys of [new_message], unpacking that
    result into two names, as [main] does, yields the two key names and not
    the message. *)
Theorem compact_result_unpacks_to_keys py_repr (t att summary : pyval)
    (data : list (string * pyval)) (verbosity : pyobj) (w : World) :
  is_card (PDict [("type", t); ("attachments", att)]) = true ->
  py_get summary "data" = Ok (PDict data) ->
  (exists r w',
      Summarizer.munki_message py_repr
        (PDict [("type", t); ("attachments", att)]) summary verbosity w
        = (Ok r, w') /\
      unpack2 r = Ok (PStr "type", PStr "attachments")) /\
  (exists r w',
      Summarizer.staging_message py_repr
        (PDict [("type", t); ("attachments", att)]) summary verbosity w
        = (Ok r, w') /\
      unpack2 r = Ok (PStr "type", PStr "attachments")).
Proof.
  intros Hcard Hdata.
  assert (Hshape : forall name value,
             exists att',
               add_fact (PDict [("type", t); ("attachments", att)]) name value
                 = Ok (PDict [("type", t); ("attachments", att')])).
  { intros name value.
    apply is_card_spec in Hcard as (sec & facts & Hsec & Hfacts).
    apply section_of_parts in Hsec
      as (d & a & ar & c & sr & [= <-] & Ha & Hc & Hs).
    unfold add_fact.
    rewrite (update_section_explicit _ a ar c sr sec _
               (dict_set "facts" (PList (facts ++ [fact name value])) sec)
               Ha Hc Hs).
    2:{ cbn [getitem]. rewrite Hfacts. reflexivity. }
    unfold card_with_section. cbn [dict_set]. eauto. }
  rewrite (summarizer_munki_message_run py_repr _ summary data verbosity w
             Hdata).
  rewrite (summarizer_staging_message_run py_repr _ summary data verbosity w
             Hdata).
  cbn [apply_ops apply_op].
  split.
  - destruct (Hshape (data_get "name" data)
                (PStr ("imported ver. "
                       +:+ py_format py_repr (data_get "version" data)
                       +:+ " -> "
                       +:+ py_format py_repr (data_get "catalogs" data))))
      as (att' & ->).
    cbn [rbind]. eexists _, _. split; reflexivity.
  - destruct (Hshape (data_get "name" data)
                (PStr ("staged ver. "
                       +:+ py_format py_repr (data_get "versions" data)
                       +:+ " "
                       +:+ py_format py_repr (data_get "staging_catalog" data)
                       +:+ " -> "
                       +:+ py_format py_repr
                             (data_get "production_catalog" data))))
      as (att' & ->).
    cbn [rbind]. eexists _, _. split; reflexivity.
Qed.

(** ** Further properties of the summarizer *)

Lemma fresh_message_fields teams_username teams_icon_url stamp_text :
  nonempty teams_icon_url = true ->
  exists message,
    fresh_message teams_username teams_icon_url stamp_text = Ok message /\
    is_card message = true /\
    facts_of message = [] /\
    section_get "activityTitle" message
      = Some (PStr ("start: " +:+ stamp_text)) /\
    section_get "activitySubtitle" message = Some (PStr "") /\
    section_get "activityImage" message = Some (PStr teams_icon_url) /\
    content_get "title" message = Some (PStr teams_username) /\
    content_get "summary" message = Some (PStr teams_username).
Proof.
  intros Hicon. unfold fresh_message.
  destruct (new_message_card (PStr teams_username) (PStr "") (PStr "")
              (PStr teams_icon_url)) as (m0 & E0 & Hsec & Hsum & Htit).
  rewrite E0. cbn [rbind].
  destruct (set_activity_title_card m0 _
              (PStr ("start: " +:+ stamp_text)) Hsec)
    as (m & E & Hs & Hk).
  exists m. split; [exact E|].
  unfold new_section in Hs. cbn [truthy] in Hs. rewrite Hicon in Hs.
  cbn [app dict_set] in Hs.
  unfold is_card, facts_of, section_get. rewrite Hs.
  rewrite !Hk by discriminate. repeat split; auto.
Qed.

Lemma str_or_nonempty s d : nonempty d = true -> nonempty (str_or s d) = true.
Proof. unfold str_or. now destruct s. Qed.

Section MoreMainFacts.

Variable py_repr : pyval -> string.
Variable json_dumps : pyval -> string.
Variable json_loads : string -> option pyval.

Abbreviation main := (Summarizer.main py_repr json_dumps json_loads).
Abbreviation acquire := (Summarizer.acquire json_loads).
Abbreviation persist := (Summarizer.persist json_dumps).
Abbreviation deliver := (Summarizer.deliver py_repr json_dumps).

(** What [deliver] and the final reset leave of the files, the sleeps and
    the posts. *)
Lemma deliver_frame message url clear_at_finish bound w :
  let run := deliver message url true clear_at_finish bound w in
  fs (snd run) = fs w /\
  sleeps (snd run) = sleeps w /\
  (posts (snd run) = posts w \/
   posts (snd run) = (posts w ++ [curl_cmd (json_dumps message) url])%list).
Proof.
  cbn zeta. destruct (nonempty url) eqn:Hu.
  - rewrite deliver_spec by auto. cbn. auto.
  - rewrite deliver_skipped by auto. cbn. auto.
Qed.

Lemma persist_sleeps message path clear_at_finish w :
  sleeps (snd (persist message path clear_at_finish w)) = sleeps w /\
  disk_full (snd (persist message path clear_at_finish w)) = disk_full w.
Proof.
  destruct (persist_cases json_dumps message path clear_at_finish w)
    as [(r & E & _)|[(lines & E)|E]]; rewrite E; auto.
Qed.

Lemma persist_other_files message path clear_at_finish w p :
  p <> path ->
  fs (snd (persist message path clear_at_finish w)) !! p = fs w !! p.
Proof.
  intros Hne.
  destruct (persist_cases json_dumps message path clear_at_finish w)
    as [(r & E & _)|[(lines & E)|E]]; rewrite E; cbn [snd]; [reflexivity| |];
    unfold truncated; cbn [fs with_log with_fs];
    now apply lookup_insert_ne.
Qed.

(** X13.  [main] touches no file but the message file, and it never
    deletes a file, the message file included: whatever the three clearing
    flags say, a file that exists before the run exists after it. *)
Theorem main_touches_only_message_file env w p :
  (p <> Summarizer.msg_file_path env ->
   fs (snd (main env w)) !! p = fs w !! p) /\
  (is_Some (fs w !! p) -> is_Some (fs (snd (main env w)) !! p)).
Proof.
  split; [|apply main_never_deletes].
  intros Hne. rewrite main_spec.
  destruct (acquire _ _ w) as [[message0|e] w0]; [|reflexivity].
  destruct (stamped_ok env w message0) as (message & ->).
  destruct (has_changes env); [reflexivity|].
  pose proof (persist_other_files message (Summarizer.msg_file_path env)
                (Summarizer.msg_file_clear_at_finish env) w p Hne) as Hp.
  destruct (persist message _ _ w) as [[[]|e] w1]; cbn [snd] in Hp;
    [|exact Hp].
  pose proof (deliver_frame message (Summarizer.teams_webhook_url env)
                (Summarizer.msg_file_clear_at_finish env)
                (msg_file_bound env) w1) as (Hfs & _).
  cbn zeta in Hfs.
  destruct (deliver message _ _ _ _ w1) as [[[]|e] w2]; cbn [snd] in Hfs.
  - destruct (Summarizer.msg_file_clear_at_finish env); cbn [snd];
      now rewrite Hfs.
  - cbn [snd]. now rewrite Hfs.
Qed.

(** X14.  The input [msg_file_clear_after_send] has no effect: [main]
    replaces it by [True] (the source reads it with [or True]), so a run
    with the flag false is the run with the flag true. *)
Theorem clear_after_send_ignored url username icon changed import_result
    staging_result path clear_at_start clear_at_finish w :
  main (Summarizer.mkEnv url username icon changed import_result
          staging_result path clear_at_start false clear_at_finish) w
  = main (Summarizer.mkEnv url username icon changed import_result
            staging_result path clear_at_start true clear_at_finish) w.
Proof. rewrite !main_spec. reflexivity. Qed.

(** X15.  [main] returns normally only when [msg_file_clear_at_finish] is
    false and the message was not delivered: either no webhook URL is set or
    the post was refused.  After a delivered post the run always ends in an
    exception. *)
Theorem main_returns_only_undelivered env w :
  fst (main env w) = Ok tt ->
  Summarizer.msg_file_clear_at_finish env = false /\
  has_changes env = false /\
  (nonempty (Summarizer.teams_webhook_url env) = false \/
   attempt_ok (transport w (length (posts w))) = false).
Proof.
  rewrite main_spec.
  destruct (acquire _ _ w) as [[message0|e] w0]; [|discriminate].
  destruct (stamped_ok env w message0) as (message & ->).
  destruct (has_changes env); [discriminate|].
  pose proof (persist_frame json_dumps message (Summarizer.msg_file_path env)
                (Summarizer.msg_file_clear_at_finish env) w) as [Hp Ht].
  destruct (persist message _ _ w) as [[[]|e] w1]; cbn [snd] in Hp, Ht;
    [|discriminate].
  destruct (nonempty (Summarizer.teams_webhook_url env)) eqn:Hu.
  - rewrite deliver_spec by auto. cbn zeta. rewrite Ht, Hp.
    destruct (attempt_ok _); cbn [orb]; [discriminate|].
    destruct (Summarizer.msg_file_clear_at_finish env); [discriminate|].
    auto.
  - rewrite deliver_skipped by auto.
    destruct (Summarizer.msg_file_clear_at_finish env); [discriminate|].
    auto.
Qed.

(** X16.  A run of [main] never pauses and posts at most once: the
    10-second pause and the further attempts of the retry loop are never
    reached. *)
Theorem main_posts_at_most_once env w :
  sleeps (snd (main env w)) = sleeps w /\
  (posts (snd (main env w)) = posts w \/
   exists body,
     posts (snd (main env w))
       = (posts w ++ [curl_cmd body (Summarizer.teams_webhook_url env)])%list).
Proof.
  rewrite main_spec.
  destruct (acquire _ _ w) as [[message0|e] w0]; [|auto].
  destruct (stamped_ok env w message0) as (message & ->).
  destruct (has_changes env); [auto|].
  pose proof (persist_frame json_dumps message (Summarizer.msg_file_path env)
                (Summarizer.msg_file_clear_at_finish env) w) as [Hp _].
  pose proof (persist_sleeps message (Summarizer.msg_file_path env)
                (Summarizer.msg_file_clear_at_finish env) w) as [Hs _].
  destruct (persist message _ _ w) as [[[]|e] w1]; cbn [snd] in Hp, Hs;
    [|auto].
  pose proof (deliver_frame message (Summarizer.teams_webhook_url env)
                (Summarizer.msg_file_clear_at_finish env)
                (msg_file_bound env) w1) as (_ & Hsl & Hpo).
  cbn zeta in Hsl, Hpo. rewrite Hp, Hs in *.
  assert (Hgoal : sleeps (snd (deliver message
                                 (Summarizer.teams_webhook_url env) true
                                 (Summarizer.msg_file_clear_at_finish env)
                                 (msg_file_bound env) w1)) = sleeps w /\
                  (posts (snd (deliver message
                                 (Summarizer.teams_webhook_url env) true
                                 (Summarizer.msg_file_clear_at_finish env)
                                 (msg_file_bound env) w1)) = posts w \/
                   exists body,
                     posts (snd (deliver message
                                   (Summarizer.teams_webhook_url env) true
                                   (Summarizer.msg_file_clear_at_finish env)
                                   (msg_file_bound env) w1))
                     = (posts w
                          ++ [curl_cmd body
                                (Summarizer.teams_webhook_url env)])%list)).
  { split; [exact Hsl|]. destruct Hpo as [Hpo|Hpo]; [now left|right; eauto]. }
  destruct (deliver message _ _ _ _ w1) as [[[]|e] w2]; cbn [snd] in Hgoal.
  - destruct (Summarizer.msg_file_clear_at_finish env); exact Hgoal.
  - exact Hgoal.
Qed.

(** X17.  With [msg_file_clear_at_finish] true, [main] never writes the
    message file and never returns normally: every such run ends in an
    exception and leaves the files exactly as they were. *)
Theorem clear_at_finish_always_raises env w :
  Summarizer.msg_file_clear_at_finish env = true ->
  (exists e, fst (main env w) = Raise e) /\
  fs (snd (main env w)) = fs w.
Proof.
  intros Hcaf. rewrite main_spec, Hcaf.
  destruct (acquire _ _ w) as [[message0|e] w0]; [|eauto].
  destruct (stamped_ok env w message0) as (message & ->).
  destruct (has_changes env); [eauto|].
  rewrite persist_skipped by now rewrite andb_false_r.
  pose proof (deliver_frame message (Summarizer.teams_webhook_url env) true
                (msg_file_bound env) w) as (Hfs & _).
  cbn zeta in Hfs.
  destruct (deliver message _ _ _ _ w) as [[[]|e] w2]; cbn [snd] in Hfs;
    cbn [fst snd]; eauto.
Qed.

(** X19.  A failed write of the message file ends the run before any
    delivery: when [main] ends with the write error, nothing was posted. *)
Theorem write_error_prevents_delivery env w msg :
  fst (main env w) = Raise (OSError msg) ->
  posts (snd (main env w)) = posts w.
Proof.
  rewrite main_spec.
  destruct (acquire _ _ w) as [[message0|e] w0]; [|reflexivity].
  destruct (stamped_ok env w message0) as (message & ->).
  destruct (has_changes env); [reflexivity|].
  pose proof (persist_frame json_dumps message (Summarizer.msg_file_path env)
                (Summarizer.msg_file_clear_at_finish env) w) as [Hp _].
  destruct (persist message _ _ w) as [[[]|e] w1]; cbn [snd] in Hp;
    [|intros _; exact Hp].
  destruct (nonempty (Summarizer.teams_webhook_url env)) eqn:Hu.
  - rewrite deliver_spec by auto. cbn zeta.
    destruct (attempt_ok _ || _); [discriminate|].
    destruct (Summarizer.msg_file_clear_at_finish env); discriminate.
  - rewrite deliver_skipped by auto.
    destruct (Summarizer.msg_file_clear_at_finish env);
      [discriminate|intros _; exact Hp].
Qed.

(** X20.  Whenever the changed flag is set and a summary is present, of
    an import or of a staging, [main] raises and leaves the world, log
    included, exactly as it was: [NameError] for the unbound [verbosity],
    unless reading the message file failed first. *)
Theorem changes_always_raise env w :
  has_changes env = true ->
  exists e,
    main env w = (Raise e, w) /\
    (e = NameError "verbosity" \/
     acquire_problem json_loads w (Summarizer.msg_file_path env) e).
Proof.
  intros Hch. rewrite main_spec.
  destruct (acquire _ _ w) as [[message0|e] w0] eqn:Ha.
  - destruct (stamped_ok env w message0) as (message & ->).
    rewrite Hch. eauto.
  - exists e. split; [reflexivity|]. right.
    eapply acquire_raises. rewrite Ha. reflexivity.
Qed.

End MoreMainFacts.

Section FreshCard.

Variable py_repr : pyval -> string.
Variable json_dumps : pyval -> string.
Variable json_loads : string -> option pyval.

Abbreviation main := (Summarizer.main py_repr json_dumps json_loads).
Abbreviation acquire := (Summarizer.acquire json_loads).
Abbreviation persist := (Summarizer.persist json_dumps).
Abbreviation deliver := (Summarizer.deliver py_repr json_dumps).

(** The card of a run that starts afresh. *)
Abbreviation fresh_card env w :=
  (fresh_message (str_or (Summarizer.teams_username env) "AutoPkg")
     (str_or (Summarizer.teams_icon_url env)
        "https://munkibuilds.org/logo.jpg") (clock w)).

Lemma fresh_card_fields env w :
  exists message,
    fresh_card env w = Ok message /\
    facts_of message = [] /\
    section_get "activityTitle" message
      = Some (PStr ("start: " +:+ clock w)) /\
    section_get "activityImage" message
      = Some (PStr (str_or (Summarizer.teams_icon_url env)
                      "https://munkibuilds.org/logo.jpg")) /\
    content_get "title" message
      = Some (PStr (str_or (Summarizer.teams_username env) "AutoPkg")).
Proof.
  destruct (fresh_message_fields
              (str_or (Summarizer.teams_username env) "AutoPkg")
              (str_or (Summarizer.teams_icon_url env)
                 "https://munkibuilds.org/logo.jpg") (clock w))
    as (m & E & _ & F & Ht & _ & Hi & Htit & _).
  { now apply str_or_nonempty. }
  exists m. auto.
Qed.

(** When the acquired value is false and nothing is to be translated,
    the message file is written with the fresh card. *)
Lemma main_writes_fresh_card env w message0 message :
  acquire (Summarizer.msg_file_path env)
    (Summarizer.msg_file_clear_at_start env) w = (Ok message0, w) ->
  truthy message0 = false ->
  fresh_card env w = Ok message ->
  nonempty (Summarizer.msg_file_path env) = true ->
  Summarizer.msg_file_clear_at_finish env = false ->
  has_changes env = false ->
  access w (Summarizer.msg_file_path env) = Writable ->
  disk_full w = false ->
  exists r,
    fs (snd (main env w)) !! Summarizer.msg_file_path env
      = Some (mkFile (json_dumps message) r).
Proof.
  intros Ha Hfalse Hfresh Hp Hcaf Hch Hacc Hfull.
  rewrite main_spec, Ha. unfold stamped. rewrite Hfalse, Hfresh, Hch, Hcaf.
  rewrite persist_written by auto.
  match goal with
  | |- context [deliver message ?u true false ?b ?w1] =>
      pose proof (deliver_frame py_repr json_dumps message u false b w1)
        as (Hfs & _);
      cbn zeta in Hfs;
      destruct (deliver message u true false b w1) as [[[]|e] w2]
  end; cbn [snd] in Hfs |- *; rewrite Hfs; cbn [fs with_fs];
    rewrite lookup_insert_eq; eauto.
Qed.

(** X18.  The start reset: with a message file set,
    [msg_file_clear_at_start] true and [msg_file_clear_at_finish] false, a
    run with nothing to translate, on a file that can be opened for writing
    and a disk that is not full, overwrites the message file, whatever it
    held, with the serialisation of a new card: no facts, the activity title
    ["start: "] followed by the current time, the user name or ["AutoPkg"]
    as title, and the icon URL or the default logo as image. *)
Theorem start_reset_writes_fresh_card env w :
  nonempty (Summarizer.msg_file_path env) = true ->
  Summarizer.msg_file_clear_at_start env = true ->
  Summarizer.msg_file_clear_at_finish env = false ->
  has_changes env = false ->
  access w (Summarizer.msg_file_path env) = Writable ->
  disk_full w = false ->
  exists message r,
    fs (snd (main env w)) !! Summarizer.msg_file_path env
      = Some (mkFile (json_dumps message) r) /\
    facts_of message = [] /\
    section_get "activityTitle" message
      = Some (PStr ("start: " +:+ clock w)) /\
    section_get "activityImage" message
      = Some (PStr (str_or (Summarizer.teams_icon_url env)
                      "https://munkibuilds.org/logo.jpg")) /\
    content_get "title" message
      = Some (PStr (str_or (Summarizer.teams_username env) "AutoPkg")).
Proof.
  intros Hp Hcas Hcaf Hch Hacc Hfull.
  destruct (fresh_card_fields env w) as (m & E & F & Ht & Hi & Htit).
  destruct (main_writes_fresh_card env w (PStr "") m) as (r & Hr); auto.
  { rewrite Hcas. apply acquire_skipped. now rewrite andb_false_r. }
  exists m, r. auto.
Qed.

(** X21.  A message file that holds a false JSON value, such as an empty
    object, an empty list or [null], counts as no message.  With a message
    file set, [msg_file_clear_at_start] and [msg_file_clear_at_finish]
    false and nothing to translate, when the file is readable and decodes
    to such a value, can be opened for writing and the disk is not full,
    the run replaces the value by a new card without facts, stamped with the
    current time, and writes that card to the file. *)
Theorem false_cached_value_replaced env w f doc :
  nonempty (Summarizer.msg_file_path env) = true ->
  Summarizer.msg_file_clear_at_start env = false ->
  Summarizer.msg_file_clear_at_finish env = false ->
  has_changes env = false ->
  access w (Summarizer.msg_file_path env) = Writable ->
  disk_full w = false ->
  fs w !! Summarizer.msg_file_path env = Some f ->
  readable f = true ->
  json_loads (content f) = Some doc ->
  truthy doc = false ->
  exists message r,
    fs (snd (main env w)) !! Summarizer.msg_file_path env
      = Some (mkFile (json_dumps message) r) /\
    facts_of message = [] /\
    section_get "activityTitle" message
      = Some (PStr ("start: " +:+ clock w)).
Proof.
  intros Hp Hcas Hcaf Hch Hacc Hfull Hf Hr Hd Hfalse.
  destruct (fresh_card_fields env w) as (m & E & F & Ht & _).
  destruct (main_writes_fresh_card env w doc m) as (r & Hrr); auto.
  { rewrite Hcas. now apply acquire_loaded with (f := f). }
  exists m, r. auto.
Qed.

(** X22.  Without a message file path nothing is read or written: the
    files stay as they are, and when a webhook URL is set and nothing is to
    be translated, what is posted is a new card stamped with the current
    time. *)
Theorem no_path_posts_fresh_card env w :
  Summarizer.msg_file_path env = "" ->
  fs (snd (main env w)) = fs w /\
  (nonempty (Summarizer.teams_webhook_url env) = true ->
   has_changes env = false ->
   exists message,
     posts (snd (main env w))
       = (posts w ++ [curl_cmd (json_dumps message)
                        (Summarizer.teams_webhook_url env)])%list /\
     facts_of message = [] /\
     section_get "activityTitle" message
       = Some (PStr ("start: " +:+ clock w))).
Proof.
  intros Hpath.
  destruct (fresh_card_fields env w) as (m & E & F & Ht & _).
  assert (Hmain : main env w =
            if has_changes env then (Raise (NameError "verbosity"), w)
            else
              match deliver m (Summarizer.teams_webhook_url env) true
                      (Summarizer.msg_file_clear_at_finish env)
                      (msg_file_bound env) w with
              | (Raise e, w2) => (Raise e, w2)
              | (Ok _, w2) =>
                  if Summarizer.msg_file_clear_at_finish env
                  then (Raise (TypeError
                          "catching classes that do not inherit from BaseException is not allowed"),
                        w2)
                  else (Ok tt, w2)
              end).
  { rewrite main_spec, Hpath.
    rewrite acquire_skipped by reflexivity.
    unfold stamped. cbn [truthy nonempty]. rewrite E.
    rewrite persist_skipped by reflexivity. reflexivity. }
  rewrite Hmain. split.
  - destruct (has_changes env); [reflexivity|].
    pose proof (deliver_frame py_repr json_dumps m
                  (Summarizer.teams_webhook_url env)
                  (Summarizer.msg_file_clear_at_finish env)
                  (msg_file_bound env) w) as (Hfs & _).
    cbn zeta in Hfs.
    destruct (deliver m _ _ _ _ w) as [[[]|e] w2]; cbn [snd] in Hfs.
    + destruct (Summarizer.msg_file_clear_at_finish env); exact Hfs.
    + exact Hfs.
  - intros Hu Hch. rewrite Hch. exists m. split; [|auto].
    rewrite deliver_spec by auto. cbn zeta.
    destruct (attempt_ok _ || _); [reflexivity|].
    destruct (Summarizer.msg_file_clear_at_finish env); reflexivity.
Qed.

End FreshCard.

(** ** Further properties of the notifier *)

Lemma py_get_data_truthy summary data :
  py_get summary "data" = Ok (PDict data) -> truthy summary = true.
Proof.
  destruct summary as [| | | |items|entries]; cbn [py_get]; try discriminate.
  destruct entries; [discriminate|reflexivity].
Qed.

Lemma verbosity_or_zero v : (if v =? 0 then 0 else v) = v.
Proof. destruct (Z.eqb_spec v 0); congruence. Qed.

(** Storing a text of the section other than the facts. *)
Lemma store_section_fields message k v :
  is_card message = true ->
  k <> "facts" ->
  exists message',
    update_at section_path (fun s => setitem s (Key k) v) message
      = Ok message' /\
    is_card message' = true /\
    facts_of message' = facts_of message /\
    section_get k message' = Some v /\
    (forall k', k' <> k -> section_get k' message' = section_get k' message) /\
    (forall k', k' <> "sections" ->
                content_get k' message' = content_get k' message).
Proof.
  intros Hcard Hk.
  apply is_card_spec in Hcard as (sec & facts & Hsec & Hfacts).
  destruct (store_section message sec k v Hsec) as (m' & E & Hs' & Hc').
  assert (Hf' : dict_get "facts" (dict_set k v sec) = Some (PList facts)).
  { rewrite dict_get_set_ne by congruence. exact Hfacts. }
  exists m'. split; [exact E|]. repeat split.
  - apply is_card_spec. eauto.
  - rewrite (facts_of_spec message sec facts Hsec Hfacts).
    eapply facts_of_spec; eauto.
  - unfold section_get. rewrite Hs'. apply dict_get_set_eq.
  - intros k' Hk'. unfold section_get. rewrite Hs', Hsec.
    now apply dict_get_set_ne.
  - exact Hc'.
Qed.

Lemma new_message_is_card title activity_image :
  exists message,
    new_message title (PStr "") (PStr "") activity_image = Ok message /\
    is_card message = true /\
    facts_of message = [] /\
    content_get "title" message = Some title.
Proof.
  destruct (new_message_titled_card title (PStr "") (PStr "") activity_image)
    as (m & E & [Hc _] & Ht & F).
  eauto.
Qed.

Section NotifierFacts.

Variable py_repr : pyval -> string.
Variable json_dumps : pyval -> string.
Variable int_of_str : string -> option Z.

Abbreviation nmain := (Notifier.main py_repr json_dumps int_of_str).

(** The result of the one post of a run that starts in [w]. *)
Abbreviation post_result w :=
  (if attempt_ok (transport w (length (posts w))) then Ok tt
   else Raise (attempt_error (transport w (length (posts w))))).

(** From the translated message to the post. *)
Lemma notifier_send message name url w0 w entries :
  is_card message = true ->
  w0 = logged w entries ->
  exists message',
    (message1 <- lift (set_activity_title message name) ;;
     send_teams_message py_repr json_dumps url message1) w0
      = (post_result w,
         after_attempt (logged w entries) (curl_cmd (json_dumps message') url))
    /\
    facts_of message' = facts_of message /\
    section_get "activityTitle" message' = Some name /\
    (forall k, k <> "activityTitle" ->
               section_get k message' = section_get k message) /\
    (forall k, k <> "sections" ->
               content_get k message' = content_get k message).
Proof.
  intros Hcard ->.
  destruct (store_section_fields message "activityTitle" name Hcard)
    as (m' & E & _ & F & Ht & Hs & Hc); [discriminate|].
  exists m'. split; [|auto].
  rewrite bind_lift. unfold set_activity_title. rewrite E.
  now rewrite send_teams_message_spec.
Qed.

(** X23.  With the changed flag set and only an import summary, the
    notifier posts once: a card with the facts of the detailed mode at the
    given verbosity, the subtitle ["MunkiImporter"], the user name or
    ["AutoPkg"] as title, and as activity title the name of the item,
    followed by [" / "] and [NAME] when [NAME] is set.  The run returns when
    the post is delivered and raises the error of the post otherwise: the
    notifier lets a failed delivery through. *)
Theorem notifier_reports_import env w v data :
  Notifier.py_int int_of_str (Notifier.verbosity env) = Ok v ->
  Notifier.munki_repo_changed env = true ->
  py_get (Notifier.munki_importer_summary_result env) "data"
    = Ok (PDict data) ->
  truthy (Notifier.munki_autostaging_summary_result env) = false ->
  exists message,
    nmain env w
      = (post_result w,
         after_attempt (logged w (import_log py_repr data))
           (curl_cmd (json_dumps message) (Notifier.teams_webhook_url env)))
    /\
    facts_of message = detailed_import_facts data v /\
    section_get "activitySubtitle" message = Some (PStr "MunkiImporter") /\
    section_get "activityTitle" message
      = Some (if nonempty (Notifier.NAME env)
              then PStr (py_format py_repr (data_get "name" data) +:+ " / "
                         +:+ Notifier.NAME env)
              else data_get "name" data) /\
    content_get "title" message
      = Some (PStr (str_or (Notifier.teams_username env) "AutoPkg")).
Proof.
  intros Hv Hch Hdata Hst.
  pose proof (py_get_data_truthy _ _ Hdata) as Htr.
  unfold Notifier.main. rewrite bind_lift, Hv, verbosity_or_zero.
  rewrite str_or_empty, orb_false_r, Hch, Htr, Hst. cbn [andb].
  destruct (new_message_is_card
              (PStr (str_or (Notifier.teams_username env) "AutoPkg"))
              (PStr (str_or (Notifier.teams_icon_url env)
                       "https://munkibuilds.org/logo.jpg")))
    as (m0 & E0 & Hc0 & F0 & Htit0).
  rewrite bind_lift, E0.
  destruct (store_section_fields m0 "activitySubtitle" (PStr "MunkiImporter")
              Hc0) as (m1 & E1 & Hc1 & F1 & Hsub1 & _ & Hk1);
    [discriminate|].
  rewrite !bind_bind, bind_lift. unfold set_activity_subtitle. rewrite E1.
  destruct (import_ops_add data v) as [Hall Hadd].
  destruct (add_ops_card _ m1 Hall Hc1) as (m2 & E2 & Hc2 & F2 & [S2 C2]).
  rewrite bind_bind. unfold bind at 1.
  rewrite (notifier_munki_message_run py_repr m1 _ data v w Hdata), E2.
  cbn [with_name].
  set (name := if nonempty (Notifier.NAME env)
               then PStr (py_format py_repr (data_get "name" data) +:+ " / "
                          +:+ Notifier.NAME env)
               else data_get "name" data).
  assert (Hret : (if nonempty (Notifier.NAME env)
                  then ret (Some (m2, PStr (py_format py_repr
                                              (data_get "name" data)
                                            +:+ " / " +:+ Notifier.NAME env)))
                  else ret (Some (m2, data_get "name" data)))
                 = @ret (option (pyval * pyval)) (Some (m2, name))).
  { unfold name. now destruct (nonempty (Notifier.NAME env)). }
  rewrite Hret, bind_ret. clear Hret.
  destruct (notifier_send m2 name (Notifier.teams_webhook_url env) _ w
              (import_log py_repr data) Hc2 eq_refl)
    as (m3 & E3 & F3 & Ht3 & Hs3 & Hk3).
  exists m3. split; [exact E3|]. repeat split.
  - now rewrite F3, F2, F1, F0, Hadd.
  - rewrite Hs3, S2 by discriminate. exact Hsub1.
  - exact Ht3.
  - rewrite Hk3, C2, Hk1 by discriminate. exact Htit0.
Qed.

(** X24.  With the changed flag set and both summaries, the notifier
    posts once a card whose facts are those of the import followed by those
    of the staging, under the subtitle ["MunkiImporter and AutoStaging"].
    Its activity title is the name of the import, [" / "] and [NAME], with
    the separator also when [NAME] is empty; the name of the staging is not
    used. *)
Theorem notifier_reports_both env w v data staging_data :
  Notifier.py_int int_of_str (Notifier.verbosity env) = Ok v ->
  Notifier.munki_repo_changed env = true ->
  py_get (Notifier.munki_importer_summary_result env) "data"
    = Ok (PDict data) ->
  py_get (Notifier.munki_autostaging_summary_result env) "data"
    = Ok (PDict staging_data) ->
  exists message,
    nmain env w
      = (post_result w,
         after_attempt
           (logged w (import_log py_repr data
                        ++ staging_log py_repr staging_data))
           (curl_cmd (json_dumps message) (Notifier.teams_webhook_url env)))
    /\
    facts_of message
      = (detailed_import_facts data v
           ++ detailed_staging_facts staging_data v)%list /\
    section_get "activitySubtitle" message
      = Some (PStr "MunkiImporter and AutoStaging") /\
    section_get "activityTitle" message
      = Some (PStr (py_format py_repr (data_get "name" data) +:+ " / "
                    +:+ Notifier.NAME env)).
Proof.
  intros Hv Hch Hdata Hsdata.
  pose proof (py_get_data_truthy _ _ Hdata) as Htr.
  pose proof (py_get_data_truthy _ _ Hsdata) as Htr2.
  unfold Notifier.main. rewrite bind_lift, Hv, verbosity_or_zero.
  rewrite str_or_empty, orb_false_r, Hch, Htr, Htr2. cbn [andb].
  destruct (new_message_is_card
              (PStr (str_or (Notifier.teams_username env) "AutoPkg"))
              (PStr (str_or (Notifier.teams_icon_url env)
                       "https://munkibuilds.org/logo.jpg")))
    as (m0 & E0 & Hc0 & F0 & Htit0).
  rewrite bind_lift, E0.
  destruct (store_section_fields m0 "activitySubtitle"
              (PStr "MunkiImporter and AutoStaging") Hc0)
    as (m1 & E1 & Hc1 & F1 & Hsub1 & _ & Hk1); [discriminate|].
  rewrite !bind_bind, bind_lift. unfold set_activity_subtitle. rewrite E1.
  destruct (import_ops_add data v) as [Hall Hadd].
  destruct (add_ops_card _ m1 Hall Hc1) as (m2 & E2 & Hc2 & F2 & [S2 C2]).
  destruct (staging_ops_add staging_data v) as [Hall' Hadd'].
  destruct (add_ops_card _ m2 Hall' Hc2) as (m3 & E3 & Hc3 & F3 & [S3 C3]).
  rewrite bind_bind. unfold bind at 1.
  rewrite (notifier_munki_message_run py_repr m1 _ data v w Hdata), E2.
  cbn [with_name].
  rewrite bind_bind. unfold bind at 1.
  rewrite (notifier_staging_message_run py_repr m2 _ staging_data v _ Hsdata),
    E3.
  cbn [with_name]. rewrite bind_ret, logged_logged.
  destruct (notifier_send m3
              (PStr (py_format py_repr (data_get "name" data) +:+ " / "
                     +:+ Notifier.NAME env))
              (Notifier.teams_webhook_url env) _ w
              (import_log py_repr data ++ staging_log py_repr staging_data)
              Hc3 eq_refl)
    as (m4 & E4 & F4 & Ht4 & Hs4 & Hk4).
  exists m4. split; [exact E4|]. repeat split.
  - now rewrite F4, F3, F2, F1, F0, Hadd, Hadd'.
  - rewrite Hs4, S3, S2 by discriminate. exact Hsub1.
  - exact Ht4.
Qed.

(** X25.  With the changed flag set and only a staging summary, the
    notifier posts once a card with the facts of the staging, the subtitle
    ["MunkiAutoStaging"] and the name of the staged item as activity title;
    [NAME] is not used. *)
Theorem notifier_reports_staging env w v staging_data :
  Notifier.py_int int_of_str (Notifier.verbosity env) = Ok v ->
  Notifier.munki_repo_changed env = true ->
  truthy (Notifier.munki_importer_summary_result env) = false ->
  py_get (Notifier.munki_autostaging_summary_result env) "data"
    = Ok (PDict staging_data) ->
  exists message,
    nmain env w
      = (post_result w,
         after_attempt (logged w (staging_log py_repr staging_data))
           (curl_cmd (json_dumps message) (Notifier.teams_webhook_url env)))
    /\
    facts_of message = detailed_staging_facts staging_data v /\
    section_get "activitySubtitle" message = Some (PStr "MunkiAutoStaging") /\
    section_get "activityTitle" message
      = Some (data_get "name" staging_data).
Proof.
  intros Hv Hch Hfalse Hsdata.
  pose proof (py_get_data_truthy _ _ Hsdata) as Htr2.
  unfold Notifier.main. rewrite bind_lift, Hv, verbosity_or_zero.
  rewrite orb_false_r, Hch, Hfalse, Htr2. cbn [andb].
  destruct (new_message_is_card
              (PStr (str_or (Notifier.teams_username env) "AutoPkg"))
              (PStr (str_or (Notifier.teams_icon_url env)
                       "https://munkibuilds.org/logo.jpg")))
    as (m0 & E0 & Hc0 & F0 & Htit0).
  rewrite bind_lift, E0.
  destruct (store_section_fields m0 "activitySubtitle"
              (PStr "MunkiAutoStaging") Hc0)
    as (m1 & E1 & Hc1 & F1 & Hsub1 & _ & Hk1); [discriminate|].
  rewrite !bind_bind, bind_lift. unfold set_activity_subtitle. rewrite E1.
  destruct (staging_ops_add staging_data v) as [Hall' Hadd'].
  destruct (add_ops_card _ m1 Hall' Hc1) as (m2 & E2 & Hc2 & F2 & [S2 C2]).
  rewrite bind_bind. unfold bind at 1.
  rewrite (notifier_staging_message_run py_repr m1 _ staging_data v w Hsdata),
    E2.
  cbn [with_name]. rewrite bind_ret.
  destruct (notifier_send m2 (data_get "name" staging_data)
              (Notifier.teams_webhook_url env) _ w
              (staging_log py_repr staging_data) Hc2 eq_refl)
    as (m3 & E3 & F3 & Ht3 & Hs3 & Hk3).
  exists m3. split; [exact E3|]. repeat split.
  - now rewrite F3, F2, F1, F0, Hadd'.
  - rewrite Hs3, S2 by discriminate. exact Hsub1.
  - exact Ht3.
Qed.

(** X26.  When the changed flag is not set, or neither summary is
    present, the notifier writes ["Nothing to report to Teams"] to the log
    and returns: nothing is posted and nothing else changes. *)
Theorem notifier_nothing_to_report env w v :
  Notifier.py_int int_of_str (Notifier.verbosity env) = Ok v ->
  Notifier.munki_repo_changed env
  && (truthy (Notifier.munki_importer_summary_result env)
      || truthy (Notifier.munki_autostaging_summary_result env)) = false ->
  nmain env w = (Ok tt, logged w [(1, "Nothing to report to Teams")]).
Proof.
  intros Hv Hnone.
  unfold Notifier.main. rewrite bind_lift, Hv.
  destruct (new_message_is_card
              (PStr (str_or (Notifier.teams_username env) "AutoPkg"))
              (PStr (str_or (Notifier.teams_icon_url env)
                       "https://munkibuilds.org/logo.jpg")))
    as (m0 & E0 & _).
  rewrite bind_lift, E0, orb_false_r.
  destruct (Notifier.munki_repo_changed env),
    (truthy (Notifier.munki_importer_summary_result env)),
    (truthy (Notifier.munki_autostaging_summary_result env));
    try discriminate; reflexivity.
Qed.

(** X27.  A verbosity that [int] does not accept, [None] included, ends
    the notifier with the error of the conversion before the message is made:
    nothing is logged or posted, also when there is nothing to report. *)
Theorem notifier_verbosity_must_convert env w e :
  Notifier.py_int int_of_str (Notifier.verbosity env) = Raise e ->
  nmain env w = (Raise e, w) /\
  (Notifier.verbosity env = PNone -> exists msg, e = TypeError msg).
Proof.
  intros Hv. split.
  - unfold Notifier.main. now rewrite bind_lift, Hv.
  - intros Hnone. rewrite Hnone in Hv. cbn [Notifier.py_int] in Hv.
    injection Hv as <-. eauto.
Qed.

End NotifierFacts.

(** ** The further properties at sample inputs *)

(** X1 at a sample input: two facts under the same name around a change
    of title. *)
Lemma facts_accumulate_in_order_witness :
  exists message',
    apply_ops Sample.prior_card
      [AddFact (PStr "Firefox") (PStr "a"); SetTitle (PStr "t");
       AddFact (PStr "Firefox") (PStr "b")] = Ok message' /\
    is_card message' = true /\
    facts_of message'
      = (facts_of Sample.prior_card
           ++ [fact (PStr "Firefox") (PStr "a");
               fact (PStr "Firefox") (PStr "b")])%list.
Proof.
  apply (facts_accumulate_in_order
           [AddFact (PStr "Firefox") (PStr "a"); SetTitle (PStr "t");
            AddFact (PStr "Firefox") (PStr "b")] Sample.prior_card).
  reflexivity.
Defined.

(** X2 at a sample input. *)
Lemma activity_text_last_write_wins_witness :
  exists m1 m2,
    set_activity_title Sample.prior_card (PStr "first") = Ok m1 /\
    set_activity_title m1 (PStr "second") = Ok m2 /\
    set_activity_title Sample.prior_card (PStr "second") = Ok m2.
Proof.
  apply (activity_text_last_write_wins Sample.prior_card (PStr "first")
           (PStr "second")).
  reflexivity.
Defined.

(** X3 at a sample input. *)
Lemma set_title_only_titles_witness :
  exists message',
    set_title Sample.prior_card (PStr "Munki") = Ok message' /\
    content_get "summary" message' = Some (PStr "Munki") /\
    content_get "title" message' = Some (PStr "Munki") /\
    section_of message' = section_of Sample.prior_card.
Proof.
  destruct (set_title_only_titles Sample.prior_card (PStr "Munki") eq_refl)
    as (m & E & Hs & Ht & Hsec & _).
  exists m. auto.
Defined.

(** X4 at a sample input: a message without [attachments]. *)
Lemma setters_on_unreachable_section_witness :
  add_fact (PDict []) (PStr "n") (PStr "")
    = Raise (KeyError (PStr "attachments")) /\
  set_activity_image (PDict []) (PStr "") = Ok (PDict []).
Proof.
  destruct (setters_on_unreachable_section (PDict []) (PStr "") (PStr "n")
              (KeyError (PStr "attachments")) eq_refl)
    as (_ & _ & Hadd & Himg).
  split; [exact Hadd|exact Himg].
Defined.

(** X5 at a sample input: the new card without image. *)
Lemma set_then_remove_image_witness :
  exists m1,
    set_activity_image MoreSamples.plain_card (PStr "http://x") = Ok m1 /\
    section_get "activityImage" m1 = Some (PStr "http://x") /\
    set_activity_image m1 (PStr "") = Ok MoreSamples.plain_card.
Proof.
  apply (set_then_remove_image MoreSamples.plain_card "http://x");
    reflexivity.
Defined.

(** X6 at a sample input: a section without [facts]. *)
Lemma add_fact_needs_facts_list_witness :
  add_fact MoreSamples.card_without_facts (PStr "n") (PStr "v")
    = Raise (KeyError (PStr "facts")).
Proof.
  destruct (add_fact_needs_facts_list MoreSamples.card_without_facts
              (PStr "n") (PStr "v") [("activityTitle", PStr "start")]
              eq_refl) as [Hnone _].
  apply Hnone. reflexivity.
Defined.

(** X7 at a sample input: curl exits with code 22. *)
Lemma curl_json_poster_never_false_witness :
  let w := Sample.world Sample.no_files (Sample.always Sample.refused) false in
  fst (_curl_json_poster Example.repr "{}" Sample.url w)
    = Raise (attempt_error Sample.refused).
Proof.
  cbn zeta.
  destruct (curl_json_poster_never_false Example.repr "{}" Sample.url
              (Sample.world Sample.no_files (Sample.always Sample.refused)
                 false)) as (_ & _ & _ & Herr & _).
  apply (Herr 22 "" "curl: (22) The requested URL returned error: 500").
  - reflexivity.
  - vm_compute. discriminate.
Defined.

(** X8 at a sample input: verbosity 0 against verbosity 1. *)
Lemma staging_verbosity_monotone_witness :
  exists m1 m2 w1 w2,
    Notifier.staging_message Example.repr Sample.prior_card
      MoreSamples.staging_summary 0 MoreSamples.quiet
      = (Ok (m1, PStr "Firefox"), w1) /\
    Notifier.staging_message Example.repr Sample.prior_card
      MoreSamples.staging_summary (0 + 1) MoreSamples.quiet
      = (Ok (m2, PStr "Firefox"), w2) /\
    length (facts_of m1) = 2%nat /\ length (facts_of m2) = 4%nat.
Proof.
  destruct (staging_verbosity_monotone Example.repr Sample.prior_card
              MoreSamples.staging_summary MoreSamples.staging_data 0
              MoreSamples.quiet eq_refl eq_refl)
    as (m1 & m2 & w1 & w2 & E1 & E2 & F1 & F2 & _).
  exists m1, m2, w1, w2. rewrite F1, F2. auto.
Defined.

(** X9 at a sample input. *)
Lemma compact_translators_add_one_fact_witness :
  exists m2,
    fst (Summarizer.staging_message Example.repr Sample.prior_card
           MoreSamples.staging_summary (Opaque "int") MoreSamples.quiet)
      = Ok m2 /\
    facts_of m2
      = (facts_of Sample.prior_card
           ++ [fact (PStr "Firefox")
                 (PStr "staged ver. ['99.0', '100.0'] testing -> production")])%list.
Proof.
  destruct (compact_translators_add_one_fact Example.repr Sample.prior_card
              MoreSamples.staging_summary MoreSamples.staging_data
              (Opaque "int") MoreSamples.quiet eq_refl eq_refl)
    as [_ (m2 & E2 & F2 & _)].
  exists m2. rewrite E2. split; [reflexivity|exact F2].
Defined.

(** X10 at a sample input: the summary is [None]. *)
Lemma translators_need_data_witness :
  Notifier.munki_message Example.repr Sample.prior_card PNone 3
    MoreSamples.quiet
    = (Raise (AttributeError "object has no attribute 'get'"),
       MoreSamples.quiet).
Proof.
  apply (translators_need_data Example.repr Sample.prior_card PNone 3
           (Opaque "int") MoreSamples.quiet).
  intros data. discriminate.
Defined.

(** X11 at a sample input. *)
Lemma detailed_translators_only_add_facts_witness :
  exists m1,
    Notifier.munki_message Example.repr Sample.prior_card
      Sample.import_summary 3 MoreSamples.quiet
      = (Ok (m1, PStr "GoogleChrome"),
         logged MoreSamples.quiet
           (import_log Example.repr MoreSamples.import_data)) /\
    same_but_facts Sample.prior_card m1.
Proof.
  apply (detailed_translators_only_add_facts Example.repr Sample.prior_card
           Sample.import_summary MoreSamples.import_data 3
           MoreSamples.quiet); reflexivity.
Defined.

(** X12 at a sample input: the cached card. *)
Lemma compact_result_unpacks_to_keys_witness :
  exists r w',
    Summarizer.munki_message Example.repr
      (PDict [("type", PStr "message");
              ("attachments", MoreSamples.prior_attachments)])
      Sample.import_summary (Opaque "int") MoreSamples.quiet = (Ok r, w') /\
    unpack2 r = Ok (PStr "type", PStr "attachments").
Proof.
  apply (compact_result_unpacks_to_keys Example.repr (PStr "message")
           MoreSamples.prior_attachments Sample.import_summary
           MoreSamples.import_data (Opaque "int") MoreSamples.quiet);
    reflexivity.
Defined.

(** X13 at a sample input: a delivered post with every flag set to clear;
    the message file and another file are both still there. *)
Lemma main_touches_only_message_file_witness :
  let env := Sample.env Sample.url Sample.path false PNone true true in
  let w :=
    Sample.world
      (<["/tmp/other" := mkFile "kept" true]>
         (Sample.cached (Example.dumps Sample.prior_card)))
      (Sample.always Sample.delivered) false in
  fs (snd (Sample.main env w)) !! "/tmp/other" = fs w !! "/tmp/other" /\
  is_Some (fs (snd (Sample.main env w)) !! Sample.path).
Proof.
  cbn zeta. split.
  - destruct (main_touches_only_message_file Example.repr Example.dumps
                Example.loads
                (Sample.env Sample.url Sample.path false PNone true true)
                (Sample.world
                   (<["/tmp/other" := mkFile "kept" true]>
                      (Sample.cached (Example.dumps Sample.prior_card)))
                   (Sample.always Sample.delivered) false) "/tmp/other")
      as [Hother _].
    apply Hother. discriminate.
  - destruct (main_touches_only_message_file Example.repr Example.dumps
                Example.loads
                (Sample.env Sample.url Sample.path false PNone true true)
                (Sample.world
                   (<["/tmp/other" := mkFile "kept" true]>
                      (Sample.cached (Example.dumps Sample.prior_card)))
                   (Sample.always Sample.delivered) false) Sample.path)
      as [_ Hkeep].
    apply Hkeep. vm_compute. eauto.
Defined.

(** X15 at a sample input: the post is refused and [main] returns. *)
Lemma main_returns_only_undelivered_witness :
  let env := Sample.env Sample.url "" false PNone false false in
  let w := Sample.world Sample.no_files (Sample.always Sample.refused) false in
  fst (Sample.main env w) = Ok tt /\
  attempt_ok (transport w (length (posts w))) = false.
Proof.
  cbn zeta. split; [vm_compute; reflexivity|].
  destruct (main_returns_only_undelivered Example.repr Example.dumps
              Example.loads
              (Sample.env Sample.url "" false PNone false false)
              (Sample.world Sample.no_files (Sample.always Sample.refused)
                 false))
    as (_ & _ & [Hu|Hfail]).
  - vm_compute. reflexivity.
  - discriminate Hu.
  - exact Hfail.
Defined.

(** X17 at a sample input: no webhook URL, nothing to translate. *)
Lemma clear_at_finish_always_raises_witness :
  let env := Sample.env "" Sample.path false PNone false true in
  let w :=
    Sample.world (Sample.cached (Example.dumps Sample.prior_card))
      (Sample.always Sample.delivered) false in
  (exists e, fst (Sample.main env w) = Raise e) /\
  fs (snd (Sample.main env w)) = fs w.
Proof.
  cbn zeta.
  apply (clear_at_finish_always_raises Example.repr Example.dumps
           Example.loads
           (Sample.env "" Sample.path false PNone false true)).
  reflexivity.
Defined.

(** X18 at a sample input: the cached card is replaced by a new one. *)
Lemma start_reset_writes_fresh_card_witness :
  let env := Sample.env "" Sample.path false PNone true false in
  let w :=
    Sample.world (Sample.cached (Example.dumps Sample.prior_card))
      (Sample.always Sample.delivered) false in
  exists message r,
    fs (snd (Sample.main env w)) !! Sample.path
      = Some (mkFile (Example.dumps message) r) /\
    facts_of message = [] /\
    section_get "activityTitle" message
      = Some (PStr "start: 2022-05-02 10:00:00").
Proof.
  cbn zeta.
  destruct (start_reset_writes_fresh_card Example.repr Example.dumps
              Example.loads
              (Sample.env "" Sample.path false PNone true false)
              (Sample.world (Sample.cached (Example.dumps Sample.prior_card))
                 (Sample.always Sample.delivered) false)
              eq_refl eq_refl eq_refl eq_refl eq_refl eq_refl)
    as (m & r & Hfile & F & Ht & _).
  exists m, r. auto.
Defined.

(** X19 at a sample input: the disk is full. *)
Lemma write_error_prevents_delivery_witness :
  let env := Sample.env Sample.url Sample.path false PNone false false in
  let w :=
    Sample.world (Sample.cached (Example.dumps Sample.prior_card))
      (Sample.always Sample.delivered) true in
  fst (Sample.main env w) = Raise (OSError "No space left on device") /\
  posts (snd (Sample.main env w)) = [].
Proof.
  cbn zeta. split; [vm_compute; reflexivity|].
  apply (write_error_prevents_delivery Example.repr Example.dumps
           Example.loads
           (Sample.env Sample.url Sample.path false PNone false false)
           (Sample.world (Sample.cached (Example.dumps Sample.prior_card))
              (Sample.always Sample.delivered) true)
           "No space left on device").
  vm_compute. reflexivity.
Defined.

(** X20 at a sample input: a staging summary, the start reset and no
    message file to read. *)
Lemma changes_always_raise_witness :
  let env :=
    Summarizer.mkEnv Sample.url "" "" true PNone MoreSamples.staging_summary
      "" true true false in
  exists e, Sample.main env MoreSamples.quiet = (Raise e, MoreSamples.quiet).
Proof.
  cbn zeta.
  destruct (changes_always_raise Example.repr Example.dumps Example.loads
              (Summarizer.mkEnv Sample.url "" "" true PNone
                 MoreSamples.staging_summary "" true true false)
              MoreSamples.quiet eq_refl) as (e & He & _).
  exists e. exact He.
Defined.

(** X21 at a sample input: the message file holds an empty object. *)
Lemma false_cached_value_replaced_witness :
  let env := Sample.env "" Sample.path false PNone false false in
  let w :=
    Sample.world (Sample.cached (Example.dumps (PDict [])))
      (Sample.always Sample.delivered) false in
  exists message r,
    fs (snd (Sample.main env w)) !! Sample.path
      = Some (mkFile (Example.dumps message) r) /\
    facts_of message = [] /\
    section_get "activityTitle" message
      = Some (PStr "start: 2022-05-02 10:00:00").
Proof.
  cbn zeta.
  apply (false_cached_value_replaced Example.repr Example.dumps Example.loads
           (Sample.env "" Sample.path false PNone false false)
           (Sample.world (Sample.cached (Example.dumps (PDict [])))
              (Sample.always Sample.delivered) false)
           (mkFile (Example.dumps (PDict [])) true) (PDict []));
    reflexivity.
Defined.

(** X22 at a sample input: no message file path and a webhook URL. *)
Lemma no_path_posts_fresh_card_witness :
  let env := Sample.env Sample.url "" false PNone false false in
  let w :=
    Sample.world (Sample.cached "kept") (Sample.always Sample.refused) false in
  fs (snd (Sample.main env w)) = fs w /\
  exists message,
    posts (snd (Sample.main env w))
      = [curl_cmd (Example.dumps message) Sample.url] /\
    facts_of message = [].
Proof.
  cbn zeta.
  destruct (no_path_posts_fresh_card Example.repr Example.dumps Example.loads
              (Sample.env Sample.url "" false PNone false false)
              (Sample.world (Sample.cached "kept")
                 (Sample.always Sample.refused) false) eq_refl)
    as [Hfs Hpost].
  split; [exact Hfs|].
  destruct (Hpost eq_refl eq_refl) as (m & Hp & F & _).
  exists m. split; [exact Hp|exact F].
Defined.

(** X23 at a sample input: verbosity ["2"], [NAME] set, the post
    refused. *)
Lemma notifier_reports_import_witness :
  let env :=
    MoreSamples.notifier_env "Chrome" (PStr "2") true Sample.import_summary
      PNone in
  let w := Sample.world Sample.no_files (Sample.always Sample.refused) false in
  exists message,
    fst (MoreSamples.notifier_main env w)
      = Raise (attempt_error Sample.refused) /\
    facts_of message = detailed_import_facts MoreSamples.import_data 2 /\
    section_get "activityTitle" message
      = Some (PStr "GoogleChrome / Chrome").
Proof.
  cbn zeta.
  destruct (notifier_reports_import Example.repr Example.dumps
              MoreSamples.int_of_str
              (MoreSamples.notifier_env "Chrome" (PStr "2") true
                 Sample.import_summary PNone)
              (Sample.world Sample.no_files (Sample.always Sample.refused)
                 false)
              2 MoreSamples.import_data eq_refl eq_refl eq_refl eq_refl)
    as (m & E & F & _ & Ht & _).
  exists m. split; [|split; [exact F|exact Ht]].
  unfold MoreSamples.notifier_main. rewrite E. reflexivity.
Defined.

(** X24 at a sample input: [NAME] is not set and the separator stays. *)
Lemma notifier_reports_both_witness :
  let env :=
    MoreSamples.notifier_env "" (PInt 1) true Sample.import_summary
      MoreSamples.staging_summary in
  exists message,
    fst (MoreSamples.notifier_main env MoreSamples.quiet) = Ok tt /\
    length (facts_of message) = 5%nat /\
    section_get "activityTitle" message = Some (PStr "GoogleChrome / ").
Proof.
  cbn zeta.
  destruct (notifier_reports_both Example.repr Example.dumps
              MoreSamples.int_of_str
              (MoreSamples.notifier_env "" (PInt 1) true
                 Sample.import_summary MoreSamples.staging_summary)
              MoreSamples.quiet 1 MoreSamples.import_data
              MoreSamples.staging_data eq_refl eq_refl eq_refl eq_refl)
    as (m & E & F & _ & Ht).
  exists m. split; [|split; [now rewrite F|exact Ht]].
  unfold MoreSamples.notifier_main. rewrite E. reflexivity.
Defined.

(** X25 at a sample input. *)
Lemma notifier_reports_staging_witness :
  let env :=
    MoreSamples.notifier_env "Chrome" (PInt 0) true PNone
      MoreSamples.staging_summary in
  exists message,
    fst (MoreSamples.notifier_main env MoreSamples.quiet) = Ok tt /\
    facts_of message = detailed_staging_facts MoreSamples.staging_data 0 /\
    section_get "activityTitle" message = Some (PStr "Firefox").
Proof.
  cbn zeta.
  destruct (notifier_reports_staging Example.repr Example.dumps
              MoreSamples.int_of_str
              (MoreSamples.notifier_env "Chrome" (PInt 0) true PNone
                 MoreSamples.staging_summary)
              MoreSamples.quiet 0 MoreSamples.staging_data
              eq_refl eq_refl eq_refl eq_refl)
    as (m & E & F & _ & Ht).
  exists m. split; [|split; [exact F|exact Ht]].
  unfold MoreSamples.notifier_main. rewrite E. reflexivity.
Defined.

(** X26 at a sample input: a summary is present but nothing changed. *)
Lemma notifier_nothing_to_report_witness :
  let env :=
    MoreSamples.notifier_env "Chrome" (PInt 3) false Sample.import_summary
      PNone in
  MoreSamples.notifier_main env MoreSamples.quiet
    = (Ok tt, logged MoreSamples.quiet [(1, "Nothing to report to Teams")]).
Proof.
  cbn zeta.
  apply (notifier_nothing_to_report Example.repr Example.dumps
           MoreSamples.int_of_str
           (MoreSamples.notifier_env "Chrome" (PInt 3) false
              Sample.import_summary PNone)
           MoreSamples.quiet 3); reflexivity.
Defined.

(** X27 at a sample input: the verbosity is not set. *)
Lemma notifier_verbosity_must_convert_witness :
  let env :=
    MoreSamples.notifier_env "Chrome" PNone true Sample.import_summary PNone in
  exists e,
    MoreSamples.notifier_main env MoreSamples.quiet
      = (Raise e, MoreSamples.quiet).
Proof.
  cbn zeta. eexists.
  apply (notifier_verbosity_must_convert Example.repr Example.dumps
           MoreSamples.int_of_str
           (MoreSamples.notifier_env "Chrome" PNone true
              Sample.import_summary PNone)
           MoreSamples.quiet).
  reflexivity.
Defined.
